(** * DosaClub: the suggestion paths of the client and the resilience core

    The client code (TypeScript) is embedded shallowly: JavaScript values
    are a small inductive type with objects as finite maps, asynchronous
    handlers are functions from their inputs and the outcome of the network
    call to the list of effects they perform.  The resilience components of
    the backend (circuit breaker, retry executor, cache layer, BMI) are not
    part of the available sources; they are modelled from the
    specification and marked as such. *)

From Stdlib Require Import QArith ZArith Lia Lqa Sorted.
From stdpp Require Import gmap strings list.

Set Warnings "-register-all".
Open Scope string_scope.
Open Scope list_scope.

(** ** JavaScript values *)

Module Js.

Inductive JsVal : Type :=
  | JUndefined
  | JNull
  | JBool (b : bool)
  | JNum (q : Q)
  | JNaN
  | JStr (s : string)
  | JArr (l : list JsVal)
  | JObj (o : gmap string JsVal).

Definition num (z : Z) : JsVal := JNum (inject_Z z).

(** ToBoolean: [undefined], [null], [false], [0], [NaN] and [''] are falsy. *)
Definition truthy (v : JsVal) : bool :=
  match v with
  | JUndefined | JNull | JNaN => false
  | JBool b => b
  | JNum q => negb (Qeq_bool q 0)
  | JStr s => negb (String.eqb s "")
  | JArr _ | JObj _ => true
  end.

(** [a || b] *)
Definition js_or (a b : JsVal) : JsVal := if truthy a then a else b.

(** [o[k]] on an object given by its own properties. *)
Definition field (k : string) (o : gmap string JsVal) : JsVal :=
  default JUndefined (o !! k).

(** [v?.k]; also [v.k] wherever [v] is known not to be nullish.  A
    primitive has none of the property names read by this program. *)
Definition get (k : string) (v : JsVal) : JsVal :=
  match v with
  | JObj o => field k o
  | _ => JUndefined
  end.

(** [v === n] for a number literal and [v === s] for a string literal. *)
Definition eq_num (v : JsVal) (n : Z) : bool :=
  match v with
  | JNum q => Qeq_bool q (inject_Z n)
  | _ => false
  end.

Definition eq_str (v : JsVal) (s : string) : bool :=
  match v with
  | JStr t => String.eqb t s
  | _ => false
  end.

(** [String.prototype.includes] *)
Fixpoint includes (needle s : string) : bool :=
  String.prefix needle s
  || match s with
     | EmptyString => false
     | String _ rest => includes needle rest
     end.

(** [v?.includes(needle)]: [None] is the TypeError raised when [v] is
    neither nullish, a string nor an array. *)
Definition opt_includes (v : JsVal) (needle : string) : option JsVal :=
  match v with
  | JUndefined | JNull => Some JUndefined
  | JStr s => Some (JBool (includes needle s))
  | JArr l => Some (JBool (existsb (fun x => eq_str x needle) l))
  | _ => None
  end.

(** [{ ...base, ...over }] *)
Definition spread (base over : gmap string JsVal) : gmap string JsVal :=
  over ∪ base.

End Js.
Import Js.

(** ** Effects performed by the screens *)

Inductive Effect : Type :=
  | ConsoleError (label : string)
  | ConsoleLog (label : string)
  | MessageError (content : JsVal)
  | MessageSuccess (content : JsVal)
  | Navigate (path : string) (state : JsVal)
  | ApiPost (url : string) (body : JsVal)
  | SessionSet (key : string) (value : JsVal)
  | SetLoading (b : bool)
  | SetModalVisible (b : bool)
  | FetchItems.

Definition is_api_post (e : Effect) : bool :=
  match e with ApiPost _ _ => true | _ => false end.

Definition is_message_error (e : Effect) : bool :=
  match e with MessageError _ => true | _ => false end.

(** ** services/api.ts *)

Module Api.

Record AxiosResponse := { status : Z; data : JsVal }.

Record AxiosError := {
  code : JsVal;
  message : string;
  response : option AxiosResponse
}.

(** What the transport hands to the interceptors. *)
Inductive RawOutcome : Type :=
  | RawOk (r : AxiosResponse)
  | RawErr (e : AxiosError).

(** A settled promise. *)
Inductive Settled : Type :=
  | Fulfilled (v : JsVal)
  | Rejected (reason : JsVal).

Definition response_obj (r : AxiosResponse) : JsVal :=
  JObj (<["status" := num (status r)]> (<["data" := data r]> ∅)).

Definition error_obj (e : AxiosError) : JsVal :=
  JObj (<["code" := code e]> (<["message" := JStr (message e)]>
        (match response e with
         | Some r => <["response" := response_obj r]> ∅
         | None => ∅
         end))).

Definition timeout_fallback : gmap string JsVal :=
  <["health_summary" := JStr "Your BMI is normal. Using safe recommendation due to timeout."]>
  (<["bmi_category" := JStr "normal"]>
  (<["suggested_item" := JStr "Plain Idli"]>
  (<["suggested_item_details" := JNull]>
  (<["similar_items" := JArr []]>
  (<["reason" := JStr "Safe, low-calorie option suitable for your health profile."]> ∅))))).

(** [error.code === 'ECONNABORTED' || error.message.includes('timeout')] *)
Definition is_timeout (e : AxiosError) : bool :=
  eq_str (code e) "ECONNABORTED" || includes "timeout" (message e).

(** The response interceptor: successes pass, a timeout is turned into a
    fulfilled fallback response, any other error is rejected with
    [error.response?.data || error].  Its console output is not recorded. *)
Definition interceptor (raw : RawOutcome) : Settled :=
  match raw with
  | RawOk r => Fulfilled (response_obj r)
  | RawErr e =>
      if is_timeout e then
        Fulfilled (JObj (<["data" := JObj timeout_fallback]> ∅))
      else
        Rejected (js_or (match response e with
                         | Some r => data r
                         | None => JUndefined
                         end) (error_obj e))
  end.

(** [const response = await this.client.post(...); return response.data] *)
Definition post_data (raw : RawOutcome) : Settled :=
  match interceptor raw with
  | Fulfilled resp => Fulfilled (get "data" resp)
  | Rejected reason => Rejected reason
  end.

Definition getSuggestion (raw : RawOutcome) : Settled := post_data raw.
Definition getGuestSuggestion (raw : RawOutcome) : Settled := post_data raw.
Definition saveMenuItem (raw : RawOutcome) : Settled := post_data raw.

End Api.
Import Api.

(** ** features/Processing/ProcessingScreen.tsx *)

Module Processing.

Definition requiredFields : list string :=
  [ "name"; "phone_number"; "age"; "height_cm"; "weight_kg"; "diet_type";
    "medical_condition"; "health_goal"; "spice_tolerance" ].

Definition missingFields (userData : gmap string JsVal) : list string :=
  List.filter (fun f => negb (truthy (field f userData))) requiredFields.

(** The [catch] branch of [fetchSuggestion]. *)
Definition fetchSuggestion_catch (error : JsVal) : list Effect :=
  [ ConsoleError "API Error:";
    (if eq_num (get "status" (get "response" error)) 422
     then MessageError (JStr "Incomplete data. Please retake the questionnaire.")
     else MessageError (js_or (get "message" error)
                          (JStr "Unable to get recommendation. Please try again.")));
    Navigate "/questions" JUndefined ].

Definition fetchSuggestion (userData : gmap string JsVal) (net : RawOutcome)
  : list Effect :=
  if (0 <? length (missingFields userData))%nat then
    [ ConsoleError "Missing required fields:";
      MessageError (JStr "Please complete all questions first.");
      Navigate "/start" JUndefined ]
  else
    ApiPost "/user/suggest-item" (JObj userData) ::
    match getSuggestion net with
    | Fulfilled result =>
        [ Navigate "/recommendation" (JObj (<["recommendation" := result]> ∅)) ]
    | Rejected error => fetchSuggestion_catch error
    end.

End Processing.

(** ** features/Guest/GuestQuestionnaireScreen.tsx *)

Module Guest.

(** How the handler ends: normally, or with an exception leaving its
    [catch] branch (after [finally] has run). *)
Inductive Outcome : Type :=
  | Done (trace : list Effect)
  | Uncaught (trace : list Effect).

Definition trace_of (o : Outcome) : list Effect :=
  match o with Done t | Uncaught t => t end.

Definition fallbackSuggestion : gmap string JsVal :=
  <["health_summary" := JStr "Based on your profile, we recommend a balanced diet approach."]>
  (<["bmi_category" := JStr "normal"]>
  (<["suggested_item" := JStr "Plain Dosa"]>
  (<["suggested_item_details" := JNull]>
  (<["similar_items" := JArr []]>
  (<["reason" := JStr "Safe, nutritious option suitable for your health profile."]> ∅))))).

(** [completeData.k || formData.k || d] *)
Definition merged (completeData formData : gmap string JsVal)
    (k : string) (d : JsVal) : JsVal :=
  js_or (js_or (field k completeData) (field k formData)) d.

(** The [healthData] object literal: eight merged properties, then
    [...completeData]. *)
Definition healthData (completeData formData : gmap string JsVal)
  : gmap string JsVal :=
  let m := merged completeData formData in
  spread
    (<["age" := m "age" (num 25)]>
    (<["gender" := m "gender" (JStr "other")]>
    (<["height_cm" := m "height_cm" (num 170)]>
    (<["weight_kg" := m "weight_kg" (num 70)]>
    (<["diet_type" := m "diet_type" (JStr "veg")]>
    (<["health_goal" := m "health_goal" (JStr "balanced")]>
    (<["medical_condition" := m "medical_condition" (JStr "none")]>
    (<["spice_tolerance" := m "spice_tolerance" (JStr "medium")]> ∅))))))))
    completeData.

Definition suggestionRequest (sessionData : JsVal)
    (completeData formData : gmap string JsVal) : JsVal :=
  JObj (<["session_id" := get "session_id" sessionData]>
       (<["health_data" := JObj (healthData completeData formData)]> ∅)).

(** [`Error: ${v}`]: the text when [v] is a string; another value is
    kept next to the prefix, unformatted. *)
Definition error_template (v : JsVal) : JsVal :=
  match v with
  | JStr s => JStr ("Error: " ++ s)%string
  | _ => JArr [JStr "Error: "; v]
  end.

(** The [catch] branch; [finally] appends [setLoading(false)].  The value
    kept by [sessionStorage.setItem] is recorded before serialisation. *)
Definition handleSubmit_catch (sessionData error : JsVal) : Outcome :=
  let st := get "status" (get "response" error) in
  if eq_num st 500 || eq_num st 404 then
    Done [ ConsoleError "Guest Suggestion Error:";
           SessionSet "guestSuggestion" (JObj fallbackSuggestion);
           SessionSet "guestSessionData" sessionData;
           Navigate "/guest/recommendation" JUndefined;
           SetLoading false ]
  else
    match opt_includes (get "detail" error) "Invalid or expired guest session" with
    | None => Uncaught [ ConsoleError "Guest Suggestion Error:"; SetLoading false ]
    | Some inc =>
        if truthy inc then
          Done [ ConsoleError "Guest Suggestion Error:";
                 MessageError (JStr "Session expired. Please start again.");
                 Navigate "/mode-selection" JUndefined;
                 SetLoading false ]
        else if truthy (get "data" (get "response" error)) then
          let d := get "data" (get "response" error) in
          Done [ ConsoleError "Guest Suggestion Error:";
                 MessageError (js_or (js_or (get "detail" d) (get "message" d))
                                 (JStr "Failed to get recommendation"));
                 SetLoading false ]
        else if truthy (get "message" error) then
          Done [ ConsoleError "Guest Suggestion Error:";
                 MessageError (error_template (get "message" error));
                 SetLoading false ]
        else
          Done [ ConsoleError "Guest Suggestion Error:";
                 MessageError (JStr "Failed to get recommendation. Please try again.");
                 SetLoading false ]
    end.

Definition handleSubmit (sessionData : JsVal)
    (formData completeData : gmap string JsVal) (net : RawOutcome) : Outcome :=
  if negb (truthy sessionData) then
    Done [ MessageError (JStr "Session expired. Please start again.");
           Navigate "/mode-selection" JUndefined ]
  else
    let pre :=
      [ SetLoading true;
        ConsoleLog "Guest Session Data:"; ConsoleLog "Form Data:";
        ConsoleLog "Complete Health Data:"; ConsoleLog "Final Health Data:";
        ConsoleLog "Suggestion Request:";
        ApiPost "/guest/suggest-item"
          (suggestionRequest sessionData completeData formData) ] in
    match getGuestSuggestion net with
    | Fulfilled suggestion =>
        Done (pre ++
          [ ConsoleLog "Suggestion Response:";
            SessionSet "guestSuggestion" suggestion;
            SessionSet "guestSessionData" sessionData;
            Navigate "/guest/recommendation" JUndefined;
            SetLoading false ])
    | Rejected error =>
        match handleSubmit_catch sessionData error with
        | Done t => Done (pre ++ t)
        | Uncaught t => Uncaught (pre ++ t)
        end
    end.

(** The eight fields of [GuestData] with the literal each one falls back
    to in [healthData]. *)
Definition guest_defaults : list (string * JsVal) :=
  [ ("age", num 25); ("gender", JStr "other"); ("height_cm", num 170);
    ("weight_kg", num 70); ("diet_type", JStr "veg");
    ("health_goal", JStr "balanced"); ("medical_condition", JStr "none");
    ("spice_tolerance", JStr "medium") ].

End Guest.

(** ** features/Admin/AdminDashboardScreen.tsx *)

Module Admin.

Definition default_suitable_for : JsVal :=
  JObj (<["bmi_categories" :=
            JArr [JStr "underweight"; JStr "normal"; JStr "overweight"; JStr "obese"]]>
       (<["medical_conditions" :=
            JArr [JStr "none"; JStr "diabetes"; JStr "bp"; JStr "acidity"]]> ∅)).

(** [{ ...values, suitable_for: editingItem?.suitable_for || {...} }] *)
Definition payload (values : gmap string JsVal) (editingItem : JsVal)
  : gmap string JsVal :=
  <["suitable_for" := js_or (get "suitable_for" editingItem) default_suitable_for]>
    values.

Definition handleSave (values : gmap string JsVal) (editingItem : JsVal)
    (net : RawOutcome) : list Effect :=
  ApiPost "/admin/menu" (JObj (payload values editingItem)) ::
  match saveMenuItem net with
  | Fulfilled _ =>
      [ MessageSuccess
          (JStr ("Item " ++ (if truthy editingItem then "updated" else "created")
                 ++ " successfully")%string);
        SetModalVisible false;
        FetchItems ]
  | Rejected _ => [ MessageError (JStr "Failed to save item") ]
  end.

(** Suitability as the recommendation rules read it: an item is eligible
    for a (BMI category, medical condition) pair when both tags are listed. *)
Definition listed (tag : string) (l : JsVal) : bool :=
  match l with
  | JArr xs => existsb (fun x => eq_str x tag) xs
  | _ => false
  end.

Definition eligible (suitable_for : JsVal) (bmi cond : string) : bool :=
  listed bmi (get "bmi_categories" suitable_for)
  && listed cond (get "medical_conditions" suitable_for).

Definition bmi_categories : list string :=
  [ "underweight"; "normal"; "overweight"; "obese" ].

Definition medical_conditions : list string :=
  [ "none"; "diabetes"; "bp"; "acidity" ].

End Admin.

(** ** What the recommendation screens show
    (RecommendationScreen.tsx, GuestRecommendationScreen.tsx) *)

Module Recommendation.

(** The registered screen shows [location.state?.recommendation] when it
    is truthy. *)
Fixpoint user_recommendation (t : list Effect) : option JsVal :=
  match t with
  | [] => None
  | Navigate p st :: rest =>
      if String.eqb p "/recommendation" then
        (if truthy (get "recommendation" st)
         then Some (get "recommendation" st) else None)
      else user_recommendation rest
  | _ :: rest => user_recommendation rest
  end.

(** [sessionStorage.getItem k] after the trace: the last write wins. *)
Fixpoint stored (k : string) (t : list Effect) : option JsVal :=
  match t with
  | [] => None
  | e :: rest =>
      match stored k rest with
      | Some v => Some v
      | None =>
          match e with
          | SessionSet k' v => if String.eqb k k' then Some v else None
          | _ => None
          end
      end
  end.

Definition navigates_to (p : string) (t : list Effect) : bool :=
  existsb (fun e => match e with
                    | Navigate q _ => String.eqb p q
                    | _ => false
                    end) t.

(** The guest screen shows the stored suggestion when both stored items
    are present and truthy. *)
Definition guest_recommendation (t : list Effect) : option JsVal :=
  if navigates_to "/guest/recommendation" t then
    match stored "guestSuggestion" t, stored "guestSessionData" t with
    | Some s, Some d => if truthy s && truthy d then Some s else None
    | _, _ => None
    end
  else None.

Definition shows_error (t : list Effect) : bool := existsb is_message_error t.

Definition api_calls (t : list Effect) : nat :=
  length (List.filter is_api_post t).

(** A reason text that says the suggestion is a default served because
    the service is degraded. *)
Definition states_degraded (s : string) : bool :=
  includes "degraded" s || includes "timeout" s || includes "unavailable" s
  || includes "fallback" s || includes "default" s.

Definition text_of (v : JsVal) : string :=
  match v with JStr s => s | _ => "" end.

End Recommendation.

(** ** Circuit breaker (backend: services/circuit_breaker.py, not among
    the available sources) *)

Module Breaker.

(** Modelled from the spec: the three breaker states of section 4.2;
    circuit_breaker.py is missing. *)
Inductive State : Type := Closed | Open | HalfOpen.

(** Modelled from the spec: the configuration of section 4.2 (failure
    threshold, recovery timeout, success threshold); circuit_breaker.py
    is missing. *)
Record Config := {
  failureThreshold : nat;
  recoveryTimeout : Z;
  successThreshold : nat
}.

(** Modelled from the spec: CircuitBreakerState of section 3 (state,
    consecutive failure count, last transition time) with the
    probe-success counter of section 4.2; circuit_breaker.py is missing. *)
Record Breaker := {
  state : State;
  failureCount : nat;
  probeSuccesses : nat;
  transitionTime : Z
}.

(** Modelled from the spec: a new breaker is closed with all counters at
    zero; circuit_breaker.py is missing. *)
Definition init (now : Z) : Breaker :=
  {| state := Closed; failureCount := 0; probeSuccesses := 0;
     transitionTime := now |}.

(** Modelled from the spec: the gate of section 4.2.  A call while Open
    and before [now - transitionTime >= recoveryTimeout] is rejected; once
    the timeout has elapsed the call is let through in Half-Open.
    circuit_breaker.py is missing. *)
Definition gate (cfg : Config) (now : Z) (b : Breaker) : Breaker * bool :=
  match state b with
  | Closed | HalfOpen => (b, true)
  | Open =>
      if (recoveryTimeout cfg <=? now - transitionTime b)%Z then
        ({| state := HalfOpen; failureCount := failureCount b;
            probeSuccesses := 0; transitionTime := now |}, true)
      else (b, false)
  end.

(** Modelled from the spec: a failed call.  In Closed the counter is
    incremented and reaching the threshold opens the circuit; in Half-Open
    any failure reopens it and restarts the recovery timer.
    circuit_breaker.py is missing. *)
Definition on_failure (cfg : Config) (now : Z) (b : Breaker) : Breaker :=
  match state b with
  | Closed =>
      if (failureThreshold cfg <=? S (failureCount b))%nat then
        {| state := Open; failureCount := S (failureCount b);
           probeSuccesses := 0; transitionTime := now |}
      else
        {| state := Closed; failureCount := S (failureCount b);
           probeSuccesses := probeSuccesses b;
           transitionTime := transitionTime b |}
  | HalfOpen =>
      {| state := Open; failureCount := failureCount b;
         probeSuccesses := 0; transitionTime := now |}
  | Open => b
  end.

(** Modelled from the spec: a successful call.  In Closed the count of
    consecutive failures starts again; in Half-Open the probe-success
    counter is incremented and meeting the success threshold closes the
    circuit and resets all counters.  circuit_breaker.py is missing. *)
Definition on_success (cfg : Config) (now : Z) (b : Breaker) : Breaker :=
  match state b with
  | Closed =>
      {| state := Closed; failureCount := 0;
         probeSuccesses := probeSuccesses b;
         transitionTime := transitionTime b |}
  | HalfOpen =>
      if (successThreshold cfg <=? S (probeSuccesses b))%nat then
        {| state := Closed; failureCount := 0; probeSuccesses := 0;
           transitionTime := now |}
      else
        {| state := HalfOpen; failureCount := failureCount b;
           probeSuccesses := S (probeSuccesses b);
           transitionTime := transitionTime b |}
  | Open => b
  end.

(** Modelled from the spec: the result of one guarded call;
    circuit_breaker.py is missing. *)
Inductive CallResult : Type :=
  | CircuitOpenError
  | Returned
  | Failed.

(** Modelled from the spec: one guarded call at time [now] of a protected
    operation that would succeed ([ok = true]) or fail.  The third
    component counts the invocations of the protected operation.
    circuit_breaker.py is missing. *)
Definition call (cfg : Config) (now : Z) (ok : bool) (b : Breaker)
  : Breaker * CallResult * nat :=
  let (b1, allowed) := gate cfg now b in
  if allowed then
    if ok then (on_success cfg now b1, Returned, 1%nat)
    else (on_failure cfg now b1, Failed, 1%nat)
  else (b1, CircuitOpenError, 0%nat).

(** Modelled from the spec: a sequence of guarded calls, each with its
    time and the outcome the operation would have; returns the final
    breaker and the total number of invocations of the operation.
    circuit_breaker.py is missing. *)
Fixpoint run (cfg : Config) (calls : list (Z * bool)) (b : Breaker)
  : Breaker * nat :=
  match calls with
  | [] => (b, 0%nat)
  | (now, ok) :: rest =>
      let '(b1, _, n) := call cfg now ok b in
      let (b2, m) := run cfg rest b1 in
      (b2, (n + m)%nat)
  end.

(** Modelled from the spec: the breaker state left by one guarded call;
    circuit_breaker.py is missing. *)
Definition after_call (cfg : Config) (now : Z) (ok : bool) (b : Breaker)
  : Breaker :=
  fst (fst (call cfg now ok b)).

(** Modelled from the spec: calls at the given times whose protected
    operation fails; circuit_breaker.py is missing. *)
Definition failures (times : list Z) : list (Z * bool) :=
  List.map (fun t => (t, false)) times.

(** Modelled from the spec: calls at the given times whose protected
    operation succeeds; circuit_breaker.py is missing. *)
Definition successes (times : list Z) : list (Z * bool) :=
  List.map (fun t => (t, true)) times.

(** Modelled from the spec: the transitions of one cycle (invariant of
    section 3): closed to open, open to half-open, half-open to closed or
    back to open; a state may also persist.  circuit_breaker.py is
    missing. *)
Definition allowed (s s' : State) : bool :=
  match s, s' with
  | Closed, Closed | Closed, Open => true
  | Open, Open | Open, HalfOpen => true
  | HalfOpen, HalfOpen | HalfOpen, Closed | HalfOpen, Open => true
  | _, _ => false
  end.

(** Modelled from the spec: the results of a sequence of guarded calls,
    one per call and in the order of the calls; circuit_breaker.py is
    missing. *)
Fixpoint results (cfg : Config) (calls : list (Z * bool)) (b : Breaker)
  : list CallResult :=
  match calls with
  | [] => []
  | (now, ok) :: rest =>
      let '(b1, r, _) := call cfg now ok b in
      r :: results cfg rest b1
  end.

(** Modelled from the spec: the word 'consecutive' of sections 3 and 4.2.
    [consecutive r rs] is the number of results at the end of [rs] that
    are all [r]: the calls since the last call with another result.
    circuit_breaker.py is missing. *)
Definition is_result (r x : CallResult) : bool :=
  match r, x with
  | CircuitOpenError, CircuitOpenError => true
  | Returned, Returned => true
  | Failed, Failed => true
  | _, _ => false
  end.

Fixpoint leading (r : CallResult) (rs : list CallResult) : nat :=
  match rs with
  | x :: rest => if is_result r x then S (leading r rest) else 0
  | [] => 0
  end.

Definition consecutive (r : CallResult) (rs : list CallResult) : nat :=
  leading r (rev rs).

(** Modelled from the spec: in a closed breaker the failure count is below
    the threshold, in a half-open one the probe successes are below the
    success threshold; circuit_breaker.py is missing. *)
Definition wf (cfg : Config) (b : Breaker) : Prop :=
  match state b with
  | Closed => (failureCount b < failureThreshold cfg)%nat
  | HalfOpen => (probeSuccesses b < successThreshold cfg)%nat
  | Open => True
  end.

End Breaker.

(** ** Retry executor (backend: services/retry_service.py, not among the
    available sources) *)

Module Retry.

(** Modelled from the spec: the outcome of one attempt, classified as in
    section 4.3; retry_service.py is missing. *)
Inductive Attempt (A E : Type) : Type :=
  | Success (a : A)
  | Retryable (e : E)
  | NonRetryable (e : E).
Arguments Success {A E} a.
Arguments Retryable {A E} e.
Arguments NonRetryable {A E} e.

(** Modelled from the spec: [result | FinalError]; retry_service.py is
    missing. *)
Inductive Result (A E : Type) : Type :=
  | Ok (a : A)
  | FinalError (e : E).
Arguments Ok {A E} a.
Arguments FinalError {A E} e.

(** Modelled from the spec: [random_jitter(0, baseDelay)] drawn from an
    injected source (section 9), one draw per retry; retry_service.py is
    missing.  Delays are in milliseconds. *)
Definition jitter (baseDelay : Z) (source : nat -> Z) (n : nat) : Z :=
  (source n mod baseDelay)%Z.

(** Modelled from the spec: [baseDelay * 2^(n-1) + random_jitter(0,
    baseDelay)], the delay of retry [n] (1-indexed), waited after the
    [n]-th attempt has failed; retry_service.py is missing. *)
Definition backoff_delay (baseDelay : Z) (source : nat -> Z) (n : nat) : Z :=
  (baseDelay * 2 ^ (Z.of_nat (n - 1)) + jitter baseDelay source n)%Z.

Section Execute.
Context {A E : Type}.
Variable operation : nat -> Attempt A E.
Variable baseDelay : Z.
Variable source : nat -> Z.

(** Modelled from the spec: attempt [n] and, on a retryable failure with
    attempts left, the backoff wait and the next attempt; returns the
    result and the delays waited.  retry_service.py is missing. *)
Fixpoint attempt_from (n remaining : nat) : Result A E * list Z :=
  match operation n with
  | Success a => (Ok a, [])
  | NonRetryable e => (FinalError e, [])
  | Retryable e =>
      match remaining with
      | O => (FinalError e, [])
      | S r =>
          let (res, waits) := attempt_from (S n) r in
          (res, backoff_delay baseDelay source n :: waits)
      end
  end.

(** Modelled from the spec: [execute(operation, maxAttempts, baseDelay)];
    nothing is attempted when [maxAttempts] is zero.  retry_service.py is
    missing. *)
Definition execute (maxAttempts : nat) : option (Result A E * list Z) :=
  match maxAttempts with
  | O => None
  | S r => Some (attempt_from 1 r)
  end.
End Execute.

(** Modelled from the spec: the classification of section 4.3 as tests;
    retry_service.py is missing. *)
Definition is_retryable {A E : Type} (a : Attempt A E) : bool :=
  match a with Retryable _ => true | _ => false end.

Definition is_final_error {A E : Type} (r : Result A E) : bool :=
  match r with FinalError _ => true | Ok _ => false end.

(** Modelled from the spec: the delay waited before attempt [a] (for
    [a >= 2]) in the list of waits of an execution; retry_service.py is
    missing. *)
Definition delay_before (waits : list Z) (a : nat) : option Z :=
  nth_error waits (a - 2).

End Retry.

(** ** Cache layer (backend: services/cache_service.py, not among the
    available sources) *)

Module Cache.

(** Modelled from the spec: CacheEntry of section 3 (key, opaque value,
    insertion time, last-access time, expiry [now + ttl]);
    cache_service.py is missing. *)
Record CacheEntry (V : Type) := {
  key : string;
  value : V;
  insertedAt : Z;
  lastAccess : Z;
  expiresAt : Z
}.
Arguments key {V} _.
Arguments value {V} _.
Arguments insertedAt {V} _.
Arguments lastAccess {V} _.
Arguments expiresAt {V} _.

(** Modelled from the spec: the cache of section 4.4 with its fixed
    maximum entry count and counters.  The entries are kept in order of
    last access, the least recently used first.  cache_service.py is
    missing. *)
Record Cache (V : Type) := {
  maxSize : nat;
  entries : list (CacheEntry V);
  hits : nat;
  misses : nat;
  evictions : nat
}.
Arguments maxSize {V} _.
Arguments entries {V} _.
Arguments hits {V} _.
Arguments misses {V} _.
Arguments evictions {V} _.

Section Operations.
Context {V : Type}.

(** Modelled from the spec: an empty cache of the given capacity;
    cache_service.py is missing. *)
Definition empty (n : nat) : Cache V :=
  {| maxSize := n; entries := []; hits := 0; misses := 0; evictions := 0 |}.

(** Modelled from the spec: finding and removing the entry of a key;
    cache_service.py is missing. *)
Definition has_key (k : string) (e : CacheEntry V) : bool :=
  String.eqb k (key e).

Definition lookup_entry (k : string) (es : list (CacheEntry V))
  : option (CacheEntry V) :=
  List.find (has_key k) es.

Definition remove_key (k : string) (es : list (CacheEntry V))
  : list (CacheEntry V) :=
  List.filter (fun e => negb (has_key k e)) es.

Definition keys (c : Cache V) : list string := List.map key (entries c).

(** Modelled from the spec: [get(key)] of section 4.4.  A missing or
    expired entry is a miss and the expired entry is removed; a hit
    makes the entry the most recently used.  cache_service.py is
    missing. *)
Definition get (k : string) (now : Z) (c : Cache V) : Cache V * option V :=
  match lookup_entry k (entries c) with
  | None =>
      ({| maxSize := maxSize c; entries := entries c; hits := hits c;
          misses := S (misses c); evictions := evictions c |}, None)
  | Some e =>
      if (expiresAt e <=? now)%Z then
        ({| maxSize := maxSize c; entries := remove_key k (entries c);
            hits := hits c; misses := S (misses c);
            evictions := evictions c |}, None)
      else
        ({| maxSize := maxSize c;
            entries := remove_key k (entries c) ++
              [ {| key := k; value := value e; insertedAt := insertedAt e;
                   lastAccess := now; expiresAt := expiresAt e |} ];
            hits := S (hits c); misses := misses c;
            evictions := evictions c |}, Some (value e))
  end.

(** Modelled from the spec: [put(key, value, ttl)] of section 4.4.  An
    existing key is replaced; a new key inserted at capacity first
    evicts the least recently used entry; a cache whose maximum entry
    count is zero holds nothing.  cache_service.py is missing. *)
Definition put (k : string) (v : V) (ttl now : Z) (c : Cache V) : Cache V :=
  let fresh := {| key := k; value := v; insertedAt := now;
                  lastAccess := now; expiresAt := (now + ttl)%Z |} in
  match lookup_entry k (entries c) with
  | Some _ =>
      {| maxSize := maxSize c; entries := remove_key k (entries c) ++ [fresh];
         hits := hits c; misses := misses c; evictions := evictions c |}
  | None =>
      if (maxSize c =? 0)%nat then c
      else if (maxSize c <=? length (entries c))%nat then
        {| maxSize := maxSize c; entries := tail (entries c) ++ [fresh];
           hits := hits c; misses := misses c;
           evictions := S (evictions c) |}
      else
        {| maxSize := maxSize c; entries := entries c ++ [fresh];
           hits := hits c; misses := misses c; evictions := evictions c |}
  end.

(** Modelled from the spec: the operations a caller can perform, each at
    its time, and their effect on the cache; cache_service.py is
    missing. *)
Inductive Op : Type :=
  | Get (k : string) (now : Z)
  | Put (k : string) (v : V) (ttl now : Z).

Definition time_of (o : Op) : Z :=
  match o with Get _ t => t | Put _ _ _ t => t end.

Definition step (o : Op) (c : Cache V) : Cache V :=
  match o with
  | Get k now => fst (get k now c)
  | Put k v ttl now => put k v ttl now c
  end.

Definition run (ops : list Op) (c : Cache V) : Cache V :=
  fold_left (fun c o => step o c) ops c.

(** Modelled from the spec: what 'least recently used' and 'least
    recently accessed' of section 4.4 refer to.  An operation accesses
    its key at its time when it is a put or a get that hits; [accesses]
    lists the accesses of a sequence of operations in order, and
    [last_access] is the time of the last access of a key in such a list.
    cache_service.py is missing. *)
Definition touch (o : Op) (c : Cache V) : list (string * Z) :=
  match o with
  | Put k _ _ now => [ (k, now) ]
  | Get k now =>
      match snd (get k now c) with
      | Some _ => [ (k, now) ]
      | None => []
      end
  end.

Fixpoint accesses (ops : list Op) (c : Cache V) : list (string * Z) :=
  match ops with
  | [] => []
  | o :: rest => touch o c ++ accesses rest (step o c)
  end.

Definition last_access (k : string) (l : list (string * Z)) : option Z :=
  fold_left (fun acc x => if String.eqb k (fst x) then Some (snd x) else acc)
    l None.

(** Modelled from the spec: the clock never runs backwards over a
    sequence of operations that starts at time [t]; cache_service.py is
    missing. *)
Fixpoint chronological (t : Z) (ops : list Op) : Prop :=
  match ops with
  | [] => True
  | o :: rest => (t <= time_of o)%Z /\ chronological (time_of o) rest
  end.

(** Modelled from the spec: the entries are in order of their last-access
    time and none was accessed after [t]; cache_service.py is missing. *)
Definition ordered (t : Z) (es : list (CacheEntry V)) : Prop :=
  StronglySorted Z.le (List.map lastAccess es)
  /\ Forall (fun e => (lastAccess e <= t)%Z) es.

(** Modelled from the spec: an insertion given as key, value, ttl and
    time; cache_service.py is missing. *)
Definition put_of (x : string * V * Z * Z) : Op :=
  let '(k, v, ttl, now) := x in Put k v ttl now.

Definition key_of (x : string * V * Z * Z) : string :=
  let '(k, _, _, _) := x in k.
End Operations.
Arguments Op V : clear implicits.

End Cache.

(** ** Body-mass index (backend: services/enhanced_health_logic.py, not
    among the available sources) *)

Module Bmi.

(** Modelled from the spec: the enumerations of section 3; the backend
    models (user_models.py) are missing. *)
Inductive DietType := Veg | Egg | NonVeg.
Inductive MedicalCondition := NoCondition | Diabetes | Bp | Acidity.
Inductive SpiceTolerance := Low | Medium | High.
Inductive HealthGoal := WeightLoss | WeightGain | Balanced.

(** Modelled from the spec: UserProfile of section 3, with height in
    centimetres and weight in kilograms as the request carries them. *)
Record UserProfile := {
  age : Z;
  height_cm : Q;
  weight_kg : Q;
  diet_type : DietType;
  medical_condition : MedicalCondition;
  spice_tolerance : SpiceTolerance;
  health_goal : HealthGoal
}.

(** Modelled from the spec: the four BMI categories of section 3. *)
Inductive BmiCategory := Underweight | Normal | Overweight | Obese.

(** Modelled from the spec: the height in metres of [(height_m)²]. *)
Definition height_m (p : UserProfile) : Q := (height_cm p / 100)%Q.

(** Modelled from the spec: [BMI = weight_kg / (height_m)²]; the function
    that computes it is missing. *)
Definition bmi (p : UserProfile) : Q :=
  (weight_kg p / (height_m p * height_m p))%Q.

(** Modelled from the spec: the category by the fixed thresholds 18.5, 25
    and 30, each threshold belonging to the category above it; the
    function that computes it is missing. *)
Definition category_of (b : Q) : BmiCategory :=
  if Qle_bool (185 # 10) b then
    if Qle_bool 25 b then
      if Qle_bool 30 b then Obese else Overweight
    else Normal
  else Underweight.

Definition bmi_category (p : UserProfile) : BmiCategory := category_of (bmi p).

(** Modelled from the spec: the range of BMI values of each category
    between the thresholds 18.5, 25 and 30. *)
Definition in_range (c : BmiCategory) (b : Q) : Prop :=
  match c with
  | Underweight => (b < 185 # 10)%Q
  | Normal => (185 # 10 <= b)%Q /\ (b < 25)%Q
  | Overweight => (25 <= b)%Q /\ (b < 30)%Q
  | Obese => (30 <= b)%Q
  end.

End Bmi.

(** ** Parts of the guest handler's trace *)

Module GuestTrace.

(** What [handleSubmit] does before the request settles. *)
Definition prefix (sessionData : JsVal)
    (formData completeData : gmap string JsVal) : list Effect :=
  [ SetLoading true;
    ConsoleLog "Guest Session Data:"; ConsoleLog "Form Data:";
    ConsoleLog "Complete Health Data:"; ConsoleLog "Final Health Data:";
    ConsoleLog "Suggestion Request:";
    ApiPost "/guest/suggest-item"
      (Guest.suggestionRequest sessionData completeData formData) ].

(** Storing a suggestion and moving to the guest recommendation screen. *)
Definition delivery (sessionData suggestion : JsVal) : list Effect :=
  [ SessionSet "guestSuggestion" suggestion;
    SessionSet "guestSessionData" sessionData;
    Navigate "/guest/recommendation" JUndefined;
    SetLoading false ].

End GuestTrace.

(** ** Case analysis on membership in a literal list *)

Ltac field_cases H :=
  simpl in H;
  repeat (destruct H as [H | H]; [inversion H; subst; clear H |]);
  try contradiction.

Ltac field_cases_str H :=
  simpl in H;
  repeat (destruct H as [H | H]; [subst |]);
  try contradiction.

(** ** Inputs used to exercise the definitions *)

Module Samples.

Definition complete_user : gmap string JsVal :=
  <["name" := JStr "Test User"]>
  (<["phone_number" := JStr "1234567890"]>
  (<["age" := num 25]>
  (<["height_cm" := num 175]>
  (<["weight_kg" := num 70]>
  (<["diet_type" := JStr "veg"]>
  (<["medical_condition" := JStr "diabetes"]>
  (<["health_goal" := JStr "balanced"]>
  (<["spice_tolerance" := JStr "medium"]> ∅)))))))).

(** The same user before the age question was answered. *)
Definition user_without_age : gmap string JsVal := delete "age" complete_user.

Definition session : JsVal :=
  JObj (<["session_id" := JStr "s-1"]>
       (<["expires_at" := JStr "2026-01-01T00:00:00Z"]>
       (<["message" := JStr "Guest session created"]> ∅))).

(** The guest form after the first four questions. *)
Definition guest_form : gmap string JsVal :=
  <["age" := JStr "30"]>
  (<["gender" := JStr "female"]>
  (<["height_cm" := num 160]>
  (<["weight_kg" := num 55]>
  (<["diet_type" := JStr "egg"]>
  (<["medical_condition" := JStr "bp"]> ∅))))).

(** What the fifth step submits: the form so far and the health metrics. *)
Definition guest_submitted : gmap string JsVal :=
  <["healthMetrics" := JObj (<["heartRate" := num 72]> ∅)]> guest_form.

Definition suggestion_body : JsVal :=
  JObj (<["health_summary" := JStr "Your BMI is 22.9 (normal)."]>
       (<["bmi_category" := JStr "normal"]>
       (<["suggested_item" := JStr "Idly Sambar"]>
       (<["reason" := JStr "Good choice: low oil, heart-friendly"]> ∅)))).

Definition ok_response : RawOutcome :=
  RawOk {| status := 200; data := suggestion_body |}.

(** The request timed out (axios: [ECONNABORTED]). *)
Definition timeout_error : AxiosError :=
  {| code := JStr "ECONNABORTED"; message := "timeout of 30000ms exceeded";
     response := None |}.

(** The backend could not be reached at all. *)
Definition network_error : AxiosError :=
  {| code := JStr "ERR_NETWORK"; message := "Network Error"; response := None |}.

(** The backend answered 503 because its store is unavailable. *)
Definition unavailable_error : AxiosError :=
  {| code := JStr "ERR_BAD_RESPONSE";
     message := "Request failed with status code 503";
     response := Some {| status := 503;
                         data := JObj (<["detail" := JStr "Service unavailable"]> ∅) |} |}.

(** The backend answered 500 with an empty body. *)
Definition server_error_no_body : AxiosError :=
  {| code := JStr "ERR_BAD_RESPONSE";
     message := "Request failed with status code 500";
     response := Some {| status := 500; data := JStr "" |} |}.

(** A primary response whose reason happens to read like a fallback's. *)
Definition lookalike_body : JsVal :=
  JObj (<["suggested_item" := JStr "Ragi Dosa"]>
       (<["reason" := JStr "Safe, nutritious option suitable for your health profile."]> ∅)).

Definition lookalike_response : RawOutcome :=
  RawOk {| status := 200; data := lookalike_body |}.

(** The breaker configuration documented for the backend, with two probe
    successes required to close. *)
Definition breaker_config : Breaker.Config :=
  {| Breaker.failureThreshold := 3;
     Breaker.recoveryTimeout := 30000;
     Breaker.successThreshold := 2 |}.

(** An operation that times out at every attempt, and a jitter source. *)
Definition always_timeout (n : nat) : Retry.Attempt unit string :=
  Retry.Retryable "timeout".

Definition jitter_source (n : nat) : Z := (Z.of_nat n * 7919)%Z.

(** The profile of the request in the backend's documentation. *)
Definition documented_profile : Bmi.UserProfile :=
  {| Bmi.age := 25; Bmi.height_cm := 175; Bmi.weight_kg := 70;
     Bmi.diet_type := Bmi.Veg; Bmi.medical_condition := Bmi.Diabetes;
     Bmi.spice_tolerance := Bmi.Medium; Bmi.health_goal := Bmi.Balanced |}.

(** Two insertions that fill a cache of two entries, and a third one. *)
Definition two_puts : list (string * nat * Z * Z) :=
  [ ("menu:veg", 1%nat, 300, 10); ("rule:normal_none", 2%nat, 300, 20) ]%Z.

Definition third_put : string * nat * Z * Z :=
  ("menu:egg", 3%nat, 300, 30)%Z.

Definition existing_item : JsVal :=
  JObj (<["item_id" := JStr "15cb87fe"]>
       (<["item_name" := JStr "Idly Sambar"]>
       (<["suitable_for" :=
            JObj (<["bmi_categories" := JArr [JStr "normal"]]>
                 (<["medical_conditions" := JArr [JStr "diabetes"]]> ∅))]> ∅))).

Definition form_values : gmap string JsVal :=
  <["item_name" := JStr "Idly Sambar"]> (<["calories" := num 180]> ∅).

End Samples.

(** ** context/UserContext.tsx *)

Module UserContext.

(** [setUserData((prev) => ({ ...prev, ...data }))] *)
Definition updateUserData (data prev : gmap string JsVal)
  : gmap string JsVal :=
  spread prev data.

(** [setUserData({})] *)
Definition resetUserData (prev : gmap string JsVal) : gmap string JsVal := ∅.

End UserContext.

(** ** features/Questionnaire/questions: the submit handlers *)

Module Questions.

(** A value of the declared type [number]: a rational or [NaN]. *)
Inductive Number : Type :=
  | Fin (q : Q)
  | NaN.

Definition number_val (n : Number) : JsVal :=
  match n with Fin q => JNum q | NaN => JNaN end.

(** [a < b] and [a > b] for a number and a literal; comparisons with [NaN]
    are false. *)
Definition lt (a : Number) (b : Z) : bool :=
  match a with
  | Fin q => negb (Qle_bool (inject_Z b) q)
  | NaN => false
  end.

Definition gt (a : Number) (b : Z) : bool :=
  match a with
  | Fin q => negb (Qle_bool q (inject_Z b))
  | NaN => false
  end.

(** The number a string converts to when it is compared with a number:
    a rational, [NaN], or an infinity. *)
Inductive Converted : Type :=
  | Finite (q : Q)
  | NotANumber
  | Infinite (positive : bool).

(** [a < b] and [a > b] for a converted string and a literal. *)
Definition below (a : Converted) (b : Z) : bool :=
  match a with
  | Finite q => negb (Qle_bool (inject_Z b) q)
  | NotANumber => false
  | Infinite positive => negb positive
  end.

Definition above (a : Converted) (b : Z) : bool :=
  match a with
  | Finite q => negb (Qle_bool q (inject_Z b))
  | NotANumber => false
  | Infinite positive => positive
  end.

(** A converted string that is neither below [lo] nor above [hi]: a
    number from [lo] to [hi], or [NaN], with which every comparison is
    false. *)
Definition within (a : Converted) (lo hi : Z) : Prop :=
  match a with
  | Finite q => (inject_Z lo <= q)%Q /\ (q <= inject_Z hi)%Q
  | NotANumber => True
  | Infinite _ => False
  end.

(** What a submit handler does: [message.error(text)] and return, or
    [onNext(data)]. *)
Inductive Submitted : Type :=
  | Refused (text : string)
  | Answered (data : gmap string JsVal).

(** AgeQuestion.handleSubmit.  The age comes from an [Input] of the form
    and is the text of that input, whatever the declared type says; the
    comparisons convert it with [toNumber], the conversion of a string to
    a number of the language, and the text itself is passed on. *)
Definition AgeQuestion (toNumber : string -> Converted)
    (age gender : string) : Submitted :=
  if negb (truthy (JStr age)) || negb (truthy (JStr gender)) then
    Refused "Please complete all fields"
  else if below (toNumber age) 1 || above (toNumber age) 120 then
    Refused "Age must be between 1 and 120"
  else
    Answered (<["age" := JStr age]> (<["gender" := JStr gender]> ∅)).

(** BodyMetricsQuestion.handleSubmit *)
Definition BodyMetricsQuestion (height_cm weight_kg : Number) : Submitted :=
  if negb (truthy (number_val height_cm)) || negb (truthy (number_val weight_kg))
  then Refused "Please enter both height and weight"
  else if lt height_cm 100 || gt height_cm 250 then
    Refused "Height must be between 100 and 250 cm"
  else if lt weight_kg 20 || gt weight_kg 300 then
    Refused "Weight must be between 20 and 300 kg"
  else
    Answered (<["height_cm" := number_val height_cm]>
             (<["weight_kg" := number_val weight_kg]> ∅)).

(** DietTypeQuestion.handleSubmit, on the selected card *)
Definition DietTypeQuestion (selectedDiet : string) : Submitted :=
  if negb (truthy (JStr selectedDiet)) then Refused "Please select a diet type"
  else Answered (<["diet_type" := JStr selectedDiet]> ∅).

(** MedicalConditionQuestion.handleSubmit *)
Definition MedicalConditionQuestion (selectedCondition : string) : Submitted :=
  if negb (truthy (JStr selectedCondition)) then
    Refused "Please select a medical condition"
  else Answered (<["medical_condition" := JStr selectedCondition]> ∅).

(** SpiceLevelQuestion.handleSubmit *)
Definition SpiceLevelQuestion (selectedLevel : string) : Submitted :=
  if negb (truthy (JStr selectedLevel)) then
    Refused "Please select your spice tolerance"
  else Answered (<["spice_tolerance" := JStr selectedLevel]> ∅).

(** FitnessGoalQuestion.handleSubmit *)
Definition FitnessGoalQuestion (selectedGoal selectedSpice : string)
  : Submitted :=
  if negb (truthy (JStr selectedGoal)) || negb (truthy (JStr selectedSpice)) then
    Refused "Please complete both selections"
  else
    Answered (<["health_goal" := JStr selectedGoal]>
             (<["spice_tolerance" := JStr selectedSpice]> ∅)).

(** HealthMetricsQuestion.handleSubmit: the eight measurements are passed
    on as they are, under the one key [healthMetrics]. *)
Definition HealthMetricsQuestion (values : JsVal) : Submitted :=
  Answered
    (<["healthMetrics" :=
         JObj (<["bloodPressure" := get "bloodPressure" values]>
              (<["heartRate" := get "heartRate" values]>
              (<["bloodSugar" := get "bloodSugar" values]>
              (<["cholesterol" := get "cholesterol" values]>
              (<["sleepHours" := get "sleepHours" values]>
              (<["stressLevel" := get "stressLevel" values]>
              (<["waterIntake" := get "waterIntake" values]>
              (<["exerciseFrequency" := get "exerciseFrequency" values]> ∅))))))))]>
     ∅).

(** What the user enters into one question component. *)
Inductive Input : Type :=
  | AgeInput (age gender : string)
  | BodyInput (height_cm weight_kg : Number)
  | DietInput (selectedDiet : string)
  | MedicalInput (selectedCondition : string)
  | MetricsInput (values : JsVal)
  | SpiceInput (selectedLevel : string)
  | GoalInput (selectedGoal selectedSpice : string).

End Questions.

(** ** features/Questionnaire/QuestionnaireScreen.tsx *)

Module Questionnaire.

Definition TOTAL_STEPS : nat := 6.

(** The step shown, the user data of the context and the current route. *)
Record State := {
  currentStep : nat;
  userData : gmap string JsVal;
  location : string
}.

Definition initial (userData : gmap string JsVal) : State :=
  {| currentStep := 1; userData := userData; location := "/questions" |}.

(** [renderQuestion]: the component of the step, submitted with the input
    the user gave it; [None] when the step shows another component. *)
Definition renderQuestion (toNumber : string -> Questions.Converted)
    (step : nat) (i : Questions.Input) : option Questions.Submitted :=
  match step, i with
  | 1, Questions.AgeInput a g => Some (Questions.AgeQuestion toNumber a g)
  | 2, Questions.BodyInput h w => Some (Questions.BodyMetricsQuestion h w)
  | 3, Questions.DietInput d => Some (Questions.DietTypeQuestion d)
  | 4, Questions.MedicalInput m => Some (Questions.MedicalConditionQuestion m)
  | 5, Questions.MetricsInput v => Some (Questions.HealthMetricsQuestion v)
  | 6, Questions.GoalInput g s => Some (Questions.FitnessGoalQuestion g s)
  | _, _ => None
  end%nat.

Definition handleNext (data : gmap string JsVal) (st : State) : State :=
  if (currentStep st <? TOTAL_STEPS)%nat then
    {| currentStep := currentStep st + 1;
       userData := UserContext.updateUserData data (userData st);
       location := location st |}
  else
    {| currentStep := currentStep st;
       userData := UserContext.updateUserData data (userData st);
       location := "/processing" |}.

Definition handleBack (st : State) : State :=
  if (1 <? currentStep st)%nat then
    {| currentStep := currentStep st - 1; userData := userData st;
       location := location st |}
  else
    {| currentStep := currentStep st; userData := userData st;
       location := "/start" |}.

(** What the user can do on the screen. *)
Inductive Event : Type :=
  | Submit (i : Questions.Input)
  | Back.

(** One event; the screen reacts only while it is the current route. *)
Definition react (toNumber : string -> Questions.Converted)
    (st : State) (e : Event) : State :=
  if negb (String.eqb (location st) "/questions") then st
  else
    match e with
    | Back => handleBack st
    | Submit i =>
        match renderQuestion toNumber (currentStep st) i with
        | Some (Questions.Answered data) => handleNext data st
        | _ => st
        end
    end.

Definition run (toNumber : string -> Questions.Converted)
    (events : list Event) (st : State) : State :=
  fold_left (react toNumber) events st.

End Questionnaire.

(** ** features/UserEntry/UserEntryScreen.tsx *)

Module UserEntry.

Definition is_digit (c : Ascii.ascii) : bool :=
  let n := Ascii.nat_of_ascii c in (48 <=? n)%nat && (n <=? 57)%nat.

Fixpoint all_digits (s : string) : bool :=
  match s with
  | EmptyString => true
  | String c rest => is_digit c && all_digits rest
  end.

(** [/^\d{10}$/.test(phone)] *)
Definition ten_digits (phone : string) : bool :=
  (String.length phone =? 10)%nat && all_digits phone.

(** What the handlers of this screen do. *)
Inductive Action : Type :=
  | SetLoading (b : bool)
  | SetCheckingUser (b : bool)
  | SetFoundUser (user : JsVal)
  | SetModalVisible (b : bool)
  | MessageError (text : string)
  | UpdateUserData (data : gmap string JsVal)
  | SetFieldsValue (fields : gmap string JsVal)
  | ApiGetProfile (phone : string)
  | Navigate (path : string).

Definition getUserProfile (raw : RawOutcome) : Settled := post_data raw.

(** checkUser: nothing happens for a phone that is not ten digits; a
    failed lookup is silent. *)
Definition checkUser (phone : string) (net : RawOutcome) : list Action :=
  if negb (ten_digits phone) then []
  else
    SetCheckingUser true :: ApiGetProfile phone ::
    match getUserProfile net with
    | Fulfilled user =>
        if truthy user then
          [ SetFoundUser user; SetModalVisible true; SetCheckingUser false ]
        else [ SetCheckingUser false ]
    | Rejected _ => [ SetCheckingUser false ]
    end.

(** handleContinueExisting, on the state [foundUser : UserData | null] *)
Definition handleContinueExisting (foundUser : option (gmap string JsVal))
  : list Action :=
  match foundUser with
  | Some user =>
      [ UpdateUserData user; SetModalVisible false;
        Navigate (if truthy (field "medical_condition" user)
                     && truthy (field "health_goal" user)
                  then "/processing" else "/questions") ]
  | None => []
  end.

(** handleEditDetails *)
Definition handleEditDetails (foundUser : option (gmap string JsVal))
  : list Action :=
  match foundUser with
  | Some user =>
      [ SetFieldsValue (<["name" := field "name" user]>
                       (<["email" := field "email" user]>
                       (<["phone_number" := field "phone_number" user]> ∅)));
        UpdateUserData user; SetModalVisible false ]
  | None => []
  end.

(** handleSubmit; [finally] appends [setLoading(false)]. *)
Definition handleSubmit (name email : JsVal) (phone_number : string)
  : list Action :=
  if negb (ten_digits phone_number) then
    [ SetLoading true;
      MessageError "Please enter a valid 10-digit phone number";
      SetLoading false; SetLoading false ]
  else
    [ SetLoading true;
      UpdateUserData (<["name" := name]> (<["email" := email]>
                      (<["phone_number" := JStr phone_number]> ∅)));
      Navigate "/questions";
      SetLoading false ].

(** The user data of the context after the actions. *)
Definition apply_updates (actions : list Action) (userData : gmap string JsVal)
  : gmap string JsVal :=
  fold_left (fun ud a => match a with
                         | UpdateUserData data =>
                             UserContext.updateUserData data ud
                         | _ => ud
                         end) actions userData.

(** The route the actions lead to, if they navigate. *)
Definition destination (actions : list Action) : option string :=
  fold_left (fun d a => match a with Navigate p => Some p | _ => d end)
    actions None.

End UserEntry.

(** ** What the questionnaire has collected *)

Module Collected.

(** The user data holds an answer that the question of step [k] passes
    on; for the age that is a text which is not empty and does not
    convert to a number below 1 or above 120. *)
Definition answered (toNumber : string -> Questions.Converted)
    (k : nat) (ud : gmap string JsVal) : Prop :=
  match k with
  | 1 => (exists age, ud !! "age" = Some (JStr age) /\ age <> ""
            /\ Questions.within (toNumber age) 1 120)
         /\ truthy (field "gender" ud) = true
  | 2 => exists h w,
           ud !! "height_cm" = Some (JNum h) /\ (100 <= h)%Q /\ (h <= 250)%Q
           /\ ud !! "weight_kg" = Some (JNum w) /\ (20 <= w)%Q /\ (w <= 300)%Q
  | 3 => truthy (field "diet_type" ud) = true
  | 4 => truthy (field "medical_condition" ud) = true
  | 6 => truthy (field "health_goal" ud) = true
         /\ truthy (field "spice_tolerance" ud) = true
  | _ => True
  end%nat.

(** The user data holds the name and phone number of the entry screen. *)
Definition identified (ud : gmap string JsVal) : Prop :=
  truthy (field "name" ud) = true /\ truthy (field "phone_number" ud) = true.

Definition invariant (toNumber : string -> Questions.Converted)
    (st : Questionnaire.State) : Prop :=
  identified (Questionnaire.userData st)
  /\ (1 <= Questionnaire.currentStep st <= 6)%nat
  /\ (forall k, (k < Questionnaire.currentStep st)%nat ->
        answered toNumber k (Questionnaire.userData st))
  /\ (Questionnaire.location st = "/processing" ->
        forall k, answered toNumber k (Questionnaire.userData st)).

End Collected.

Ltac map_lookups :=
  repeat (rewrite lookup_insert_eq
          || (rewrite lookup_insert_ne by discriminate)
          || rewrite lookup_empty).

Ltac map_lookups_in H :=
  repeat (rewrite lookup_insert_eq in H
          || (rewrite lookup_insert_ne in H by discriminate)
          || rewrite lookup_empty in H).

(** ** features/Guest/GuestQuestionnaireScreen.tsx: the steps *)

Module GuestFlow.

(** The step shown, the form data and the current route. *)
Record State := {
  currentStep : nat;
  formData : gmap string JsVal;
  location : string
}.

Definition initial : State :=
  {| currentStep := 0; formData := ∅; location := "/guest/questions" |}.

(** [renderCurrentStep]: the component of the step, submitted with the
    input the user gave it; [None] when the step shows another component
    or none. *)
Definition renderCurrentStep (toNumber : string -> Questions.Converted)
    (step : nat) (i : Questions.Input) : option Questions.Submitted :=
  match step, i with
  | 0, Questions.AgeInput a g => Some (Questions.AgeQuestion toNumber a g)
  | 1, Questions.BodyInput h w => Some (Questions.BodyMetricsQuestion h w)
  | 2, Questions.DietInput d => Some (Questions.DietTypeQuestion d)
  | 3, Questions.MedicalInput m => Some (Questions.MedicalConditionQuestion m)
  | 4, Questions.MetricsInput v => Some (Questions.HealthMetricsQuestion v)
  | 5, Questions.SpiceInput l => Some (Questions.SpiceLevelQuestion l)
  | 6, Questions.GoalInput g s => Some (Questions.FitnessGoalQuestion g s)
  | _, _ => None
  end%nat.

(** The route a trace leaves the user on: that of its last [navigate]. *)
Definition navigated (t : list Effect) (from : string) : string :=
  fold_left (fun l e => match e with Navigate p _ => p | _ => l end) t from.

(** handleStepNext: the step data is merged into the form data; the step
    with index 4 submits, every other step moves on. *)
Definition handleStepNext (sessionData : JsVal) (stepData : gmap string JsVal)
    (net : RawOutcome) (st : State) : State * list Effect :=
  let updatedData := spread (formData st) stepData in
  if (currentStep st =? 4)%nat then
    let t := Guest.trace_of
               (Guest.handleSubmit sessionData (formData st) updatedData net) in
    ({| currentStep := currentStep st; formData := updatedData;
        location := navigated t (location st) |}, t)
  else
    ({| currentStep := currentStep st + 1; formData := updatedData;
        location := location st |}, []).

Definition handleStepBack (st : State) : State * list Effect :=
  if (currentStep st =? 0)%nat then
    ({| currentStep := currentStep st; formData := formData st;
        location := "/mode-selection" |},
     [ Navigate "/mode-selection" JUndefined ])
  else
    ({| currentStep := currentStep st - 1; formData := formData st;
        location := location st |}, []).

(** The [onNext] of the component of the step: [handleStepNext] for the
    steps 0 to 5, [handleSubmit] itself for step 6. *)
Definition onNext (sessionData : JsVal) (data : gmap string JsVal)
    (net : RawOutcome) (st : State) : State * list Effect :=
  if (currentStep st =? 6)%nat then
    let t := Guest.trace_of
               (Guest.handleSubmit sessionData (formData st) data net) in
    ({| currentStep := currentStep st; formData := formData st;
        location := navigated t (location st) |}, t)
  else handleStepNext sessionData data net st.

(** What the user can do on the screen; a submission comes with the
    outcome the network would give to a request. *)
Inductive Event : Type :=
  | Submit (i : Questions.Input) (net : RawOutcome)
  | Back.

(** One event; the screen reacts only while it is the current route. *)
Definition react (toNumber : string -> Questions.Converted)
    (sessionData : JsVal) (st : State) (e : Event) : State * list Effect :=
  if negb (String.eqb (location st) "/guest/questions") then (st, [])
  else
    match e with
    | Back => handleStepBack st
    | Submit i net =>
        match renderCurrentStep toNumber (currentStep st) i with
        | Some (Questions.Answered data) => onNext sessionData data net st
        | _ => (st, [])
        end
    end.

(** A sequence of events: the final state and everything done on the way. *)
Fixpoint run (toNumber : string -> Questions.Converted)
    (sessionData : JsVal) (events : list Event) (st : State)
  : State * list Effect :=
  match events with
  | [] => (st, [])
  | e :: rest =>
      let (st1, t1) := react toNumber sessionData st e in
      let (st2, t2) := run toNumber sessionData rest st1 in
      (st2, t1 ++ t2)
  end.

End GuestFlow.

(** ** Further inputs *)

Module MoreSamples.

(** The user data after the entry screen. *)
Definition entered_user : gmap string JsVal :=
  <["name" := JStr "Test User"]>
  (<["email" := JStr "test@example.com"]>
  (<["phone_number" := JStr "1234567890"]> ∅)).

(** A run through the six questions, with one refused answer and one step
    back on the way. *)
Definition six_answers : list Questionnaire.Event :=
  [ Questionnaire.Submit (Questions.AgeInput "0" "male");
    Questionnaire.Submit (Questions.AgeInput "25" "male");
    Questionnaire.Submit (Questions.BodyInput (Questions.Fin 175) (Questions.Fin 70));
    Questionnaire.Back;
    Questionnaire.Submit (Questions.BodyInput (Questions.Fin 176) (Questions.Fin 71));
    Questionnaire.Submit (Questions.DietInput "veg");
    Questionnaire.Submit (Questions.MedicalInput "diabetes");
    Questionnaire.Submit (Questions.MetricsInput (JObj ∅));
    Questionnaire.Submit (Questions.GoalInput "balanced" "medium") ].

(** A guest run through the five questions the guest screen reaches. *)
Definition guest_answers : list GuestFlow.Event :=
  [ GuestFlow.Submit (Questions.AgeInput "30" "female") Samples.ok_response;
    GuestFlow.Submit (Questions.BodyInput (Questions.Fin 160) (Questions.Fin 55))
      Samples.ok_response;
    GuestFlow.Submit (Questions.DietInput "egg") Samples.ok_response;
    GuestFlow.Submit (Questions.MedicalInput "bp") Samples.ok_response;
    GuestFlow.Submit (Questions.MetricsInput (JObj ∅)) Samples.ok_response ].

(** The backend answered 500 with an error body. *)
Definition server_error_with_body : AxiosError :=
  {| code := JStr "ERR_BAD_RESPONSE";
     message := "Request failed with status code 500";
     response := Some {| status := 500;
                         data := JObj (<["detail" := JStr "Internal Server Error"]> ∅) |} |}.

(** Lower-casing of the ASCII letters, used where a lower-casing function
    is needed. *)
Definition ascii_lower_char (c : Ascii.ascii) : Ascii.ascii :=
  let n := Ascii.nat_of_ascii c in
  if (65 <=? n)%nat && (n <=? 90)%nat then Ascii.ascii_of_nat (n + 32) else c.

Fixpoint ascii_lower (s : string) : string :=
  match s with
  | EmptyString => EmptyString
  | String c rest => String (ascii_lower_char c) (ascii_lower rest)
  end.

(** The number written by a string of decimal digits (0 for the empty
    string); any other string is given [NaN].  Used where a conversion of
    strings to numbers is needed. *)
Definition digit_value (c : Ascii.ascii) : Z :=
  Z.of_nat (Ascii.nat_of_ascii c - 48).

Fixpoint digits_value (acc : Z) (s : string) : Z :=
  match s with
  | EmptyString => acc
  | String c rest => digits_value (10 * acc + digit_value c) rest
  end.

Definition decimal (s : string) : Questions.Converted :=
  if UserEntry.all_digits s then Questions.Finite (inject_Z (digits_value 0 s))
  else Questions.NotANumber.

(** An existing user whose stored profile has no age. *)
Definition stored_user_without_age : gmap string JsVal :=
  delete "age" Samples.complete_user.

End MoreSamples.

(** ** features/Admin/AdminDashboardScreen.tsx: state, list and filter *)

Module AdminScreen.

Record State := {
  items : JsVal;
  filteredItems : JsVal;
  loading : bool;
  modalVisible : bool;
  editingItem : JsVal;
  searchText : string
}.

Definition initial : State :=
  {| items := JArr []; filteredItems := JArr []; loading := false;
     modalVisible := false; editingItem := JNull; searchText := "" |}.

(** Requests and messages of the list handlers; a DELETE goes to
    [`/admin/menu/${param}`]. *)
Inductive Action : Type :=
  | ApiGet (url : string)
  | ApiDelete (path : string) (param : JsVal)
  | Success (text : string)
  | Error (text : string)
  | Refetch.

Definition getMenuItems (raw : RawOutcome) : Settled := post_data raw.
Definition deleteMenuItem (raw : RawOutcome) : Settled := post_data raw.

(** fetchItems; [finally] clears the loading flag. *)
Definition fetchItems (net : RawOutcome) (st : State) : State * list Action :=
  match getMenuItems net with
  | Fulfilled data =>
      ({| items := data; filteredItems := data; loading := false;
          modalVisible := modalVisible st; editingItem := editingItem st;
          searchText := searchText st |},
       [ ApiGet "/admin/menu" ])
  | Rejected _ =>
      ({| items := items st; filteredItems := filteredItems st;
          loading := false; modalVisible := modalVisible st;
          editingItem := editingItem st; searchText := searchText st |},
       [ ApiGet "/admin/menu"; Error "Failed to load menu items" ])
  end.

Definition handleAdd (st : State) : State :=
  {| items := items st; filteredItems := filteredItems st;
     loading := loading st; modalVisible := true; editingItem := JNull;
     searchText := searchText st |}.

Definition handleEdit (record : JsVal) (st : State) : State :=
  {| items := items st; filteredItems := filteredItems st;
     loading := loading st; modalVisible := true; editingItem := record;
     searchText := searchText st |}.

(** handleSave, on the item being edited in the state. *)
Definition handleSave (values : gmap string JsVal) (net : RawOutcome)
    (st : State) : list Effect :=
  Admin.handleSave values (editingItem st) net.

(** handleDelete *)
Definition handleDelete (record : JsVal) (net : RawOutcome) : list Action :=
  ApiDelete "/admin/menu/" (get "item_id" record) ::
  match deleteMenuItem net with
  | Fulfilled _ => [ Success "Item deleted successfully"; Refetch ]
  | Rejected _ => [ Error "Failed to delete item" ]
  end.

Section Filter.
Variable toLowerCase : string -> string.

(** [item.item_name.toLowerCase().includes(searchText.toLowerCase())];
    [None] is the TypeError raised when the name is not a string. *)
Definition matches (searchText : string) (item : JsVal) : option bool :=
  match get "item_name" item with
  | JStr name => Some (includes (toLowerCase searchText) (toLowerCase name))
  | _ => None
  end.

Fixpoint filter_list (searchText : string) (l : list JsVal)
  : option (list JsVal) :=
  match l with
  | [] => Some []
  | item :: rest =>
      match matches searchText item with
      | None => None
      | Some keep =>
          match filter_list searchText rest with
          | None => None
          | Some kept => Some (if keep then item :: kept else kept)
          end
      end
  end.

(** The filter effect: [items.filter(...)]; [None] when it throws, which it
    also does when [items] is not an array. *)
Definition filter_items (items : JsVal) (searchText : string)
  : option (list JsVal) :=
  match items with
  | JArr l => filter_list searchText l
  | _ => None
  end.
End Filter.

Definition has_name (item : JsVal) : bool :=
  match get "item_name" item with JStr _ => true | _ => false end.

End AdminScreen.

(** ** features/MenuExplorer/MenuExplorerScreen.tsx: the filters *)

Module MenuExplorer.

(** [MenuItem] of types/index.ts, without the optional image and the
    suitability. *)
Record MenuItem := {
  item_id : string;
  item_name : string;
  calories : Questions.Number;
  spice_level : string;
  oil_level : string;
  diet_type : string
}.

(** [a <= b] for a number and a literal. *)
Definition le (a : Questions.Number) (b : Z) : bool :=
  match a with
  | Questions.Fin q => Qle_bool q (inject_Z b)
  | Questions.NaN => false
  end.

Definition is_finite (a : Questions.Number) : bool :=
  match a with Questions.Fin _ => true | Questions.NaN => false end.

Section Filters.
Variable toLowerCase : string -> string.
Variable trim : string -> string.

(** The search step: applied only when the trimmed query is not empty. *)
Definition searched (searchQuery : string) (allMenuItems : list MenuItem)
  : list MenuItem :=
  if truthy (JStr (trim searchQuery)) then
    List.filter (fun item => includes (toLowerCase searchQuery)
                               (toLowerCase (item_name item)))
      allMenuItems
  else allMenuItems.

(** The category step of the [switch]. *)
Definition by_category (selectedFilter : string) (filtered : list MenuItem)
  : list MenuItem :=
  if String.eqb selectedFilter "low-cal" then
    List.filter (fun item => le (calories item) 250) filtered
  else if String.eqb selectedFilter "high-cal" then
    List.filter (fun item => Questions.gt (calories item) 250) filtered
  else if String.eqb selectedFilter "mild" then
    List.filter (fun item => String.eqb (spice_level item) "low") filtered
  else if String.eqb selectedFilter "medium" then
    List.filter (fun item => String.eqb (spice_level item) "medium") filtered
  else filtered.

(** The filter effect: the new [filteredItems], or [None] when the effect
    returns early on an empty menu and sets nothing. *)
Definition applyFilters (selectedFilter searchQuery : string)
    (allMenuItems : list MenuItem) : option (list MenuItem) :=
  if (length allMenuItems =? 0)%nat then None
  else Some (by_category selectedFilter (searched searchQuery allMenuItems)).
End Filters.

End MenuExplorer.

(** ** features/Mobile/MobileQuestionnaireScreen.tsx: the steps *)

Module MobileQuiz.

(** The keys of [mobileQuestions], in order. *)
Definition questionKeys : list string :=
  [ "age"; "gender"; "height_weight"; "diet_type"; "fitness_goal" ].

Record State := {
  currentStep : nat;
  questionnaireData : gmap string JsVal;
  submitted : bool
}.

Definition initial : State :=
  {| currentStep := 0; questionnaireData := ∅; submitted := false |}.

(** The keys the inputs of a step write with [updateData]. *)
Definition written_at (step : nat) : list string :=
  match step with
  | 0 => [ "age" ]
  | 1 => [ "gender" ]
  | 2 => [ "height"; "weight" ]
  | 3 => [ "diet_type" ]
  | 4 => [ "fitness_goal" ]
  | _ => []
  end%nat.

(** [updateData(key, value)] *)
Definition updateData (key : string) (value : JsVal) (st : State) : State :=
  {| currentStep := currentStep st;
     questionnaireData := <[key := value]> (questionnaireData st);
     submitted := submitted st |}.

(** [typeof value === 'number' && value >= lo && value <= hi] *)
Definition number_within (value : JsVal) (lo hi : Z) : bool :=
  match value with
  | JNum q => Qle_bool (inject_Z lo) q && Qle_bool q (inject_Z hi)
  | _ => false
  end.

(** [value !== undefined && value !== null && value !== ''] *)
Definition present (value : JsVal) : bool :=
  match value with
  | JUndefined | JNull => false
  | JStr s => negb (String.eqb s "")
  | _ => true
  end.

(** isCurrentStepValid *)
Definition isCurrentStepValid (st : State) : bool :=
  let currentQuestionKey := nth (currentStep st) questionKeys "" in
  let value := field currentQuestionKey (questionnaireData st) in
  if String.eqb currentQuestionKey "age" then number_within value 1 120
  else if String.eqb currentQuestionKey "height" then number_within value 100 250
  else if String.eqb currentQuestionKey "weight" then number_within value 30 200
  else present value.

(** handleNext; the last question submits. *)
Definition handleNext (st : State) : State :=
  if (currentStep st <? length questionKeys - 1)%nat then
    {| currentStep := currentStep st + 1;
       questionnaireData := questionnaireData st; submitted := submitted st |}
  else
    {| currentStep := currentStep st;
       questionnaireData := questionnaireData st; submitted := true |}.

Definition handlePrevious (st : State) : State :=
  if (0 <? currentStep st)%nat then
    {| currentStep := currentStep st - 1;
       questionnaireData := questionnaireData st; submitted := submitted st |}
  else st.

(** What the user can do: change an input of the current question, press
    Next (disabled unless the step is valid) or Previous. *)
Inductive Event : Type :=
  | Change (key : string) (value : JsVal)
  | Next
  | Previous.

Definition react (st : State) (e : Event) : State :=
  match e with
  | Change key value =>
      if existsb (String.eqb key) (written_at (currentStep st))
      then updateData key value st else st
  | Next => if isCurrentStepValid st then handleNext st else st
  | Previous => handlePrevious st
  end.

Definition run (events : list Event) (st : State) : State :=
  fold_left react events st.

End MobileQuiz.

(** ** Sample menus *)

Module ExplorerSamples.

Definition masala : MenuExplorer.MenuItem :=
  {| MenuExplorer.item_id := "m1"; MenuExplorer.item_name := "Masala Dosa";
     MenuExplorer.calories := Questions.Fin (inject_Z 320);
     MenuExplorer.spice_level := "medium"; MenuExplorer.oil_level := "medium";
     MenuExplorer.diet_type := "veg" |}.

Definition idli : MenuExplorer.MenuItem :=
  {| MenuExplorer.item_id := "m2"; MenuExplorer.item_name := "Plain Idli";
     MenuExplorer.calories := Questions.Fin (inject_Z 250);
     MenuExplorer.spice_level := "low"; MenuExplorer.oil_level := "low";
     MenuExplorer.diet_type := "veg" |}.

(** An item whose calories did not parse. *)
Definition unknown : MenuExplorer.MenuItem :=
  {| MenuExplorer.item_id := "m3"; MenuExplorer.item_name := "Chef Special";
     MenuExplorer.calories := Questions.NaN;
     MenuExplorer.spice_level := "high"; MenuExplorer.oil_level := "high";
     MenuExplorer.diet_type := "egg" |}.

Definition menu : list MenuExplorer.MenuItem := [ masala; idli; unknown ].

(** Removal of the leading and trailing spaces. *)
Fixpoint drop_spaces (s : string) : string :=
  match s with
  | String c rest =>
      if Ascii.eqb c (Ascii.ascii_of_nat 32) then drop_spaces rest else s
  | EmptyString => EmptyString
  end.

Definition reversed (s : string) : string :=
  String.string_of_list_ascii (rev (String.list_ascii_of_string s)).

Definition trim_spaces (s : string) : string :=
  reversed (drop_spaces (reversed (drop_spaces s))).

End ExplorerSamples.

(** * Properties *)

(** ** Shared facts about the API service *)

Lemma post_data_timeout (e : AxiosError) :
  is_timeout e = true ->
  post_data (RawErr e) = Fulfilled (JObj timeout_fallback).
Proof.
  intros H. unfold post_data, interceptor. rewrite H. reflexivity.
Qed.

Lemma post_data_error (e : AxiosError) :
  is_timeout e = false ->
  post_data (RawErr e) =
  Rejected (js_or (match response e with
                   | Some r => data r
                   | None => JUndefined
                   end) (error_obj e)).
Proof.
  intros H. unfold post_data, interceptor. rewrite H. reflexivity.
Qed.

Lemma missing_is_listed (userData : gmap string JsVal) (f : string) :
  In f Processing.requiredFields ->
  truthy (field f userData) = false ->
  In f (Processing.missingFields userData).
Proof.
  intros Hin Hf. unfold Processing.missingFields.
  apply filter_In. split; [exact Hin | now rewrite Hf].
Qed.

(** ** The required-field guard of the processing screen *)

(** C9: on the registered path, when one of the nine required fields is
    missing or falsy in the profile, the processing screen reports it and
    returns to the start screen, and no API call is made. *)
Theorem fetchSuggestion_requires_complete_profile
    (userData : gmap string JsVal) (net : RawOutcome) (f : string) :
  In f Processing.requiredFields ->
  truthy (field f userData) = false ->
  Processing.fetchSuggestion userData net =
    [ ConsoleError "Missing required fields:";
      MessageError (JStr "Please complete all questions first.");
      Navigate "/start" JUndefined ]
  /\ Recommendation.api_calls (Processing.fetchSuggestion userData net) = 0%nat
  /\ length Processing.requiredFields = 9%nat.
Proof.
  intros Hin Hf.
  pose proof (missing_is_listed userData f Hin Hf) as Hm.
  unfold Processing.fetchSuggestion.
  destruct (Processing.missingFields userData) as [|x l]; [destruct Hm|].
  simpl. repeat split.
Qed.

Lemma fetchSuggestion_requires_complete_profile_witness :
  Processing.fetchSuggestion Samples.user_without_age Samples.ok_response =
    [ ConsoleError "Missing required fields:";
      MessageError (JStr "Please complete all questions first.");
      Navigate "/start" JUndefined ]
  /\ Recommendation.api_calls
       (Processing.fetchSuggestion Samples.user_without_age Samples.ok_response) = 0%nat
  /\ length Processing.requiredFields = 9%nat.
Proof.
  apply (fetchSuggestion_requires_complete_profile
           Samples.user_without_age Samples.ok_response "age").
  - simpl. tauto.
  - reflexivity.
Defined.

(** ** The guest questionnaire: defaults of the health data *)

Lemma healthData_lookup (completeData formData : gmap string JsVal)
    (k : string) (d : JsVal) :
  In (k, d) Guest.guest_defaults ->
  Guest.healthData completeData formData !! k =
    match completeData !! k with
    | Some v => Some v
    | None => Some (Guest.merged completeData formData k d)
    end.
Proof.
  intros Hin. unfold Guest.healthData, spread.
  rewrite lookup_union.
  destruct (completeData !! k) as [v|] eqn:Hk.
  - field_cases Hin; reflexivity.
  - field_cases Hin; reflexivity.
Qed.

Lemma default_truthy (k : string) (d : JsVal) :
  In (k, d) Guest.guest_defaults -> truthy d = true.
Proof. intros Hin. field_cases Hin; reflexivity. Qed.

Lemma js_or_truthy (a b : JsVal) : truthy b = true -> truthy (js_or a b) = true.
Proof. intros Hb. unfold js_or. destruct (truthy a) eqn:Ha; assumption. Qed.

Lemma guest_request_posted (sessionData : JsVal)
    (formData completeData : gmap string JsVal) (net : RawOutcome) :
  truthy sessionData = true ->
  exists pre post,
    Guest.trace_of (Guest.handleSubmit sessionData formData completeData net) =
      (pre ++ ApiPost "/guest/suggest-item"
                (Guest.suggestionRequest sessionData completeData formData) :: post)%list
    /\ Recommendation.shows_error pre = false.
Proof.
  intros Hs. unfold Guest.handleSubmit. rewrite Hs. simpl negb. cbv iota.
  eexists [ SetLoading true; ConsoleLog _; ConsoleLog _; ConsoleLog _;
            ConsoleLog _; ConsoleLog _ ].
  destruct (getGuestSuggestion net) as [v|err].
  - eexists. split; reflexivity.
  - destruct (Guest.handleSubmit_catch sessionData err) as [t|t];
      eexists; split; reflexivity.
Qed.

Example guest_health_data_keeps_answers :
  Guest.healthData Samples.guest_submitted Samples.guest_form !! "age"
    = Some (JStr "30").
Proof. reflexivity. Qed.

(** ** The admin dashboard: suitability of a saved item *)

Lemma default_covers_all (bmi cond : string) :
  In bmi Admin.bmi_categories -> In cond Admin.medical_conditions ->
  Admin.eligible Admin.default_suitable_for bmi cond = true.
Proof.
  intros Hb Hc. field_cases_str Hb; field_cases_str Hc; reflexivity.
Qed.

(** C10: the payload saved from the admin dashboard keeps the suitability
    of an edited item unchanged, whatever the form values are; for a new
    item (nothing being edited) it carries the full default, under which
    the item is eligible for each of the four BMI categories combined with
    each of the four medical conditions.  The payload is what is posted. *)
Theorem handleSave_suitability
    (values : gmap string JsVal) (net : RawOutcome) :
  (forall editingItem,
     truthy (get "suitable_for" editingItem) = true ->
     Admin.payload values editingItem !! "suitable_for"
       = Some (get "suitable_for" editingItem))
  /\ Admin.payload values JNull !! "suitable_for"
       = Some Admin.default_suitable_for
  /\ (forall bmi cond,
        In bmi Admin.bmi_categories -> In cond Admin.medical_conditions ->
        Admin.eligible (field "suitable_for" (Admin.payload values JNull))
          bmi cond = true)
  /\ (forall editingItem,
        head (Admin.handleSave values editingItem net)
          = Some (ApiPost "/admin/menu"
                    (JObj (Admin.payload values editingItem))))
  /\ length Admin.bmi_categories = 4%nat
  /\ length Admin.medical_conditions = 4%nat.
Proof.
  repeat split.
  - intros item Ht. unfold Admin.payload, js_or. rewrite Ht.
    apply lookup_insert_eq.
  - unfold Admin.payload. apply lookup_insert_eq.
  - intros bmi cond Hb Hc. unfold Admin.payload, field.
    rewrite lookup_insert_eq. apply default_covers_all; assumption.
Qed.

Lemma handleSave_suitability_witness :
  Admin.payload Samples.form_values Samples.existing_item !! "suitable_for"
    = Some (JObj (<["bmi_categories" := JArr [JStr "normal"]]>
                 (<["medical_conditions" := JArr [JStr "diabetes"]]> ∅)))
  /\ Admin.eligible
       (field "suitable_for" (Admin.payload Samples.form_values JNull))
       "obese" "acidity" = true.
Proof.
  destruct (handleSave_suitability Samples.form_values Samples.ok_response)
    as (Hedit & _ & Hall & _).
  split.
  - apply (Hedit Samples.existing_item). reflexivity.
  - apply Hall; simpl; tauto.
Defined.

(** ** Failures of the suggestion request: what the user gets *)

Lemma registered_call (userData : gmap string JsVal) (net : RawOutcome) :
  Processing.missingFields userData = [] ->
  Processing.fetchSuggestion userData net =
    ApiPost "/user/suggest-item" (JObj userData) ::
    match getSuggestion net with
    | Fulfilled result =>
        [ Navigate "/recommendation" (JObj (<["recommendation" := result]> ∅)) ]
    | Rejected error => Processing.fetchSuggestion_catch error
    end.
Proof.
  intros Hc. unfold Processing.fetchSuggestion. rewrite Hc. reflexivity.
Qed.

Lemma registered_timeout (userData : gmap string JsVal) (e : AxiosError) :
  Processing.missingFields userData = [] ->
  is_timeout e = true ->
  Processing.fetchSuggestion userData (RawErr e) =
    [ ApiPost "/user/suggest-item" (JObj userData);
      Navigate "/recommendation"
        (JObj (<["recommendation" := JObj timeout_fallback]> ∅)) ].
Proof.
  intros Hc Ht. rewrite (registered_call _ _ Hc).
  unfold getSuggestion. rewrite (post_data_timeout e Ht). reflexivity.
Qed.

Lemma registered_failure (userData : gmap string JsVal) (e : AxiosError) :
  Processing.missingFields userData = [] ->
  is_timeout e = false ->
  exists content,
    Processing.fetchSuggestion userData (RawErr e) =
      [ ApiPost "/user/suggest-item" (JObj userData);
        ConsoleError "API Error:";
        MessageError content;
        Navigate "/questions" JUndefined ].
Proof.
  intros Hc Ht. rewrite (registered_call _ _ Hc).
  unfold getSuggestion. rewrite (post_data_error e Ht).
  unfold Processing.fetchSuggestion_catch.
  match goal with |- context [if ?c then _ else _] => destruct c end;
    eexists; reflexivity.
Qed.

Lemma guest_call (sessionData : JsVal)
    (formData completeData : gmap string JsVal) (net : RawOutcome) :
  truthy sessionData = true ->
  Guest.handleSubmit sessionData formData completeData net =
    match getGuestSuggestion net with
    | Fulfilled suggestion =>
        Guest.Done (GuestTrace.prefix sessionData formData completeData ++
                    ConsoleLog "Suggestion Response:" ::
                    GuestTrace.delivery sessionData suggestion)
    | Rejected error =>
        match Guest.handleSubmit_catch sessionData error with
        | Guest.Done t =>
            Guest.Done (GuestTrace.prefix sessionData formData completeData ++ t)
        | Guest.Uncaught t =>
            Guest.Uncaught (GuestTrace.prefix sessionData formData completeData ++ t)
        end
    end.
Proof.
  intros Hs. unfold Guest.handleSubmit. rewrite Hs. reflexivity.
Qed.

Lemma guest_timeout (sessionData : JsVal)
    (formData completeData : gmap string JsVal) (e : AxiosError) :
  truthy sessionData = true ->
  is_timeout e = true ->
  Guest.handleSubmit sessionData formData completeData (RawErr e) =
    Guest.Done (GuestTrace.prefix sessionData formData completeData ++
                ConsoleLog "Suggestion Response:" ::
                GuestTrace.delivery sessionData (JObj timeout_fallback)).
Proof.
  intros Hs Ht. rewrite (guest_call _ _ _ _ Hs).
  unfold getGuestSuggestion. rewrite (post_data_timeout e Ht). reflexivity.
Qed.

Lemma guest_server_error (sessionData error : JsVal) :
  eq_num (get "status" (get "response" error)) 500
  || eq_num (get "status" (get "response" error)) 404 = true ->
  Guest.handleSubmit_catch sessionData error =
    Guest.Done (ConsoleError "Guest Suggestion Error:" ::
                GuestTrace.delivery sessionData (JObj Guest.fallbackSuggestion)).
Proof.
  intros H. unfold Guest.handleSubmit_catch. rewrite H. reflexivity.
Qed.

Lemma stored_app (k : string) (t1 t2 : list Effect) (v : JsVal) :
  Recommendation.stored k t2 = Some v ->
  Recommendation.stored k (t1 ++ t2) = Some v.
Proof.
  intros H. induction t1 as [|e t1 IH]; simpl; [exact H|].
  rewrite IH. reflexivity.
Qed.

Lemma navigates_app (p : string) (t1 t2 : list Effect) :
  Recommendation.navigates_to p t2 = true ->
  Recommendation.navigates_to p (t1 ++ t2) = true.
Proof.
  intros H. unfold Recommendation.navigates_to in *.
  rewrite existsb_app, H. apply orb_true_r.
Qed.

Lemma delivery_shown (sessionData : JsVal) (o : gmap string JsVal)
    (t : list Effect) :
  truthy sessionData = true ->
  Recommendation.guest_recommendation
    (t ++ GuestTrace.delivery sessionData (JObj o)) = Some (JObj o).
Proof.
  intros Hs. unfold Recommendation.guest_recommendation.
  rewrite navigates_app by reflexivity.
  rewrite (stored_app "guestSuggestion" t _ (JObj o)) by reflexivity.
  rewrite (stored_app "guestSessionData" t _ sessionData) by reflexivity.
  simpl. rewrite Hs. reflexivity.
Qed.

Lemma guest_timeout_shown (sessionData : JsVal)
    (formData completeData : gmap string JsVal) (e : AxiosError) :
  truthy sessionData = true ->
  is_timeout e = true ->
  let t := Guest.trace_of
             (Guest.handleSubmit sessionData formData completeData (RawErr e)) in
  Recommendation.guest_recommendation t = Some (JObj timeout_fallback)
  /\ Recommendation.shows_error t = false
  /\ Recommendation.api_calls t = 1%nat.
Proof.
  intros Hs Ht. rewrite (guest_timeout _ _ _ _ Hs Ht). simpl Guest.trace_of.
  split; [|split; reflexivity].
  exact (delivery_shown sessionData timeout_fallback
           (GuestTrace.prefix sessionData formData completeData ++
            [ConsoleLog "Suggestion Response:"]) Hs).
Qed.

Lemma guest_server_error_shown (sessionData error : JsVal) :
  truthy sessionData = true ->
  eq_num (get "status" (get "response" error)) 500
  || eq_num (get "status" (get "response" error)) 404 = true ->
  exists t,
    Guest.handleSubmit_catch sessionData error = Guest.Done t
    /\ Recommendation.guest_recommendation t = Some (JObj Guest.fallbackSuggestion)
    /\ Recommendation.shows_error t = false
    /\ Recommendation.api_calls t = 0%nat.
Proof.
  intros Hs H. eexists. split; [apply guest_server_error; exact H|].
  split; [|split; reflexivity].
  apply (delivery_shown sessionData Guest.fallbackSuggestion
           [ConsoleError "Guest Suggestion Error:"] Hs).
Qed.

(** C1, as stated, fails: with a complete profile, a request that fails
    because the backend cannot be reached ends on the registered path with
    the raw transport message shown to the user and a return to the
    questionnaire, and no suggestion; on the guest path a 503 answer of the
    backend ends with an error message and no suggestion. *)
Lemma store_failure_reaches_user :
  Processing.missingFields Samples.complete_user = []
  /\ Processing.fetchSuggestion Samples.complete_user
       (RawErr Samples.network_error) =
       [ ApiPost "/user/suggest-item" (JObj Samples.complete_user);
         ConsoleError "API Error:";
         MessageError (JStr "Network Error");
         Navigate "/questions" JUndefined ]
  /\ Recommendation.user_recommendation
       (Processing.fetchSuggestion Samples.complete_user
          (RawErr Samples.network_error)) = None
  /\ Recommendation.guest_recommendation
       (Guest.trace_of
          (Guest.handleSubmit Samples.session Samples.guest_form
             Samples.guest_submitted (RawErr Samples.unavailable_error))) = None
  /\ Recommendation.shows_error
       (Guest.trace_of
          (Guest.handleSubmit Samples.session Samples.guest_form
             Samples.guest_submitted (RawErr Samples.unavailable_error))) = true.
Proof. repeat split; vm_compute; reflexivity. Qed.

(** C1, amended: a suggestion request that fails by timeout (axios code
    ECONNABORTED, or a message containing 'timeout') yields the fixed
    timeout fallback suggestion on the registered and on the guest path,
    with no error shown; on the guest path a rejection that carries
    response status 500 or 404 yields the guest fallback suggestion; any
    failure other than a timeout on the registered path shows an error
    message and returns to the questionnaire without a suggestion. *)
Theorem suggestion_after_failure
    (userData : gmap string JsVal) (sessionData : JsVal)
    (formData completeData : gmap string JsVal) (e : AxiosError) :
  Processing.missingFields userData = [] ->
  truthy sessionData = true ->
  (is_timeout e = true ->
     Recommendation.user_recommendation
       (Processing.fetchSuggestion userData (RawErr e))
       = Some (JObj timeout_fallback)
     /\ Recommendation.shows_error
          (Processing.fetchSuggestion userData (RawErr e)) = false
     /\ Recommendation.guest_recommendation
          (Guest.trace_of
             (Guest.handleSubmit sessionData formData completeData (RawErr e)))
          = Some (JObj timeout_fallback)
     /\ Recommendation.shows_error
          (Guest.trace_of
             (Guest.handleSubmit sessionData formData completeData (RawErr e)))
          = false)
  /\ (forall error,
        eq_num (get "status" (get "response" error)) 500
        || eq_num (get "status" (get "response" error)) 404 = true ->
        exists t,
          Guest.handleSubmit_catch sessionData error = Guest.Done t
          /\ Recommendation.guest_recommendation t
               = Some (JObj Guest.fallbackSuggestion)
          /\ Recommendation.shows_error t = false)
  /\ (is_timeout e = false ->
        Recommendation.user_recommendation
          (Processing.fetchSuggestion userData (RawErr e)) = None
        /\ Recommendation.shows_error
             (Processing.fetchSuggestion userData (RawErr e)) = true
        /\ Recommendation.navigates_to "/questions"
             (Processing.fetchSuggestion userData (RawErr e)) = true).
Proof.
  intros Hc Hs. split; [|split].
  - intros Ht.
    rewrite (registered_timeout userData e Hc Ht).
    destruct (guest_timeout_shown sessionData formData completeData e Hs Ht)
      as (Hg & Hne & _).
    repeat split; assumption.
  - intros error H.
    destruct (guest_server_error_shown sessionData error Hs H)
      as (t & Ht & Hg & Hne & _).
    exists t. repeat split; assumption.
  - intros Ht.
    destruct (registered_failure userData e Hc Ht) as [content ->].
    repeat split.
Qed.

Lemma suggestion_after_failure_witness :
  Recommendation.user_recommendation
    (Processing.fetchSuggestion Samples.complete_user
       (RawErr Samples.timeout_error)) = Some (JObj timeout_fallback)
  /\ Recommendation.shows_error
       (Processing.fetchSuggestion Samples.complete_user
          (RawErr Samples.timeout_error)) = false.
Proof.
  destruct (suggestion_after_failure Samples.complete_user Samples.session
              Samples.guest_form Samples.guest_submitted Samples.timeout_error
              eq_refl eq_refl) as [Ht _].
  destruct (Ht eq_refl) as (H1 & H2 & _).
  split; assumption.
Defined.

(** ** The fallback suggestions *)

(** C2, as stated, fails: two guest requests that both end on a fallback
    are shown different items, 'Plain Idli' after a timeout and 'Plain
    Dosa' after a 500 answer. *)
Lemma fallback_items_differ :
  Recommendation.guest_recommendation
    (Guest.trace_of
       (Guest.handleSubmit Samples.session Samples.guest_form
          Samples.guest_submitted (RawErr Samples.timeout_error)))
    = Some (JObj timeout_fallback)
  /\ Recommendation.guest_recommendation
       (Guest.trace_of
          (Guest.handleSubmit Samples.session Samples.guest_form
             Samples.guest_submitted (RawErr Samples.server_error_no_body)))
       = Some (JObj Guest.fallbackSuggestion)
  /\ get "suggested_item" (JObj timeout_fallback) = JStr "Plain Idli"
  /\ get "suggested_item" (JObj Guest.fallbackSuggestion) = JStr "Plain Dosa"
  /\ JObj timeout_fallback <> JObj Guest.fallbackSuggestion.
Proof.
  repeat split; try (vm_compute; reflexivity).
  intros H.
  assert (Hs : get "suggested_item" (JObj timeout_fallback)
               = get "suggested_item" (JObj Guest.fallbackSuggestion))
    by (rewrite H; reflexivity).
  vm_compute in Hs. discriminate Hs.
Qed.

(** C2, amended: each fallback site returns its own fixed suggestion,
    independent of the request and of the details of the failure.  After a
    timeout both paths deliver the 'Plain Idli' record; after a rejection
    with response status 500 or 404 the guest handler delivers the 'Plain
    Dosa' record.  Producing either performs no further request: the only
    API call of the trace is the one that failed. *)
Theorem fallback_fixed_per_site
    (userData : gmap string JsVal) (sessionData : JsVal)
    (formData completeData : gmap string JsVal) (e : AxiosError) :
  Processing.missingFields userData = [] ->
  truthy sessionData = true ->
  is_timeout e = true ->
  Processing.fetchSuggestion userData (RawErr e) =
    [ ApiPost "/user/suggest-item" (JObj userData);
      Navigate "/recommendation"
        (JObj (<["recommendation" := JObj timeout_fallback]> ∅)) ]
  /\ Guest.handleSubmit sessionData formData completeData (RawErr e) =
       Guest.Done (GuestTrace.prefix sessionData formData completeData ++
                   ConsoleLog "Suggestion Response:" ::
                   GuestTrace.delivery sessionData (JObj timeout_fallback))
  /\ Recommendation.api_calls
       (Guest.trace_of
          (Guest.handleSubmit sessionData formData completeData (RawErr e)))
       = 1%nat
  /\ (forall error,
        eq_num (get "status" (get "response" error)) 500
        || eq_num (get "status" (get "response" error)) 404 = true ->
        Guest.handleSubmit_catch sessionData error =
          Guest.Done (ConsoleError "Guest Suggestion Error:" ::
                      GuestTrace.delivery sessionData
                        (JObj Guest.fallbackSuggestion)))
  /\ field "suggested_item" timeout_fallback = JStr "Plain Idli"
  /\ field "suggested_item" Guest.fallbackSuggestion = JStr "Plain Dosa".
Proof.
  intros Hc Hs Ht.
  split; [exact (registered_timeout userData e Hc Ht)|].
  split; [exact (guest_timeout sessionData formData completeData e Hs Ht)|].
  split; [exact (proj2 (proj2
            (guest_timeout_shown sessionData formData completeData e Hs Ht)))|].
  split; [intros error H; exact (guest_server_error sessionData error H)|].
  split; reflexivity.
Qed.

Lemma fallback_fixed_per_site_witness :
  Processing.fetchSuggestion Samples.complete_user
    (RawErr Samples.timeout_error) =
    [ ApiPost "/user/suggest-item" (JObj Samples.complete_user);
      Navigate "/recommendation"
        (JObj (<["recommendation" := JObj timeout_fallback]> ∅)) ].
Proof.
  exact (proj1 (fallback_fixed_per_site Samples.complete_user Samples.session
                  Samples.guest_form Samples.guest_submitted
                  Samples.timeout_error eq_refl eq_refl eq_refl)).
Defined.

(** C3, as stated, fails: the reason text of the fallback shown after a
    500 answer says nothing about a safe default or a degraded service,
    and a primary response can carry the very same reason text. *)
Lemma fallback_reason_not_marked :
  Recommendation.guest_recommendation
    (Guest.trace_of
       (Guest.handleSubmit Samples.session Samples.guest_form
          Samples.guest_submitted (RawErr Samples.server_error_no_body)))
    = Some (JObj Guest.fallbackSuggestion)
  /\ get "reason" (JObj Guest.fallbackSuggestion)
       = JStr "Safe, nutritious option suitable for your health profile."
  /\ Recommendation.states_degraded
       (Recommendation.text_of (get "reason" (JObj Guest.fallbackSuggestion)))
       = false
  /\ Recommendation.guest_recommendation
       (Guest.trace_of
          (Guest.handleSubmit Samples.session Samples.guest_form
             Samples.guest_submitted Samples.lookalike_response))
       = Some Samples.lookalike_body
  /\ get "reason" Samples.lookalike_body
       = get "reason" (JObj Guest.fallbackSuggestion).
Proof. repeat split; vm_compute; reflexivity. Qed.

(** C3, amended: the fallback suggestions carry fixed reason texts that
    call the item a safe option and do not mention a degraded service:
    'Safe, low-calorie option suitable for your health profile.' after a
    timeout, on both paths, and 'Safe, nutritious option suitable for your
    health profile.' after a 500 or 404 rejection on the guest path.  Only
    the health summary of the timeout fallback says that the safe
    recommendation is used because of a timeout. *)
Theorem fallback_reason_texts
    (userData : gmap string JsVal) (sessionData : JsVal)
    (formData completeData : gmap string JsVal) (e : AxiosError) :
  Processing.missingFields userData = [] ->
  truthy sessionData = true ->
  (is_timeout e = true ->
     exists s,
       Recommendation.user_recommendation
         (Processing.fetchSuggestion userData (RawErr e)) = Some s
       /\ Recommendation.guest_recommendation
            (Guest.trace_of
               (Guest.handleSubmit sessionData formData completeData (RawErr e)))
            = Some s
       /\ get "reason" s
            = JStr "Safe, low-calorie option suitable for your health profile."
       /\ Recommendation.states_degraded
            (Recommendation.text_of (get "reason" s)) = false
       /\ get "health_summary" s
            = JStr "Your BMI is normal. Using safe recommendation due to timeout."
       /\ Recommendation.states_degraded
            (Recommendation.text_of (get "health_summary" s)) = true)
  /\ (forall error,
        eq_num (get "status" (get "response" error)) 500
        || eq_num (get "status" (get "response" error)) 404 = true ->
        exists t s,
          Guest.handleSubmit_catch sessionData error = Guest.Done t
          /\ Recommendation.guest_recommendation t = Some s
          /\ get "reason" s
               = JStr "Safe, nutritious option suitable for your health profile."
          /\ Recommendation.states_degraded
               (Recommendation.text_of (get "reason" s)) = false
          /\ Recommendation.states_degraded
               (Recommendation.text_of (get "health_summary" s)) = false).
Proof.
  intros Hc Hs. split.
  - intros Ht. exists (JObj timeout_fallback).
    rewrite (registered_timeout userData e Hc Ht).
    split; [reflexivity|].
    split; [exact (proj1
              (guest_timeout_shown sessionData formData completeData e Hs Ht))|].
    repeat split; vm_compute; reflexivity.
  - intros error H.
    destruct (guest_server_error_shown sessionData error Hs H)
      as (t & Ht & Hg & _).
    exists t, (JObj Guest.fallbackSuggestion).
    split; [exact Ht|]. split; [exact Hg|].
    repeat split; vm_compute; reflexivity.
Qed.

Lemma fallback_reason_texts_witness :
  exists s,
    Recommendation.user_recommendation
      (Processing.fetchSuggestion Samples.complete_user
         (RawErr Samples.timeout_error)) = Some s
    /\ get "reason" s
         = JStr "Safe, low-calorie option suitable for your health profile.".
Proof.
  destruct (fallback_reason_texts Samples.complete_user Samples.session
              Samples.guest_form Samples.guest_submitted Samples.timeout_error
              eq_refl eq_refl) as [Ht _].
  destruct (Ht eq_refl) as (s & H1 & _ & H2 & _).
  exists s. split; assumption.
Defined.

(** ** Circuit breaker transitions *)

Section BreakerFacts.
Import Breaker.
Variable cfg : Config.

Lemma run_app (a b : list (Z * bool)) (s : Breaker) :
  run cfg (a ++ b) s =
    let (s1, n) := run cfg a s in
    let (s2, m) := run cfg b s1 in
    (s2, (n + m)%nat).
Proof.
  revert s. induction a as [|[t ok] a IH]; intros s; simpl.
  - destruct (run cfg b s) as [s2 m]. reflexivity.
  - destruct (call cfg t ok s) as [[s1 r] n].
    rewrite IH.
    destruct (run cfg a s1) as [s2 m].
    destruct (run cfg b s2) as [s3 k].
    f_equal. lia.
Qed.

Lemma call_closed_failure (now : Z) (b : Breaker) :
  state b = Closed ->
  call cfg now false b = (on_failure cfg now b, Failed, 1%nat).
Proof. intros H. unfold call, gate. rewrite H. reflexivity. Qed.

Lemma run_failures_below (times : list Z) (b : Breaker) :
  state b = Closed ->
  (failureCount b + length times < failureThreshold cfg)%nat ->
  run cfg (failures times) b =
    ({| state := Closed;
        failureCount := failureCount b + length times;
        probeSuccesses := probeSuccesses b;
        transitionTime := transitionTime b |}, length times).
Proof.
  revert b. induction times as [|t ts IH]; intros b Hc Hlt; simpl in *.
  - rewrite Nat.add_0_r. destruct b; simpl in *; subst; reflexivity.
  - rewrite (call_closed_failure t b Hc).
    unfold on_failure. rewrite Hc.
    destruct (Nat.leb_spec (failureThreshold cfg) (S (failureCount b)));
      [lia|].
    rewrite IH; simpl; [|reflexivity|lia].
    f_equal. f_equal. lia.
Qed.

Lemma run_failures_reach (ts : list Z) (t t0 : Z) :
  S (length ts) = failureThreshold cfg ->
  run cfg (failures (ts ++ [t])) (init t0) =
    ({| state := Open; failureCount := failureThreshold cfg;
        probeSuccesses := 0; transitionTime := t |},
     failureThreshold cfg).
Proof.
  intros Hlen. unfold failures. rewrite map_app. rewrite run_app.
  fold (failures ts).
  rewrite run_failures_below; simpl; [|reflexivity|lia].
  unfold call, gate, on_failure. simpl.
  destruct (Nat.leb_spec (failureThreshold cfg) (S (length ts))); [|lia].
  rewrite <- Hlen. f_equal. lia.
Qed.

Lemma call_open_early (now : Z) (ok : bool) (b : Breaker) :
  state b = Open ->
  (now - transitionTime b < recoveryTimeout cfg)%Z ->
  call cfg now ok b = (b, CircuitOpenError, 0%nat).
Proof.
  intros Ho Hlt. unfold call, gate. rewrite Ho.
  destruct (Z.leb_spec (recoveryTimeout cfg) (now - transitionTime b));
    [lia|reflexivity].
Qed.

Lemma call_wf (now : Z) (ok : bool) (b : Breaker) :
  (0 < failureThreshold cfg)%nat -> (0 < successThreshold cfg)%nat ->
  wf cfg b -> wf cfg (after_call cfg now ok b).
Proof.
  intros Hf Hs Hwf. unfold after_call, call, gate, wf in *.
  destruct (state b) eqn:Hst; simpl.
  - destruct ok; simpl; unfold on_success, on_failure; rewrite Hst; simpl.
    + exact Hf.
    + destruct (Nat.leb_spec (failureThreshold cfg) (S (failureCount b)));
        simpl; [exact I|lia].
  - destruct (Z.leb_spec (recoveryTimeout cfg) (now - transitionTime b));
      simpl.
    + destruct ok; simpl; unfold on_success, on_failure; simpl.
      * destruct (Nat.leb_spec (successThreshold cfg) 1); simpl; lia.
      * exact I.
    + rewrite Hst. exact I.
  - destruct ok; simpl; unfold on_success, on_failure; rewrite Hst; simpl.
    + destruct (Nat.leb_spec (successThreshold cfg) (S (probeSuccesses b)));
        simpl; lia.
    + exact I.
Qed.
End BreakerFacts.

Lemma consecutive_snoc (r x : Breaker.CallResult)
    (rs : list Breaker.CallResult) :
  Breaker.consecutive r (rs ++ [x]) =
    if Breaker.is_result r x then S (Breaker.consecutive r rs) else 0%nat.
Proof. unfold Breaker.consecutive. rewrite rev_unit. reflexivity. Qed.

Lemma results_snoc (cfg : Breaker.Config) (calls : list (Z * bool))
    (now : Z) (ok : bool) (b : Breaker.Breaker) :
  Breaker.results cfg (calls ++ [(now, ok)]) b =
    Breaker.results cfg calls b
    ++ [ snd (fst (Breaker.call cfg now ok (fst (Breaker.run cfg calls b)))) ].
Proof.
  revert b. induction calls as [|[t o] calls IH]; intros b; simpl.
  - destruct (Breaker.call cfg now ok b) as [[b1 r] n]. reflexivity.
  - destruct (Breaker.call cfg t o b) as [[b1 r] n]. rewrite IH.
    destruct (Breaker.run cfg calls b1) as [b2 m]. reflexivity.
Qed.

Lemma run_snoc (cfg : Breaker.Config) (calls : list (Z * bool))
    (now : Z) (ok : bool) (b : Breaker.Breaker) :
  fst (Breaker.run cfg (calls ++ [(now, ok)]) b) =
    Breaker.after_call cfg now ok (fst (Breaker.run cfg calls b)).
Proof.
  rewrite run_app. unfold Breaker.after_call.
  destruct (Breaker.run cfg calls b) as [b1 n]. simpl.
  destruct (Breaker.call cfg now ok b1) as [[b2 r] m]. reflexivity.
Qed.

(** The counters of a breaker that has served a sequence of calls from
    its start count what the results of those calls show. *)
Lemma breaker_counts (cfg : Breaker.Config) (t0 : Z)
    (calls : list (Z * bool)) :
  (0 < Breaker.failureThreshold cfg)%nat ->
  (0 < Breaker.successThreshold cfg)%nat ->
  Breaker.wf cfg (fst (Breaker.run cfg calls (Breaker.init t0)))
  /\ match Breaker.state (fst (Breaker.run cfg calls (Breaker.init t0))) with
     | Breaker.Closed =>
         Breaker.failureCount (fst (Breaker.run cfg calls (Breaker.init t0)))
         = Breaker.consecutive Breaker.Failed
             (Breaker.results cfg calls (Breaker.init t0))
     | Breaker.Open =>
         Breaker.consecutive Breaker.Returned
           (Breaker.results cfg calls (Breaker.init t0)) = 0%nat
     | Breaker.HalfOpen =>
         Breaker.probeSuccesses (fst (Breaker.run cfg calls (Breaker.init t0)))
         = Breaker.consecutive Breaker.Returned
             (Breaker.results cfg calls (Breaker.init t0))
     end.
Proof.
  intros Hf Hs. induction calls as [|[now ok] calls IH] using rev_ind.
  - simpl. split; [exact Hf | reflexivity].
  - rewrite run_snoc, results_snoc.
    destruct IH as [Hwf IH].
    split; [exact (call_wf cfg now ok _ Hf Hs Hwf)|].
    rewrite !consecutive_snoc.
    set (b := fst (Breaker.run cfg calls (Breaker.init t0))) in *.
    set (rs := Breaker.results cfg calls (Breaker.init t0)) in *.
    clearbody b rs.
    unfold Breaker.after_call, Breaker.call, Breaker.gate,
      Breaker.on_success, Breaker.on_failure, Breaker.wf in *.
    destruct (Breaker.state b) eqn:Hst; cbn -[Nat.leb Z.leb]; rewrite ?Hst.
    + destruct ok; cbn -[Nat.leb Z.leb]; rewrite ?Hst;
        cbn -[Nat.leb Z.leb]; [reflexivity|].
      destruct (Nat.leb_spec (Breaker.failureThreshold cfg)
                  (S (Breaker.failureCount b)));
        cbn -[Nat.leb Z.leb]; [reflexivity | congruence].
    + destruct (Z.leb_spec (Breaker.recoveryTimeout cfg)
                  (now - Breaker.transitionTime b));
        cbn -[Nat.leb Z.leb]; rewrite ?Hst; [|reflexivity].
      destruct ok; cbn -[Nat.leb Z.leb]; [|reflexivity].
      destruct (Nat.leb_spec (Breaker.successThreshold cfg) 1);
        cbn -[Nat.leb Z.leb]; [reflexivity | congruence].
    + destruct ok; cbn -[Nat.leb Z.leb]; rewrite ?Hst;
        cbn -[Nat.leb Z.leb]; [|reflexivity].
      destruct (Nat.leb_spec (Breaker.successThreshold cfg)
                  (S (Breaker.probeSuccesses b)));
        cbn -[Nat.leb Z.leb]; [reflexivity | congruence].
Qed.



Example breaker_recovers :
  Breaker.state
    (fst (Breaker.run Samples.breaker_config
            (Breaker.failures [1000; 2000; 3000]%Z
             ++ Breaker.successes [33000; 34000]%Z) (Breaker.init 0)))
  = Breaker.Closed.
Proof. reflexivity. Qed.

Example breaker_success_restarts_count :
  Breaker.run Samples.breaker_config
    (Breaker.failures [1000; 2000]%Z ++ Breaker.successes [3000]%Z
     ++ Breaker.failures [4000; 5000]%Z) (Breaker.init 0)
  = ({| Breaker.state := Breaker.Closed; Breaker.failureCount := 2;
        Breaker.probeSuccesses := 0; Breaker.transitionTime := 0 |}, 5%nat).
Proof. reflexivity. Qed.

(** ** Backoff delays of the retry executor *)

Section RetryFacts.
Import Retry.
Context {A E : Type}.
Variable operation : nat -> Attempt A E.
Variable baseDelay : Z.
Variable source : nat -> Z.

Lemma jitter_bounds (n : nat) :
  (0 < baseDelay)%Z ->
  (0 <= jitter baseDelay source n < baseDelay)%Z.
Proof. intros Hb. unfold jitter. apply Z.mod_pos_bound. exact Hb. Qed.

Lemma nth_error_delays (r n i : nat) :
  (i < r)%nat ->
  nth_error (List.map (backoff_delay baseDelay source) (seq n r)) i
    = Some (backoff_delay baseDelay source (n + i)).
Proof.
  revert n i. induction r as [|r IH]; intros n i Hi; [lia|].
  destruct i as [|i]; simpl.
  - rewrite Nat.add_0_r. reflexivity.
  - rewrite IH by lia. f_equal. f_equal. lia.
Qed.

Hypothesis always_retryable : forall n, is_retryable (operation n) = true.

Lemma attempt_from_exhausts (r n : nat) :
  exists res,
    attempt_from operation baseDelay source n r =
      (res, List.map (backoff_delay baseDelay source) (seq n r))
    /\ is_final_error res = true.
Proof.
  revert n. induction r as [|r IH]; intros n; simpl.
  - pose proof (always_retryable n) as Hn.
    destruct (operation n) as [a|e|e]; try discriminate.
    exists (FinalError e). split; reflexivity.
  - pose proof (always_retryable n) as Hn.
    destruct (operation n) as [a|e|e]; try discriminate.
    destruct (IH (S n)) as (res & Heq & Hfin). rewrite Heq.
    exists res. split; [reflexivity | exact Hfin].
Qed.
End RetryFacts.



Example retry_delays_computed :
  Retry.execute Samples.always_timeout 500 Samples.jitter_source 3
    = Some (Retry.FinalError "timeout", [919; 1338]%Z).
Proof. reflexivity. Qed.

(** ** Body-mass index *)

Lemma Qle_bool_false (x y : Q) : Qle_bool x y = false -> (y < x)%Q.
Proof.
  intros H. apply Qnot_le_lt. intros Hle.
  apply Qle_bool_iff in Hle. congruence.
Qed.

Lemma category_in_range (b : Q) : Bmi.in_range (Bmi.category_of b) b.
Proof.
  unfold Bmi.category_of.
  destruct (Qle_bool (185 # 10) b) eqn:H1;
    [apply Qle_bool_iff in H1 | exact (Qle_bool_false _ _ H1)].
  destruct (Qle_bool 25 b) eqn:H2;
    [apply Qle_bool_iff in H2
    | split; [exact H1 | exact (Qle_bool_false _ _ H2)]].
  destruct (Qle_bool 30 b) eqn:H3;
    [apply Qle_bool_iff in H3; exact H3
    | split; [exact H2 | exact (Qle_bool_false _ _ H3)]].
Qed.

Lemma ranges_disjoint (c c' : Bmi.BmiCategory) (b : Q) :
  Bmi.in_range c b -> Bmi.in_range c' b -> c = c'.
Proof.
  destruct c, c'; simpl; intros H H'; try reflexivity; exfalso; lra.
Qed.

Lemma category_iff (p : Bmi.UserProfile) (c : Bmi.BmiCategory) :
  Bmi.bmi_category p = c <-> Bmi.in_range c (Bmi.bmi p).
Proof.
  split.
  - intros <-. apply category_in_range.
  - intros Hc. symmetry.
    exact (ranges_disjoint _ _ _ Hc (category_in_range (Bmi.bmi p))).
Qed.

(** C7: the BMI of a profile is its weight in kilograms divided by the
    square of its height in metres, and the category is fixed by the
    thresholds 18.5, 25 and 30: underweight below 18.5, normal from 18.5 to
    below 25, overweight from 25 to below 30, obese from 30.  The four
    ranges partition the values: the category of a profile is the one
    range that contains its BMI. *)
Theorem bmi_and_category (p : Bmi.UserProfile) :
  (Bmi.bmi p == Bmi.weight_kg p / ((Bmi.height_cm p / 100) ^ 2))%Q
  /\ ((0 < Bmi.height_cm p)%Q ->
      (Bmi.bmi p * (Bmi.height_m p) ^ 2 == Bmi.weight_kg p)%Q)
  /\ Bmi.in_range (Bmi.bmi_category p) (Bmi.bmi p)
  /\ (forall c, Bmi.in_range c (Bmi.bmi p) -> c = Bmi.bmi_category p)
  /\ (Bmi.bmi_category p = Bmi.Underweight <-> (Bmi.bmi p < 185 # 10)%Q)
  /\ (Bmi.bmi_category p = Bmi.Normal
      <-> (185 # 10 <= Bmi.bmi p)%Q /\ (Bmi.bmi p < 25)%Q)
  /\ (Bmi.bmi_category p = Bmi.Overweight
      <-> (25 <= Bmi.bmi p)%Q /\ (Bmi.bmi p < 30)%Q)
  /\ (Bmi.bmi_category p = Bmi.Obese <-> (30 <= Bmi.bmi p)%Q).
Proof.
  pose proof (category_in_range (Bmi.bmi p)) as Hin.
  assert (Huniq : forall c, Bmi.in_range c (Bmi.bmi p) -> c = Bmi.bmi_category p)
    by (intros c Hc; exact (ranges_disjoint _ _ _ Hc Hin)).
  split; [unfold Bmi.bmi, Bmi.height_m; simpl; reflexivity|].
  split.
  { intros Hh. unfold Bmi.bmi, Bmi.height_m. simpl. field.
    intros H0. rewrite H0 in Hh. exact (Qlt_irrefl 0 Hh). }
  split; [exact Hin|]. split; [exact Huniq|].
  split; [exact (category_iff p Bmi.Underweight)|].
  split; [exact (category_iff p Bmi.Normal)|].
  split; [exact (category_iff p Bmi.Overweight)|].
  exact (category_iff p Bmi.Obese).
Qed.

Lemma bmi_and_category_witness :
  Bmi.bmi_category Samples.documented_profile = Bmi.Normal.
Proof.
  destruct (bmi_and_category Samples.documented_profile)
    as (_ & _ & _ & Huniq & _).
  symmetry. apply Huniq. vm_compute. split; [discriminate | reflexivity].
Defined.

(** ** The bounded cache and its eviction order *)

Section CacheFacts.
Import Cache.
Context {V : Type}.
Implicit Types (c : Cache V) (es : list (CacheEntry V)) (e : CacheEntry V).

Lemma remove_key_length es k :
  (length (remove_key k es) <= length es)%nat.
Proof. unfold remove_key. apply filter_length_le. Qed.

Lemma remove_key_found es k e :
  lookup_entry k es = Some e ->
  (length (remove_key k es) < length es)%nat.
Proof.
  unfold lookup_entry, remove_key.
  induction es as [|x es IH]; simpl; [discriminate|].
  destruct (has_key k x) eqn:Hx; simpl.
  - intros _. pose proof (filter_length_le (fun e => negb (has_key k e)) es).
    lia.
  - intros H. specialize (IH H). lia.
Qed.

Lemma lookup_absent es k :
  ~ In k (List.map key es) -> lookup_entry k es = None.
Proof.
  unfold lookup_entry. induction es as [|x es IH]; simpl; [reflexivity|].
  intros Hn. unfold has_key at 1.
  destruct (String.eqb_spec k (key x)) as [->|Hne]; [tauto|].
  apply IH. tauto.
Qed.

Lemma put_size k v ttl now c :
  (length (entries c) <= maxSize c)%nat ->
  maxSize (put k v ttl now c) = maxSize c
  /\ (length (entries (put k v ttl now c)) <= maxSize c)%nat.
Proof.
  intros Hle. unfold put.
  destruct (lookup_entry k (entries c)) as [e|] eqn:Hk; simpl.
  - split; [reflexivity|]. rewrite length_app. simpl.
    pose proof (remove_key_found _ _ _ Hk). lia.
  - destruct (Nat.eqb_spec (maxSize c) 0) as [Hz|Hpos];
      [split; [reflexivity | exact Hle]|].
    destruct (Nat.leb_spec (maxSize c) (length (entries c))); simpl;
      (split; [reflexivity|]); rewrite length_app; simpl.
    + destruct (entries c); simpl in *; lia.
    + lia.
Qed.

Lemma get_size k now c :
  (length (entries c) <= maxSize c)%nat ->
  maxSize (fst (get k now c)) = maxSize c
  /\ (length (entries (fst (get k now c))) <= maxSize c)%nat.
Proof.
  intros Hle. unfold get.
  destruct (lookup_entry k (entries c)) as [e|] eqn:Hk; simpl.
  - destruct (Z.leb_spec (expiresAt e) now); simpl;
      (split; [reflexivity|]).
    + pose proof (remove_key_length (entries c) k). lia.
    + rewrite length_app. simpl.
      pose proof (remove_key_found _ _ _ Hk). lia.
  - split; [reflexivity | exact Hle].
Qed.

Lemma step_size o c :
  (length (entries c) <= maxSize c)%nat ->
  maxSize (step o c) = maxSize c
  /\ (length (entries (step o c)) <= maxSize c)%nat.
Proof.
  intros Hle. destruct o as [k now | k v ttl now]; simpl.
  - apply get_size. exact Hle.
  - apply put_size; assumption.
Qed.

Lemma run_size ops c :
  (length (entries c) <= maxSize c)%nat ->
  maxSize (run ops c) = maxSize c
  /\ (length (entries (run ops c)) <= maxSize c)%nat.
Proof.
  revert c. induction ops as [|o ops IH]; intros c Hle; simpl.
  - split; [reflexivity | exact Hle].
  - destruct (step_size o c Hle) as [Hm Hl].
    destruct (IH (step o c)) as [Hm' Hl']; [lia|].
    unfold run in *. rewrite Hm', Hm. split; [reflexivity|]. lia.
Qed.
End CacheFacts.

Section CacheOrder.
Import Cache.
Context {V : Type}.
Implicit Types (c : Cache V) (es : list (CacheEntry V)) (e : CacheEntry V).

Lemma ordered_nil t : ordered (V := V) t [].
Proof. split; constructor. Qed.

Lemma ordered_later t t' es :
  (t <= t')%Z -> ordered t es -> ordered t' es.
Proof.
  intros Hle [Hs Hf]. split; [exact Hs|].
  rewrite List.Forall_forall in *. intros e He. specialize (Hf e He). lia.
Qed.

Lemma ordered_filter t es (P : CacheEntry V -> bool) :
  ordered t es -> ordered t (List.filter P es).
Proof.
  intros [Hs Hf]. split.
  - clear Hf. induction es as [|x es IH]; simpl; [constructor|].
    simpl in Hs. apply StronglySorted_inv in Hs as [Hs Hx].
    destruct (P x); simpl; [|exact (IH Hs)].
    constructor; [exact (IH Hs)|].
    rewrite List.Forall_forall in *. intros z Hz.
    apply in_map_iff in Hz as (e & <- & He).
    apply filter_In in He as [He _].
    apply Hx. apply in_map. exact He.
  - rewrite List.Forall_forall in *. intros e He.
    apply filter_In in He as [He _]. exact (Hf e He).
Qed.

Lemma ordered_tail t es : ordered t es -> ordered t (tail es).
Proof.
  intros [Hs Hf]. destruct es as [|x es]; simpl; [split; assumption|].
  simpl in Hs. apply StronglySorted_inv in Hs as [Hs _].
  split; [exact Hs|]. inversion Hf; assumption.
Qed.

Lemma ordered_snoc t es e :
  ordered t es -> lastAccess e = t -> ordered t (es ++ [e]).
Proof.
  intros [Hs Hf] He. split.
  - induction es as [|x es IH]; simpl.
    + constructor; constructor.
    + simpl in Hs. apply StronglySorted_inv in Hs as [Hs Hx].
      inversion Hf as [|? ? Hxt Hf']; subst.
      constructor; [exact (IH Hs Hf')|].
      rewrite map_app. apply Forall_app. split; [exact Hx|].
      constructor; [exact Hxt | constructor].
  - apply Forall_app. split; [exact Hf|].
    constructor; [lia | constructor].
Qed.

Lemma step_ordered t o c :
  (t <= time_of o)%Z ->
  ordered t (entries c) ->
  ordered (time_of o) (entries (step o c)).
Proof.
  intros Hle Ho. apply (ordered_later _ _ _ Hle) in Ho.
  destruct o as [k now | k v ttl now]; simpl in *.
  - unfold get.
    destruct (lookup_entry k (entries c)) as [e|]; simpl; [|exact Ho].
    destruct (expiresAt e <=? now)%Z; simpl.
    + apply ordered_filter. exact Ho.
    + apply ordered_snoc; [apply ordered_filter; exact Ho | reflexivity].
  - unfold put.
    destruct (lookup_entry k (entries c)) as [e|]; simpl.
    + apply ordered_snoc; [apply ordered_filter; exact Ho | reflexivity].
    + destruct (maxSize c =? 0)%nat; [exact Ho|].
      destruct (maxSize c <=? length (entries c))%nat; simpl;
        apply ordered_snoc;
        solve [ reflexivity | exact Ho | apply ordered_tail; exact Ho ].
Qed.

Lemma run_ordered ops t c :
  chronological t ops ->
  ordered t (entries c) ->
  exists t', ordered t' (entries (run ops c)).
Proof.
  revert t c. induction ops as [|o ops IH]; intros t c Hch Ho; simpl.
  - exists t. exact Ho.
  - destruct Hch as [Hle Hch].
    exact (IH (time_of o) (step o c) Hch (step_ordered t o c Hle Ho)).
Qed.

Lemma head_least_recent t e es :
  ordered t (e :: es) ->
  Forall (fun x => (lastAccess e <= lastAccess x)%Z) (e :: es).
Proof.
  intros [Hs _]. simpl in Hs. apply StronglySorted_inv in Hs as [_ Hx].
  constructor; [lia|].
  rewrite List.Forall_forall in *. intros x Hin.
  apply Hx. apply in_map. exact Hin.
Qed.

Lemma put_at_capacity k v ttl now c :
  (0 < maxSize c)%nat ->
  length (entries c) = maxSize c ->
  ~ In k (keys c) ->
  exists lru rest,
    entries c = lru :: rest
    /\ entries (put k v ttl now c) =
         rest ++ [ {| key := k; value := v; insertedAt := now;
                      lastAccess := now; expiresAt := (now + ttl)%Z |} ]
    /\ evictions (put k v ttl now c) = S (evictions c)
    /\ length (entries (put k v ttl now c)) = maxSize c.
Proof.
  intros Hpos Hlen Hk. unfold put.
  rewrite (lookup_absent _ _ Hk).
  destruct (Nat.eqb_spec (maxSize c) 0); [lia|].
  destruct (Nat.leb_spec (maxSize c) (length (entries c))); [|lia].
  destruct (entries c) as [|lru rest] eqn:He; simpl in *; [lia|].
  exists lru, rest. repeat split. rewrite length_app. simpl. lia.
Qed.

Lemma run_puts_below (xs : list (string * V * Z * Z)) c :
  List.NoDup (keys c ++ List.map key_of xs) ->
  (length (entries c) + length xs <= maxSize c)%nat ->
  keys (run (List.map put_of xs) c) = keys c ++ List.map key_of xs
  /\ evictions (run (List.map put_of xs) c) = evictions c
  /\ maxSize (run (List.map put_of xs) c) = maxSize c.
Proof.
  revert c. induction xs as [|[[[k v] ttl] now] xs IH]; intros c Hnd Hlen.
  - simpl. rewrite app_nil_r. repeat split.
  - simpl in *.
    assert (Hk : ~ In k (keys c)).
    { apply NoDup_remove_2 in Hnd. intros Hin. apply Hnd.
      apply in_or_app. left. exact Hin. }
    assert (Hput : put k v ttl now c =
              {| maxSize := maxSize c;
                 entries := entries c ++
                   [ {| key := k; value := v; insertedAt := now;
                        lastAccess := now; expiresAt := (now + ttl)%Z |} ];
                 hits := hits c; misses := misses c;
                 evictions := evictions c |}).
    { unfold put. rewrite (lookup_absent _ _ Hk).
      destruct (Nat.eqb_spec (maxSize c) 0); [lia|].
      destruct (Nat.leb_spec (maxSize c) (length (entries c)));
        [lia | reflexivity]. }
    unfold run in *. simpl. rewrite Hput.
    match goal with |- context [fold_left _ _ ?c'] =>
      destruct (IH c') as (Hkeys & Hev & Hmax) end.
    + unfold keys. simpl. rewrite map_app. simpl.
      rewrite <- app_assoc. simpl.
      apply NoDup_Add with (a := k) (l := keys c ++ List.map key_of xs);
        [apply Add_app|].
      split; [apply NoDup_remove_1 in Hnd; exact Hnd
             | apply NoDup_remove_2 in Hnd; exact Hnd].
    + simpl. rewrite length_app. simpl. lia.
    + rewrite Hkeys, Hev, Hmax. unfold keys. simpl.
      rewrite map_app. simpl. rewrite <- app_assoc. repeat split.
Qed.
End CacheOrder.

Section CacheAccesses.
Import Cache.
Context {V : Type}.
Implicit Types (c : Cache V) (es : list (CacheEntry V)) (e : CacheEntry V).

Lemma last_access_snoc (k k' : string) (t : Z) (l : list (string * Z)) :
  last_access k (l ++ [(k', t)]) =
    if String.eqb k k' then Some t else last_access k l.
Proof.
  unfold last_access at 1. rewrite fold_left_app. simpl.
  fold (last_access k l). reflexivity.
Qed.

Lemma accesses_snoc (ops : list (Op V)) (o : Op V) c :
  accesses (ops ++ [o]) c = accesses ops c ++ touch o (run ops c).
Proof.
  revert c. induction ops as [|x ops IH]; intros c; simpl.
  - rewrite app_nil_r. reflexivity.
  - rewrite IH, app_assoc. reflexivity.
Qed.

Lemma remove_key_in es k e :
  In e (remove_key k es) -> In e es /\ String.eqb (key e) k = false.
Proof.
  unfold remove_key. intros H. apply filter_In in H as [Hin Hk].
  split; [exact Hin|]. unfold has_key in Hk.
  apply negb_true_iff in Hk. rewrite String.eqb_sym. exact Hk.
Qed.

Lemma lookup_none_in es k e :
  lookup_entry k es = None -> In e es -> String.eqb (key e) k = false.
Proof.
  unfold lookup_entry. intros Hn Hin.
  pose proof (find_none _ _ Hn e Hin) as H. unfold has_key in H.
  rewrite String.eqb_sym. exact H.
Qed.

(** The last-access time an entry carries is the time of the last access
    of its key. *)
Lemma step_last_access (o : Op V) c (acc : list (string * Z)) :
  (forall e, In e (entries c) ->
     last_access (key e) acc = Some (lastAccess e)) ->
  forall e, In e (entries (step o c)) ->
    last_access (key e) (acc ++ touch o c) = Some (lastAccess e).
Proof.
  intros IH e. destruct o as [k now | k v ttl now]; simpl.
  - unfold get.
    destruct (lookup_entry k (entries c)) as [e0|] eqn:Hk; simpl.
    + destruct (expiresAt e0 <=? now)%Z; simpl.
      * rewrite app_nil_r. intros Hin.
        apply remove_key_in in Hin as [Hin _]. exact (IH e Hin).
      * intros Hin. rewrite last_access_snoc.
        apply in_app_or in Hin as [Hin|[<-|[]]].
        -- apply remove_key_in in Hin as [Hin Hne]. rewrite Hne.
           exact (IH e Hin).
        -- simpl. rewrite String.eqb_refl. reflexivity.
    + rewrite app_nil_r. exact (IH e).
  - unfold put. rewrite last_access_snoc.
    destruct (lookup_entry k (entries c)) as [e0|] eqn:Hk; simpl.
    + intros Hin. apply in_app_or in Hin as [Hin|[<-|[]]].
      * apply remove_key_in in Hin as [Hin Hne]. rewrite Hne.
        exact (IH e Hin).
      * simpl. rewrite String.eqb_refl. reflexivity.
    + destruct (maxSize c =? 0)%nat;
        [|destruct (maxSize c <=? length (entries c))%nat]; simpl.
      * intros Hin. rewrite (lookup_none_in _ _ _ Hk Hin). exact (IH e Hin).
      * intros Hin. apply in_app_or in Hin as [Hin|[<-|[]]].
        -- assert (Hin' : In e (entries c))
             by (destruct (entries c); [destruct Hin | right; exact Hin]).
           rewrite (lookup_none_in _ _ _ Hk Hin'). exact (IH e Hin').
        -- simpl. rewrite String.eqb_refl. reflexivity.
      * intros Hin. apply in_app_or in Hin as [Hin|[<-|[]]].
        -- rewrite (lookup_none_in _ _ _ Hk Hin). exact (IH e Hin).
        -- simpl. rewrite String.eqb_refl. reflexivity.
Qed.

Lemma run_last_access (ops : list (Op V)) (n : nat) e :
  In e (entries (run ops (empty n))) ->
  last_access (key e) (accesses ops (empty n)) = Some (lastAccess e).
Proof.
  revert e. induction ops as [|o ops IH] using rev_ind; intros e.
  - intros [].
  - unfold run. rewrite fold_left_app. simpl. fold (run ops (empty (V := V) n)).
    rewrite accesses_snoc. apply step_last_access. exact IH.
Qed.
End CacheAccesses.

(** C6: the cache never holds more than its maximum entry count, whatever
    sequence of operations is run on it, and what it evicts is the least
    recently accessed entry.  The last-access time of every entry is the
    time of the last access of its key, an access being a put or a get
    that hits.  In a cache of positive capacity reached by operations in
    chronological order, inserting a new key at capacity evicts exactly
    one entry and keeps all others, and the key of the evicted entry was
    last accessed no later than the key of any entry that is kept.
    Inserting [maxSize + 1] distinct keys therefore evicts exactly one
    entry, the first key inserted, which is the least recently accessed
    one. *)
Theorem cache_bounded_lru {V : Type} (n : nat) :
  (forall ops : list (Cache.Op V),
     (length (Cache.entries (Cache.run ops (Cache.empty n))) <= n)%nat
     /\ Cache.maxSize (Cache.run ops (Cache.empty n)) = n)
  /\ (forall (ops : list (Cache.Op V)) e,
        In e (Cache.entries (Cache.run ops (Cache.empty n))) ->
        Cache.last_access (Cache.key e) (Cache.accesses ops (Cache.empty n))
          = Some (Cache.lastAccess e))
  /\ (forall (ops : list (Cache.Op V)) t0 k v ttl now,
        let c := Cache.run ops (Cache.empty n) in
        let acc := Cache.accesses ops (Cache.empty n) in
        (0 < n)%nat ->
        Cache.chronological t0 ops ->
        length (Cache.entries c) = n ->
        ~ In k (Cache.keys c) ->
        exists lru rest tl,
          Cache.entries c = lru :: rest
          /\ Cache.entries (Cache.put k v ttl now c) =
               rest ++ [ {| Cache.key := k; Cache.value := v;
                            Cache.insertedAt := now; Cache.lastAccess := now;
                            Cache.expiresAt := (now + ttl)%Z |} ]
          /\ Cache.last_access (Cache.key lru) acc = Some tl
          /\ (forall x, In x rest ->
                exists tx, Cache.last_access (Cache.key x) acc = Some tx
                           /\ (tl <= tx)%Z)
          /\ Forall (fun x => (Cache.lastAccess lru <= Cache.lastAccess x)%Z)
               (Cache.entries c)
          /\ Cache.evictions (Cache.put k v ttl now c)
               = S (Cache.evictions c)
          /\ length (Cache.entries (Cache.put k v ttl now c)) = n)
  /\ (forall (xs : list (string * V * Z * Z)) x,
        (0 < n)%nat ->
        length xs = n ->
        List.NoDup (List.map Cache.key_of (xs ++ [x])) ->
        let c := Cache.run (List.map Cache.put_of (xs ++ [x])) (Cache.empty n) in
        Cache.keys c = tail (List.map Cache.key_of xs) ++ [Cache.key_of x]
        /\ Cache.evictions c = 1%nat
        /\ length (Cache.entries c) = n
        /\ (forall k0, head (List.map Cache.key_of xs) = Some k0 ->
              ~ In k0 (Cache.keys c))).
Proof.
  split; [|split; [|split]].
  - intros ops.
    destruct (run_size ops (Cache.empty (V := V) n)) as [Hm Hl];
      simpl; try lia.
    simpl in *. split; assumption.
  - intros ops e Hin. exact (run_last_access ops n e Hin).
  - intros ops t0 k v ttl now c acc Hpos Hch Hlen Hk.
    assert (Hmax : Cache.maxSize c = n).
    { destruct (run_size ops (Cache.empty (V := V) n)) as [Hm _];
        simpl; try lia. exact Hm. }
    destruct (run_ordered ops t0 (Cache.empty n) Hch (ordered_nil t0))
      as [t Hord]. fold c in Hord.
    destruct (put_at_capacity k v ttl now c) as (lru & rest & He & Hp & Hev & Hl);
      [lia | lia | exact Hk |].
    assert (Hleast : Forall (fun x => (Cache.lastAccess lru
                                       <= Cache.lastAccess x)%Z)
                       (Cache.entries c))
      by (rewrite He in *; exact (head_least_recent t lru rest Hord)).
    exists lru, rest, (Cache.lastAccess lru).
    split; [exact He|]. split; [exact Hp|].
    split; [apply run_last_access; fold c; rewrite He; left; reflexivity|].
    split.
    { intros x Hx. exists (Cache.lastAccess x).
      split; [apply run_last_access; fold c; rewrite He; right; exact Hx|].
      rewrite List.Forall_forall in Hleast. apply Hleast.
      rewrite He. right. exact Hx. }
    split; [exact Hleast|].
    split; [exact Hev | lia].
  - intros xs x Hpos Hlen Hnd c.
    destruct x as [[[k v] ttl] now].
    rewrite map_app in Hnd. simpl in Hnd.
    destruct (run_puts_below xs (Cache.empty n)) as (Hkeys & Hev & Hmax);
      [simpl; apply NoDup_remove_1 in Hnd; rewrite app_nil_r in Hnd; exact Hnd
      | simpl; lia |].
    simpl in Hkeys, Hev, Hmax.
    set (c1 := Cache.run (List.map Cache.put_of xs) (Cache.empty n)) in *.
    assert (Hc : c = Cache.put k v ttl now c1).
    { unfold c, c1, Cache.run. rewrite map_app, fold_left_app. reflexivity. }
    assert (Hlen1 : length (Cache.entries c1) = n).
    { transitivity (length (Cache.keys c1));
        [unfold Cache.keys; rewrite length_map; reflexivity|].
      rewrite Hkeys, length_map. exact Hlen. }
    assert (Hk : ~ In k (Cache.keys c1)).
    { rewrite Hkeys. apply NoDup_remove_2 in Hnd.
      rewrite app_nil_r in Hnd. exact Hnd. }
    destruct (put_at_capacity k v ttl now c1) as (lru & rest & He & Hp & Hev1 & Hl);
      [lia | lia | exact Hk |].
    assert (Hkc : Cache.keys c
                  = tail (List.map Cache.key_of xs) ++ [k]).
    { rewrite Hc. unfold Cache.keys at 1. rewrite Hp, map_app. simpl.
      rewrite <- Hkeys. unfold Cache.keys. rewrite He. reflexivity. }
    split; [exact Hkc|].
    split; [rewrite Hc, Hev1, Hev; reflexivity|].
    split; [rewrite Hc, Hl; exact Hmax|].
    intros k0 Hk0. rewrite Hkc.
    destruct (List.map Cache.key_of xs) as [|k1 ks] eqn:Hxs;
      [discriminate|].
    simpl in Hk0. injection Hk0 as ->. simpl.
    simpl in Hnd. inversion Hnd as [|? ? Hnot _]; subst. exact Hnot.
Qed.

Lemma cache_bounded_lru_witness :
  Cache.keys
    (Cache.run (List.map Cache.put_of (Samples.two_puts ++ [Samples.third_put]))
       (Cache.empty 2))
    = [ "rule:normal_none"; "menu:egg" ]
  /\ Cache.evictions
       (Cache.run (List.map Cache.put_of (Samples.two_puts ++ [Samples.third_put]))
          (Cache.empty 2)) = 1%nat.
Proof.
  assert (Hpos : (0 < 2)%nat) by lia.
  destruct (cache_bounded_lru (V := nat) 2) as (_ & _ & _ & Hrun).
  destruct (Hrun Samples.two_puts Samples.third_put Hpos eq_refl)
    as (Hk & He & _).
  - simpl. repeat constructor; simpl; intuition discriminate.
  - split; [exact Hk | exact He].
Defined.

Example cache_access_protects_entry :
  Cache.keys
    (Cache.run [ Cache.Put "a" 1%nat 300 10; Cache.Put "b" 2%nat 300 20;
                 Cache.Get "a" 30; Cache.Put "c" 3%nat 300 40 ]%Z
       (Cache.empty 2))
    = [ "a"; "c" ].
Proof. reflexivity. Qed.

Example cache_reput_protects_entry :
  Cache.keys
    (Cache.run [ Cache.Put "a" 1%nat 300 10; Cache.Put "b" 2%nat 300 20;
                 Cache.Put "a" 4%nat 300 30; Cache.Put "c" 3%nat 300 40 ]%Z
       (Cache.empty 2))
    = [ "a"; "c" ].
Proof. reflexivity. Qed.

Example cache_of_capacity_zero_holds_nothing :
  Cache.keys
    (Cache.run [ Cache.Put "a" 1%nat 300 10; Cache.Get "a" 20 ]%Z
       (Cache.empty 0))
    = [].
Proof. reflexivity. Qed.

Example cache_expired_entry_is_a_miss :
  snd (Cache.get "a" 400
         (Cache.run [ Cache.Put "a" 1%nat 300 10 ]%Z (Cache.empty 2))) = None.
Proof. reflexivity. Qed.

(** * Further properties of the client *)

(** ** The user data of the context *)

Lemma update_lookup (data prev : gmap string JsVal) (k : string) :
  UserContext.updateUserData data prev !! k =
    match data !! k with
    | Some v => Some v
    | None => prev !! k
    end.
Proof.
  unfold UserContext.updateUserData, spread. rewrite lookup_union.
  destruct (data !! k), (prev !! k); reflexivity.
Qed.

Lemma update_field (data prev : gmap string JsVal) (k : string) :
  field k (UserContext.updateUserData data prev) =
    match data !! k with
    | Some v => v
    | None => field k prev
    end.
Proof.
  unfold field. rewrite update_lookup. destruct (data !! k); reflexivity.
Qed.

(** X1: answers accumulate in the user context.  After an update a key
    holds the new value when the update has it and its previous value
    otherwise; two updates in a row amount to one update with the merged
    data; no update removes a key; a reset leaves nothing. *)
Theorem user_context_accumulates
    (prev a b : gmap string JsVal) (k : string) :
  UserContext.updateUserData a prev !! k =
    match a !! k with
    | Some v => Some v
    | None => prev !! k
    end
  /\ UserContext.updateUserData b (UserContext.updateUserData a prev)
     = UserContext.updateUserData (UserContext.updateUserData b a) prev
  /\ dom prev ⊆ dom (UserContext.updateUserData a prev)
  /\ UserContext.resetUserData (UserContext.updateUserData a prev) !! k = None.
Proof.
  split; [apply update_lookup|]. split; [|split].
  - unfold UserContext.updateUserData, spread. apply (assoc_L (∪)).
  - unfold UserContext.updateUserData, spread. rewrite dom_union_L.
    set_solver.
  - apply lookup_empty.
Qed.

(** ** The question components *)

Lemma lt_false (a : Q) (b : Z) :
  Questions.lt (Questions.Fin a) b = false -> (inject_Z b <= a)%Q.
Proof.
  unfold Questions.lt. intros H. apply negb_false_iff in H.
  apply Qle_bool_iff. exact H.
Qed.

Lemma gt_false (a : Q) (b : Z) :
  Questions.gt (Questions.Fin a) b = false -> (a <= inject_Z b)%Q.
Proof.
  unfold Questions.gt. intros H. apply negb_false_iff in H.
  apply Qle_bool_iff. exact H.
Qed.

Lemma lt_gt_in_range (a : Q) (lo hi : Z) :
  (inject_Z lo <= a)%Q -> (a <= inject_Z hi)%Q ->
  Questions.lt (Questions.Fin a) lo || Questions.gt (Questions.Fin a) hi = false.
Proof.
  intros Hlo Hhi. unfold Questions.lt, Questions.gt.
  apply Qle_bool_iff in Hlo. apply Qle_bool_iff in Hhi.
  rewrite Hlo, Hhi. reflexivity.
Qed.

Lemma truthy_str (s : string) : truthy (JStr s) = true <-> s <> "".
Proof.
  simpl. destruct (String.eqb_spec s ""); simpl; split; congruence.
Qed.

Lemma within_iff (a : Questions.Converted) (lo hi : Z) :
  Questions.below a lo || Questions.above a hi = false
  <-> Questions.within a lo hi.
Proof.
  destruct a as [q| |[|]]; simpl; try tauto; try (split; [discriminate|tauto]).
  rewrite orb_false_iff, !negb_false_iff, !Qle_bool_iff. tauto.
Qed.

Lemma AgeQuestion_answered (toNumber : string -> Questions.Converted)
    (age gender : string) (data : gmap string JsVal) :
  Questions.AgeQuestion toNumber age gender = Questions.Answered data ->
  age <> "" /\ Questions.within (toNumber age) 1 120
  /\ truthy (JStr gender) = true
  /\ data = <["age" := JStr age]> (<["gender" := JStr gender]> ∅).
Proof.
  unfold Questions.AgeQuestion. intros H.
  destruct (negb (truthy (JStr age)) || negb (truthy (JStr gender)))
    eqn:Hset; [discriminate|].
  destruct (Questions.below (toNumber age) 1
            || Questions.above (toNumber age) 120) eqn:Hrange;
    [discriminate|].
  apply orb_false_iff in Hset as [Ha Hg].
  apply negb_false_iff in Ha, Hg.
  split; [apply truthy_str; exact Ha|].
  split; [apply within_iff; exact Hrange|].
  split; [exact Hg|]. injection H as <-. reflexivity.
Qed.

Lemma BodyMetricsQuestion_answered (height weight : Questions.Number)
    (data : gmap string JsVal) :
  Questions.BodyMetricsQuestion height weight = Questions.Answered data ->
  exists h w, height = Questions.Fin h /\ weight = Questions.Fin w
    /\ (100 <= h)%Q /\ (h <= 250)%Q /\ (20 <= w)%Q /\ (w <= 300)%Q
    /\ data = <["height_cm" := JNum h]> (<["weight_kg" := JNum w]> ∅).
Proof.
  unfold Questions.BodyMetricsQuestion. intros H.
  destruct (negb (truthy (Questions.number_val height))
            || negb (truthy (Questions.number_val weight))) eqn:Hset;
    [discriminate|].
  destruct (Questions.lt height 100 || Questions.gt height 250) eqn:Hh;
    [discriminate|].
  destruct (Questions.lt weight 20 || Questions.gt weight 300) eqn:Hw;
    [discriminate|].
  apply orb_false_iff in Hset as [Ha Hb].
  apply orb_false_iff in Hh as [Hh1 Hh2].
  apply orb_false_iff in Hw as [Hw1 Hw2].
  destruct height as [h|]; [|discriminate].
  destruct weight as [w|]; [|discriminate].
  exists h, w. repeat split;
    try exact (lt_false _ _ Hh1); try exact (gt_false _ _ Hh2);
    try exact (lt_false _ _ Hw1); try exact (gt_false _ _ Hw2).
  injection H as <-. reflexivity.
Qed.

Lemma in_range_truthy (q : Q) (lo : Z) :
  (inject_Z lo <= q)%Q -> (0 < lo)%Z -> truthy (JNum q) = true.
Proof.
  intros Hle Hpos. simpl. apply negb_true_iff.
  destruct (Qeq_bool q 0) eqn:E; [|reflexivity].
  apply Qeq_bool_iff in E. rewrite E in Hle. exfalso.
  revert Hle. apply Qlt_not_le.
  change 0%Q with (inject_Z 0). rewrite <- Zlt_Qlt. exact Hpos.
Qed.

Lemma AgeQuestion_accepts (toNumber : string -> Questions.Converted)
    (age gender : string) :
  age <> "" -> gender <> "" -> Questions.within (toNumber age) 1 120 ->
  Questions.AgeQuestion toNumber age gender =
    Questions.Answered (<["age" := JStr age]> (<["gender" := JStr gender]> ∅)).
Proof.
  intros Ha Hg Hw. unfold Questions.AgeQuestion.
  apply truthy_str in Ha, Hg. apply within_iff in Hw.
  rewrite Ha, Hg, Hw. reflexivity.
Qed.

Lemma AgeQuestion_out_of_range (toNumber : string -> Questions.Converted)
    (age gender : string) (q : Q) :
  age <> "" -> gender <> "" -> toNumber age = Questions.Finite q ->
  (q < 1 \/ 120 < q)%Q ->
  Questions.AgeQuestion toNumber age gender =
    Questions.Refused "Age must be between 1 and 120".
Proof.
  intros Ha Hg Hq Hout. unfold Questions.AgeQuestion.
  apply truthy_str in Ha, Hg. rewrite Ha, Hg, Hq. cbn [negb orb].
  assert (E : Questions.below (Questions.Finite q) 1
              || Questions.above (Questions.Finite q) 120 = true).
  { destruct (Questions.below (Questions.Finite q) 1
              || Questions.above (Questions.Finite q) 120) eqn:E;
      [reflexivity|].
    apply within_iff in E. destruct E as [E1 E2]. exfalso.
    destruct Hout as [H|H]; revert H; apply Qle_not_lt; assumption. }
  rewrite E. reflexivity.
Qed.

Lemma BodyMetricsQuestion_accepts (h w : Q) :
  (100 <= h)%Q -> (h <= 250)%Q -> (20 <= w)%Q -> (w <= 300)%Q ->
  Questions.BodyMetricsQuestion (Questions.Fin h) (Questions.Fin w) =
    Questions.Answered
      (<["height_cm" := JNum h]> (<["weight_kg" := JNum w]> ∅)).
Proof.
  intros H1 H2 H3 H4. unfold Questions.BodyMetricsQuestion.
  assert (E : negb (truthy (Questions.number_val (Questions.Fin h)))
              || negb (truthy (Questions.number_val (Questions.Fin w)))
              = false).
  { change (Questions.number_val (Questions.Fin h)) with (JNum h).
    change (Questions.number_val (Questions.Fin w)) with (JNum w).
    rewrite (in_range_truthy h 100 H1 ltac:(lia)),
            (in_range_truthy w 20 H3 ltac:(lia)). reflexivity. }
  rewrite E, (lt_gt_in_range h 100 250 H1 H2),
          (lt_gt_in_range w 20 300 H3 H4). reflexivity.
Qed.

(** X2: what the two numeric questions pass on.  The age question
    receives the text of its input: it answers if and only if the text is
    not empty, a gender is chosen and the text converts to a number from 1
    to 120 or to NaN (with which both comparisons are false); a text that
    converts to a number outside 1..120, such as the text 0, is refused
    with 'Age must be between 1 and 120'; and what is passed on is the
    text itself, not a number.  The body-metrics question answers if and
    only if the height is a number from 100 to 250 and the weight a number
    from 20 to 300, and passes both on unchanged. *)
Theorem numeric_questions_bounds
    (toNumber : string -> Questions.Converted)
    (age gender : string) (height weight : Questions.Number) :
  ((exists data,
      Questions.AgeQuestion toNumber age gender = Questions.Answered data)
   <-> age <> "" /\ gender <> "" /\ Questions.within (toNumber age) 1 120)
  /\ (forall data,
        Questions.AgeQuestion toNumber age gender = Questions.Answered data ->
        data = <["age" := JStr age]> (<["gender" := JStr gender]> ∅))
  /\ (forall q,
        age <> "" -> gender <> "" -> toNumber age = Questions.Finite q ->
        (q < 1 \/ 120 < q)%Q ->
        Questions.AgeQuestion toNumber age gender =
          Questions.Refused "Age must be between 1 and 120")
  /\ ((exists data,
         Questions.BodyMetricsQuestion height weight = Questions.Answered data)
      <-> exists h w, height = Questions.Fin h /\ weight = Questions.Fin w
            /\ (100 <= h)%Q /\ (h <= 250)%Q /\ (20 <= w)%Q /\ (w <= 300)%Q)
  /\ (forall data,
        Questions.BodyMetricsQuestion height weight = Questions.Answered data ->
        data = <["height_cm" := Questions.number_val height]>
                 (<["weight_kg" := Questions.number_val weight]> ∅)).
Proof.
  split; [|split; [|split; [|split]]].
  - split.
    + intros [data H].
      destruct (AgeQuestion_answered _ _ _ _ H) as (Ha & Hw & Hg & _).
      split; [exact Ha|]. split; [apply truthy_str; exact Hg | exact Hw].
    + intros (Ha & Hg & Hw).
      eexists. exact (AgeQuestion_accepts toNumber age gender Ha Hg Hw).
  - intros data H.
    destruct (AgeQuestion_answered _ _ _ _ H) as (_ & _ & _ & ->).
    reflexivity.
  - intros q Ha Hg Hq Hout.
    exact (AgeQuestion_out_of_range toNumber age gender q Ha Hg Hq Hout).
  - split.
    + intros [data H].
      destruct (BodyMetricsQuestion_answered _ _ _ H)
        as (h & w & -> & -> & H1 & H2 & H3 & H4 & _).
      exists h, w. repeat split; assumption.
    + intros (h & w & -> & -> & H1 & H2 & H3 & H4).
      eexists. exact (BodyMetricsQuestion_accepts h w H1 H2 H3 H4).
  - intros data H.
    destruct (BodyMetricsQuestion_answered _ _ _ H)
      as (h & w & -> & -> & _ & _ & _ & _ & ->).
    reflexivity.
Qed.

Lemma numeric_questions_bounds_witness :
  Questions.AgeQuestion MoreSamples.decimal "0" "female"
  = Questions.Refused "Age must be between 1 and 120".
Proof.
  destruct (numeric_questions_bounds MoreSamples.decimal "0" "female"
              (Questions.Fin (inject_Z 170)) (Questions.Fin (inject_Z 65)))
    as (_ & _ & H & _).
  apply (H (inject_Z 0)); try discriminate; [reflexivity|].
  left. reflexivity.
Defined.

Example age_text_is_passed_on :
  Questions.AgeQuestion MoreSamples.decimal "25" "male"
  = Questions.Answered (<["age" := JStr "25"]> (<["gender" := JStr "male"]> ∅)).
Proof. reflexivity. Qed.

(** ** The registered questionnaire, end to end *)

Lemma selection_answered (k : string) (selected : string)
    (text : string) (data : gmap string JsVal) :
  (if negb (truthy (JStr selected)) then Questions.Refused text
   else Questions.Answered (<[k := JStr selected]> ∅))
    = Questions.Answered data ->
  truthy (JStr selected) = true /\ data = <[k := JStr selected]> ∅.
Proof.
  destruct (truthy (JStr selected)); simpl; intros H; [|discriminate].
  injection H as <-. split; reflexivity.
Qed.

Lemma FitnessGoalQuestion_answered (goal spice : string)
    (data : gmap string JsVal) :
  Questions.FitnessGoalQuestion goal spice = Questions.Answered data ->
  truthy (JStr goal) = true /\ truthy (JStr spice) = true
  /\ data = <["health_goal" := JStr goal]>
              (<["spice_tolerance" := JStr spice]> ∅).
Proof.
  unfold Questions.FitnessGoalQuestion.
  destruct (truthy (JStr goal)), (truthy (JStr spice)); simpl; intros H;
    try discriminate.
  injection H as <-. repeat split.
Qed.

(** The answer of one step, merged into the user data, leaves the answers
    of the other steps and the identification as they were and adds its
    own. *)
Lemma answer_kept
    (toNumber : string -> Questions.Converted)
    (step k : nat) (i : Questions.Input)
    (data ud : gmap string JsVal) :
  Questionnaire.renderQuestion toNumber step i
    = Some (Questions.Answered data) ->
  (k = step \/ Collected.answered toNumber k ud) ->
  Collected.answered toNumber k (UserContext.updateUserData data ud).
Proof.
  intros Hr Hk.
  destruct step as [|[|[|[|[|[|[|step]]]]]]]; destruct i; simpl in Hr;
    try discriminate; injection Hr as Hr.
  - (* age *)
    destruct (AgeQuestion_answered _ _ _ _ Hr) as (Ha & Hw & Hg & ->).
    destruct k as [|[|[|[|[|[|[|k]]]]]]]; simpl; trivial;
      destruct Hk as [Hk|Hk]; try discriminate; simpl in Hk;
      rewrite ?update_lookup, ?update_field; map_lookups; try exact Hk.
    all: split; [eexists; repeat split; eassumption | exact Hg].
  - (* body metrics *)
    destruct (BodyMetricsQuestion_answered _ _ _ Hr)
      as (h & w & _ & _ & H1 & H2 & H3 & H4 & ->).
    destruct k as [|[|[|[|[|[|[|k]]]]]]]; simpl; trivial;
      destruct Hk as [Hk|Hk]; try discriminate; simpl in Hk;
      rewrite ?update_lookup, ?update_field; map_lookups; try exact Hk.
    all: exists h, w; rewrite ?update_lookup; map_lookups;
      repeat split; assumption.
  - (* diet *)
    destruct (selection_answered _ _ _ _ Hr) as [Hs ->].
    destruct k as [|[|[|[|[|[|[|k]]]]]]]; simpl; trivial;
      destruct Hk as [Hk|Hk]; try discriminate; simpl in Hk;
      rewrite ?update_lookup, ?update_field; map_lookups;
      solve [exact Hk | exact Hs].
  - (* medical condition *)
    destruct (selection_answered _ _ _ _ Hr) as [Hs ->].
    destruct k as [|[|[|[|[|[|[|k]]]]]]]; simpl; trivial;
      destruct Hk as [Hk|Hk]; try discriminate; simpl in Hk;
      rewrite ?update_lookup, ?update_field; map_lookups;
      solve [exact Hk | exact Hs].
  - (* health metrics *)
    subst data.
    destruct k as [|[|[|[|[|[|[|k]]]]]]]; simpl; trivial;
      destruct Hk as [Hk|Hk]; try discriminate; simpl in Hk;
      rewrite ?update_lookup, ?update_field; map_lookups; exact Hk.
  - (* fitness goal *)
    destruct (FitnessGoalQuestion_answered _ _ _ Hr) as (Hg & Hs & ->).
    destruct k as [|[|[|[|[|[|[|k]]]]]]]; simpl; trivial;
      destruct Hk as [Hk|Hk]; try discriminate; simpl in Hk;
      rewrite ?update_lookup, ?update_field; map_lookups;
      solve [exact Hk | split; assumption].
Qed.

Lemma answer_keeps_identity
    (toNumber : string -> Questions.Converted)
    (step : nat) (i : Questions.Input)
    (data ud : gmap string JsVal) :
  Questionnaire.renderQuestion toNumber step i
    = Some (Questions.Answered data) ->
  data !! "name" = None /\ data !! "phone_number" = None.
Proof.
  intros Hr.
  destruct step as [|[|[|[|[|[|[|step]]]]]]]; destruct i; simpl in Hr;
    try discriminate; injection Hr as Hr.
  - destruct (AgeQuestion_answered _ _ _ _ Hr) as (_ & _ & _ & ->).
    split; reflexivity.
  - destruct (BodyMetricsQuestion_answered _ _ _ Hr)
      as (h & w & _ & _ & _ & _ & _ & _ & ->).
    split; reflexivity.
  - destruct (selection_answered _ _ _ _ Hr) as [_ ->]. split; reflexivity.
  - destruct (selection_answered _ _ _ _ Hr) as [_ ->]. split; reflexivity.
  - subst data. split; reflexivity.
  - destruct (FitnessGoalQuestion_answered _ _ _ Hr) as (_ & _ & ->).
    split; reflexivity.
Qed.

Lemma rendered_step
    (toNumber : string -> Questions.Converted)
    (step : nat) (i : Questions.Input)
    (s : Questions.Submitted) :
  Questionnaire.renderQuestion toNumber step i = Some s -> (1 <= step <= 6)%nat.
Proof.
  destruct step as [|[|[|[|[|[|[|step]]]]]]]; destruct i; simpl;
    intros H; try discriminate; lia.
Qed.

Lemma react_invariant
    (toNumber : string -> Questions.Converted)
    (st : Questionnaire.State) (e : Questionnaire.Event) :
  Collected.invariant toNumber st ->
  Collected.invariant toNumber (Questionnaire.react toNumber st e).
Proof.
  intros Hinv. pose proof Hinv as (Hid & Hstep & Hans & Hproc).
  unfold Questionnaire.react.
  destruct (String.eqb_spec (Questionnaire.location st) "/questions")
    as [Hloc|Hloc]; simpl; [|exact Hinv].
  destruct e as [i|].
  - destruct (Questionnaire.renderQuestion toNumber
                (Questionnaire.currentStep st) i)
      as [[text|data]|] eqn:Hr; try exact Hinv.
    destruct (answer_keeps_identity _ _ _ _ (Questionnaire.userData st) Hr)
      as [Hn Hp].
    assert (Hid' : Collected.identified
                     (UserContext.updateUserData data (Questionnaire.userData st))).
    { destruct Hid as [H1 H2]. unfold Collected.identified.
      rewrite !update_field, Hn, Hp. split; assumption. }
    assert (Hans' : forall k, (k <= Questionnaire.currentStep st)%nat ->
              Collected.answered toNumber k
                (UserContext.updateUserData data (Questionnaire.userData st))).
    { intros k Hk. apply (answer_kept _ _ k _ _ _ Hr).
      destruct (Nat.eq_dec k (Questionnaire.currentStep st)) as [->|Hne];
        [left; reflexivity | right; apply Hans; lia]. }
    unfold Questionnaire.handleNext, Questionnaire.TOTAL_STEPS.
    destruct (Nat.ltb_spec (Questionnaire.currentStep st) 6);
      unfold Collected.invariant; simpl.
    + split; [exact Hid'|]. split; [lia|]. split.
      * intros k Hk. apply Hans'. lia.
      * rewrite Hloc. discriminate.
    + split; [exact Hid'|]. split; [lia|].
      assert (Hall : forall k, Collected.answered toNumber k
                (UserContext.updateUserData data (Questionnaire.userData st))).
      { intros k. destruct (Nat.le_gt_cases k 6) as [Hk|Hk].
        - apply Hans'. lia.
        - destruct k as [|[|[|[|[|[|[|k]]]]]]]; try lia. exact I. }
      split; intros; apply Hall.
  - unfold Questionnaire.handleBack.
    destruct (Nat.ltb_spec 1 (Questionnaire.currentStep st));
      unfold Collected.invariant; simpl.
    + split; [exact Hid|]. split; [lia|]. split.
      * intros k Hk. apply Hans. lia.
      * rewrite Hloc. discriminate.
    + split; [exact Hid|]. split; [lia|]. split; [exact Hans|].
      discriminate.
Qed.

Lemma run_invariant
    (toNumber : string -> Questions.Converted)
    (events : list Questionnaire.Event)
    (st : Questionnaire.State) :
  Collected.invariant toNumber st ->
  Collected.invariant toNumber (Questionnaire.run toNumber events st).
Proof.
  revert st. induction events as [|e events IH]; intros st H; simpl;
    [exact H|].
  apply IH. apply react_invariant. exact H.
Qed.

Lemma initial_invariant
    (toNumber : string -> Questions.Converted) (ud : gmap string JsVal) :
  Collected.identified ud ->
  Collected.invariant toNumber (Questionnaire.initial ud).
Proof.
  intros Hid. split; [exact Hid|]. simpl. split; [lia|]. split.
  - intros k Hk. assert (k = 0)%nat as -> by lia. exact I.
  - discriminate.
Qed.

Lemma collected_complete
    (toNumber : string -> Questions.Converted) (ud : gmap string JsVal) :
  Collected.identified ud ->
  (forall k, Collected.answered toNumber k ud) ->
  Processing.missingFields ud = [].
Proof.
  intros [Hn Hp] Hall.
  destruct (Hall 1%nat) as [(q & Hage & Hq1 & _) Hgender].
  destruct (Hall 2%nat) as (h & w & Hh & Hh1 & _ & Hw & Hw1 & _).
  pose proof (Hall 3%nat) as Hd. pose proof (Hall 4%nat) as Hm.
  destruct (Hall 6%nat) as [Hg Hs]. simpl in Hd, Hm.
  assert (Ha : truthy (field "age" ud) = true).
  { unfold field. rewrite Hage. apply truthy_str. exact Hq1. }
  assert (Hht : truthy (field "height_cm" ud) = true).
  { unfold field. rewrite Hh. exact (in_range_truthy h 100 Hh1 ltac:(lia)). }
  assert (Hwt : truthy (field "weight_kg" ud) = true).
  { unfold field. rewrite Hw. exact (in_range_truthy w 20 Hw1 ltac:(lia)). }
  unfold Processing.missingFields, Processing.requiredFields. simpl.
  rewrite Hn, Hp, Ha, Hht, Hwt, Hd, Hm, Hg, Hs. reflexivity.
Qed.

(** X3: a user who gets from the questionnaire to the processing screen
    always passes its required-field guard.  Starting at step 1 with the
    name and phone number of the entry screen, whatever the user submits
    and however often they go back, once the questionnaire navigates to
    /processing the user data holds all nine required fields: the age as
    the text that was entered, not empty and converting to a number from 1
    to 120 or to NaN, the height a number from 100 to 250 and the weight a
    number from 20 to 300; so the processing screen makes its API call
    with exactly that data. *)
Theorem questionnaire_completes_profile
    (toNumber : string -> Questions.Converted)
    (userData : gmap string JsVal) (events : list Questionnaire.Event)
    (net : RawOutcome) :
  truthy (field "name" userData) = true ->
  truthy (field "phone_number" userData) = true ->
  let st :=
    Questionnaire.run toNumber events (Questionnaire.initial userData) in
  Questionnaire.location st = "/processing" ->
  Processing.missingFields (Questionnaire.userData st) = []
  /\ (exists age h w,
        Questionnaire.userData st !! "age" = Some (JStr age)
        /\ Questionnaire.userData st !! "height_cm" = Some (JNum h)
        /\ Questionnaire.userData st !! "weight_kg" = Some (JNum w)
        /\ age <> "" /\ Questions.within (toNumber age) 1 120
        /\ (100 <= h)%Q /\ (h <= 250)%Q
        /\ (20 <= w)%Q /\ (w <= 300)%Q)
  /\ head (Processing.fetchSuggestion (Questionnaire.userData st) net)
     = Some (ApiPost "/user/suggest-item" (JObj (Questionnaire.userData st))).
Proof.
  intros Hn Hp st Hloc.
  assert (Hinv : Collected.invariant toNumber st)
    by (apply run_invariant, initial_invariant; split; assumption).
  destruct Hinv as (Hid & _ & _ & Hproc).
  pose proof (Hproc Hloc) as Hall.
  pose proof (collected_complete _ _ Hid Hall) as Hcomplete.
  split; [exact Hcomplete|]. split.
  - destruct (Hall 1%nat) as [(age & Hage & Ha & Hw) _].
    destruct (Hall 2%nat) as (h & w & Hh & Hh1 & Hh2 & Hwt & Hw1 & Hw2).
    exists age, h, w. repeat split; assumption.
  - unfold Processing.fetchSuggestion. rewrite Hcomplete. reflexivity.
Qed.

Lemma questionnaire_completes_profile_witness :
  Processing.missingFields
    (Questionnaire.userData
       (Questionnaire.run MoreSamples.decimal MoreSamples.six_answers
          (Questionnaire.initial MoreSamples.entered_user))) = [].
Proof.
  exact (proj1 (questionnaire_completes_profile MoreSamples.decimal
                  MoreSamples.entered_user
                  MoreSamples.six_answers Samples.ok_response
                  eq_refl eq_refl eq_refl)).
Defined.

Example questionnaire_stores_age_text :
  Questionnaire.userData
    (Questionnaire.run MoreSamples.decimal MoreSamples.six_answers
       (Questionnaire.initial MoreSamples.entered_user)) !! "age"
  = Some (JStr "25").
Proof. reflexivity. Qed.

Example questionnaire_keeps_last_answer :
  Questionnaire.userData
    (Questionnaire.run MoreSamples.decimal MoreSamples.six_answers
       (Questionnaire.initial MoreSamples.entered_user)) !! "height_cm"
  = Some (JNum 176).
Proof. reflexivity. Qed.

Lemma react_bounds
    (toNumber : string -> Questions.Converted)
    (st : Questionnaire.State) (e : Questionnaire.Event)
    (D : gset string) :
  (1 <= Questionnaire.currentStep st <= 6)%nat
  /\ D ⊆ dom (Questionnaire.userData st)
  /\ (Questionnaire.location st = "/processing" ->
      Questionnaire.currentStep st = 6%nat)
  /\ (Questionnaire.location st = "/start" ->
      Questionnaire.currentStep st = 1%nat) ->
  (1 <= Questionnaire.currentStep (Questionnaire.react toNumber st e) <= 6)%nat
  /\ D ⊆ dom (Questionnaire.userData (Questionnaire.react toNumber st e))
  /\ (Questionnaire.location (Questionnaire.react toNumber st e)
      = "/processing" ->
      Questionnaire.currentStep (Questionnaire.react toNumber st e) = 6%nat)
  /\ (Questionnaire.location (Questionnaire.react toNumber st e) = "/start" ->
      Questionnaire.currentStep (Questionnaire.react toNumber st e) = 1%nat).
Proof.
  intros Hinv. pose proof Hinv as (Hs & Hd & Hp & Hb).
  unfold Questionnaire.react.
  destruct (String.eqb_spec (Questionnaire.location st) "/questions")
    as [Hloc|Hloc]; simpl; [|exact Hinv].
  destruct e as [i|].
  - destruct (Questionnaire.renderQuestion toNumber
                (Questionnaire.currentStep st) i)
      as [[text|data]|] eqn:Hr; try exact Hinv.
    unfold Questionnaire.handleNext, Questionnaire.TOTAL_STEPS.
    destruct (Nat.ltb_spec (Questionnaire.currentStep st) 6); simpl;
      (split; [lia|]);
      (split; [unfold UserContext.updateUserData, spread;
               rewrite dom_union_L;
               transitivity (dom (Questionnaire.userData st));
               [exact Hd | apply union_subseteq_r]|]);
      rewrite ?Hloc; split; intros; try discriminate; lia.
  - unfold Questionnaire.handleBack.
    destruct (Nat.ltb_spec 1 (Questionnaire.currentStep st)); simpl;
      (split; [lia|]); (split; [exact Hd|]);
      rewrite ?Hloc; split; intros; try discriminate; lia.
Qed.

(** X4: the questionnaire keeps its step within 1..6 and never discards
    an answer.  After any sequence of submissions and steps back from step
    1, the step is between 1 and 6, every key that was in the user data at
    the start is still there, the screen has left for /processing only
    from step 6 and for /start only from step 1. *)
Theorem questionnaire_steps_bounded
    (toNumber : string -> Questions.Converted)
    (userData : gmap string JsVal) (events : list Questionnaire.Event) :
  let st :=
    Questionnaire.run toNumber events (Questionnaire.initial userData) in
  (1 <= Questionnaire.currentStep st <= 6)%nat
  /\ dom userData ⊆ dom (Questionnaire.userData st)
  /\ (Questionnaire.location st = "/processing" ->
      Questionnaire.currentStep st = 6%nat)
  /\ (Questionnaire.location st = "/start" ->
      Questionnaire.currentStep st = 1%nat).
Proof.
  intros st. subst st.
  assert (H0 : (1 <= Questionnaire.currentStep (Questionnaire.initial userData)
                <= 6)%nat
               /\ dom userData ⊆ dom (Questionnaire.userData
                                        (Questionnaire.initial userData))
               /\ (Questionnaire.location (Questionnaire.initial userData)
                   = "/processing" ->
                   Questionnaire.currentStep (Questionnaire.initial userData)
                   = 6%nat)
               /\ (Questionnaire.location (Questionnaire.initial userData)
                   = "/start" ->
                   Questionnaire.currentStep (Questionnaire.initial userData)
                   = 1%nat)).
  { simpl. repeat split; try lia; try discriminate. reflexivity. }
  revert H0. generalize (Questionnaire.initial userData) as st.
  induction events as [|e events IH]; intros st H; simpl; [exact H|].
  apply IH. apply react_bounds. exact H.
Qed.

Lemma questionnaire_steps_bounded_witness :
  Questionnaire.currentStep
    (Questionnaire.run MoreSamples.decimal MoreSamples.six_answers
       (Questionnaire.initial MoreSamples.entered_user)) = 6%nat.
Proof.
  destruct (questionnaire_steps_bounded MoreSamples.decimal
              MoreSamples.entered_user
              MoreSamples.six_answers) as (_ & _ & H & _).
  apply H. reflexivity.
Defined.

(** ** The entry screen *)

Lemma ten_digits_length (phone : string) :
  UserEntry.ten_digits phone = true ->
  String.length phone = 10%nat /\ UserEntry.all_digits phone = true
  /\ truthy (JStr phone) = true.
Proof.
  unfold UserEntry.ten_digits. intros H.
  apply andb_true_iff in H as [Hl Hd]. apply Nat.eqb_eq in Hl.
  repeat split; try assumption.
  destruct phone; [discriminate | reflexivity].
Qed.

(** X5: the entry screen lets only a phone number of exactly ten digits
    through.  For any other text the submit handler shows an error, leaves
    the user data untouched and does not navigate, and the lookup of an
    existing user makes no request at all.  For ten digits the submit
    handler stores the name, the email and the number and moves on to
    /questions.  A lookup request, when made, is for the phone as typed,
    and a failed lookup never shows an error. *)
Theorem entry_phone_gate
    (name email : JsVal) (phone : string) (prev : gmap string JsVal)
    (net : RawOutcome) :
  (UserEntry.ten_digits phone = false ->
     UserEntry.destination (UserEntry.handleSubmit name email phone) = None
     /\ UserEntry.apply_updates (UserEntry.handleSubmit name email phone) prev
        = prev
     /\ In (UserEntry.MessageError "Please enter a valid 10-digit phone number")
          (UserEntry.handleSubmit name email phone)
     /\ UserEntry.checkUser phone net = [])
  /\ (UserEntry.ten_digits phone = true ->
        UserEntry.destination (UserEntry.handleSubmit name email phone)
          = Some "/questions"
        /\ UserEntry.apply_updates (UserEntry.handleSubmit name email phone) prev
             !! "phone_number" = Some (JStr phone)
        /\ String.length phone = 10%nat
        /\ UserEntry.all_digits phone = true
        /\ truthy (field "phone_number"
                     (UserEntry.apply_updates
                        (UserEntry.handleSubmit name email phone) prev)) = true
        /\ UserEntry.apply_updates (UserEntry.handleSubmit name email phone) prev
             !! "name" = Some name
        /\ UserEntry.apply_updates (UserEntry.handleSubmit name email phone) prev
             !! "email" = Some email)
  /\ (forall p, In (UserEntry.ApiGetProfile p) (UserEntry.checkUser phone net) ->
        p = phone /\ UserEntry.ten_digits phone = true)
  /\ (forall text,
        ~ In (UserEntry.MessageError text) (UserEntry.checkUser phone net)).
Proof.
  split; [|split; [|split]].
  - intros H. unfold UserEntry.handleSubmit, UserEntry.checkUser.
    rewrite H. simpl. repeat split. right. left. reflexivity.
  - intros H. destruct (ten_digits_length phone H) as (Hl & Hd & Ht).
    unfold UserEntry.handleSubmit. rewrite H. simpl.
    split; [reflexivity|].
    assert (Hp : UserContext.updateUserData
                   (<["name" := name]> (<["email" := email]>
                      (<["phone_number" := JStr phone]> ∅))) prev
                 !! "phone_number" = Some (JStr phone)).
    { rewrite update_lookup. map_lookups. reflexivity. }
    split; [exact Hp|]. split; [exact Hl|]. split; [exact Hd|].
    split; [unfold field; rewrite Hp; exact Ht|].
    split; rewrite update_lookup; map_lookups; reflexivity.
  - intros p. unfold UserEntry.checkUser.
    destruct (UserEntry.ten_digits phone) eqn:H; simpl; [|tauto].
    destruct (UserEntry.getUserProfile net) as [user|reason];
      [destruct (truthy user)|]; simpl;
      intros Hin; repeat (destruct Hin as [Hin|Hin]; try discriminate);
      try contradiction; injection Hin as <-; split; reflexivity.
  - intros text. unfold UserEntry.checkUser.
    destruct (UserEntry.ten_digits phone); simpl; [|tauto].
    destruct (UserEntry.getUserProfile net) as [user|reason];
      [destruct (truthy user)|]; simpl;
      intros Hin; repeat (destruct Hin as [Hin|Hin]; try discriminate);
      contradiction.
Qed.

Lemma entry_phone_gate_witness :
  UserEntry.destination
    (UserEntry.handleSubmit (JStr "Test User") JUndefined "1234567890")
    = Some "/questions"
  /\ UserEntry.checkUser "12345 6789" Samples.ok_response = [].
Proof.
  destruct (entry_phone_gate (JStr "Test User") JUndefined "1234567890"
              ∅ Samples.ok_response) as (_ & Hok & _).
  destruct (entry_phone_gate (JStr "Test User") JUndefined "12345 6789"
              ∅ Samples.ok_response) as (Hbad & _).
  split.
  - exact (proj1 (Hok eq_refl)).
  - destruct (Hbad eq_refl) as (_ & _ & _ & H). exact H.
Defined.

(** X6: continuing as an existing user goes to /processing exactly when
    the stored profile has a medical condition and a health goal, and to
    /questions otherwise; the stored profile is merged over the user data.
    When the merged data still lacks one of the nine required fields (the
    stored age is optional), the processing screen it leads to makes no
    API call and sends the user back to /start. *)
Theorem continue_existing_user
    (user prev : gmap string JsVal) (net : RawOutcome) :
  let acts := UserEntry.handleContinueExisting (Some user) in
  let merged := UserEntry.apply_updates acts prev in
  merged = UserContext.updateUserData user prev
  /\ (UserEntry.destination acts = Some "/processing"
      <-> truthy (field "medical_condition" user) = true
          /\ truthy (field "health_goal" user) = true)
  /\ (UserEntry.destination acts <> Some "/processing" ->
      UserEntry.destination acts = Some "/questions")
  /\ (forall f,
        UserEntry.destination acts = Some "/processing" ->
        In f Processing.requiredFields ->
        truthy (field f merged) = false ->
        Processing.fetchSuggestion merged net =
          [ ConsoleError "Missing required fields:";
            MessageError (JStr "Please complete all questions first.");
            Navigate "/start" JUndefined ])
  /\ UserEntry.handleContinueExisting None = [].
Proof.
  intros acts merged. subst acts merged. simpl.
  split; [reflexivity|].
  destruct (truthy (field "medical_condition" user)),
           (truthy (field "health_goal" user)); simpl;
    (split; [split; [intros H; try discriminate; split; reflexivity
                    | intros [H1 H2]; try discriminate; reflexivity]|]);
    (split; [intros H; try reflexivity; exfalso; apply H; reflexivity|]);
    (split; [|reflexivity]);
    intros f Hd Hin Hf; try discriminate;
    pose proof (missing_is_listed _ f Hin Hf) as Hm;
    unfold Processing.fetchSuggestion;
    destruct (Processing.missingFields
                (UserContext.updateUserData user prev));
    [destruct Hm | reflexivity].
Qed.

Lemma continue_existing_user_witness :
  Processing.fetchSuggestion
    (UserEntry.apply_updates
       (UserEntry.handleContinueExisting
          (Some MoreSamples.stored_user_without_age)) ∅)
    Samples.ok_response =
    [ ConsoleError "Missing required fields:";
      MessageError (JStr "Please complete all questions first.");
      Navigate "/start" JUndefined ].
Proof.
  destruct (continue_existing_user MoreSamples.stored_user_without_age ∅
              Samples.ok_response) as (_ & _ & _ & H & _).
  apply (H "age"); [reflexivity | simpl; tauto | reflexivity].
Defined.

(** ** The guest questionnaire, step by step *)

Lemma catch_never_posts (sessionData error : JsVal) :
  List.filter is_api_post
    (Guest.trace_of (Guest.handleSubmit_catch sessionData error)) = [].
Proof.
  unfold Guest.handleSubmit_catch.
  repeat match goal with
         | |- context [if ?c then _ else _] => destruct c
         | |- context [match opt_includes ?a ?b with _ => _ end] =>
             destruct (opt_includes a b)
         end; reflexivity.
Qed.

Lemma catch_ends_loading (sessionData error : JsVal) :
  last (Guest.trace_of (Guest.handleSubmit_catch sessionData error))
    = Some (SetLoading false).
Proof.
  unfold Guest.handleSubmit_catch.
  repeat match goal with
         | |- context [if ?c then _ else _] => destruct c
         | |- context [match opt_includes ?a ?b with _ => _ end] =>
             destruct (opt_includes a b)
         end; reflexivity.
Qed.

Lemma guest_trace (sessionData : JsVal)
    (formData completeData : gmap string JsVal) (net : RawOutcome) :
  truthy sessionData = true ->
  exists rest,
    Guest.trace_of (Guest.handleSubmit sessionData formData completeData net)
      = GuestTrace.prefix sessionData formData completeData ++ rest
    /\ List.filter is_api_post rest = []
    /\ last rest = Some (SetLoading false).
Proof.
  intros Hs. rewrite (guest_call _ _ _ _ Hs).
  destruct (getGuestSuggestion net) as [v|err].
  - eexists. split; [reflexivity|]. split; reflexivity.
  - pose proof (catch_never_posts sessionData err) as Hn.
    pose proof (catch_ends_loading sessionData err) as Hl.
    destruct (Guest.handleSubmit_catch sessionData err) as [t|t];
      exists t; simpl in *; repeat split; assumption.
Qed.

Lemma guest_posts (sessionData : JsVal)
    (formData completeData : gmap string JsVal) (net : RawOutcome)
    (url : string) (body : JsVal) :
  In (ApiPost url body)
    (Guest.trace_of (Guest.handleSubmit sessionData formData completeData net)) ->
  url = "/guest/suggest-item"
  /\ body = Guest.suggestionRequest sessionData completeData formData.
Proof.
  destruct (truthy sessionData) eqn:Hs.
  - destruct (guest_trace sessionData formData completeData net Hs)
      as (rest & -> & Hn & _).
    intros Hin. apply in_app_or in Hin as [Hin|Hin].
    + simpl in Hin.
      repeat (destruct Hin as [Hin|Hin]; try discriminate);
        try contradiction.
      injection Hin as <- <-. split; reflexivity.
    + exfalso.
      assert (Hf : In (ApiPost url body) (List.filter is_api_post rest))
        by (apply filter_In; split; [exact Hin | reflexivity]).
      rewrite Hn in Hf. exact Hf.
  - unfold Guest.handleSubmit. rewrite Hs. simpl.
    intros Hin. repeat (destruct Hin as [Hin|Hin]; try discriminate).
    contradiction.
Qed.

Lemma guest_answer_keys
    (toNumber : string -> Questions.Converted)
    (step : nat) (i : Questions.Input)
    (data : gmap string JsVal) :
  (step <= 4)%nat ->
  GuestFlow.renderCurrentStep toNumber step i
    = Some (Questions.Answered data) ->
  data !! "spice_tolerance" = None /\ data !! "health_goal" = None.
Proof.
  intros Hstep Hr.
  destruct step as [|[|[|[|[|step]]]]]; try lia; destruct i; simpl in Hr;
    try discriminate; injection Hr as Hr.
  - destruct (AgeQuestion_answered _ _ _ _ Hr) as (_ & _ & _ & ->).
    split; reflexivity.
  - destruct (BodyMetricsQuestion_answered _ _ _ Hr)
      as (h & w & _ & _ & _ & _ & _ & _ & ->).
    split; reflexivity.
  - destruct (selection_answered _ _ _ _ Hr) as [_ ->]. split; reflexivity.
  - destruct (selection_answered _ _ _ _ Hr) as [_ ->]. split; reflexivity.
  - subst data. split; reflexivity.
Qed.

Lemma defaults_reach_request (sessionData : JsVal)
    (formData completeData : gmap string JsVal) :
  completeData !! "spice_tolerance" = None ->
  completeData !! "health_goal" = None ->
  formData !! "spice_tolerance" = None ->
  formData !! "health_goal" = None ->
  let body := Guest.suggestionRequest sessionData completeData formData in
  get "spice_tolerance" (get "health_data" body) = JStr "medium"
  /\ get "health_goal" (get "health_data" body) = JStr "balanced".
Proof.
  intros Hc1 Hc2 Hf1 Hf2 body. subst body.
  assert (Hd : get "health_data"
                 (Guest.suggestionRequest sessionData completeData formData)
               = JObj (Guest.healthData completeData formData)).
  { unfold Guest.suggestionRequest, get, field. map_lookups. reflexivity. }
  rewrite Hd. unfold get, field.
  rewrite (healthData_lookup _ _ "spice_tolerance" (JStr "medium")),
          (healthData_lookup _ _ "health_goal" (JStr "balanced"));
    try (simpl; tauto).
  rewrite Hc1, Hc2. unfold Guest.merged, field.
  rewrite Hc1, Hc2, Hf1, Hf2. split; reflexivity.
Qed.

Lemma guest_react
    (toNumber : string -> Questions.Converted)
    (sessionData : JsVal) (st : GuestFlow.State)
    (e : GuestFlow.Event) :
  (GuestFlow.currentStep st <= 4)%nat ->
  GuestFlow.formData st !! "spice_tolerance" = None ->
  GuestFlow.formData st !! "health_goal" = None ->
  let st' := fst (GuestFlow.react toNumber sessionData st e) in
  let t := snd (GuestFlow.react toNumber sessionData st e) in
  (GuestFlow.currentStep st' <= 4)%nat
  /\ GuestFlow.formData st' !! "spice_tolerance" = None
  /\ GuestFlow.formData st' !! "health_goal" = None
  /\ (forall url body, In (ApiPost url body) t ->
        url = "/guest/suggest-item"
        /\ get "spice_tolerance" (get "health_data" body) = JStr "medium"
        /\ get "health_goal" (get "health_data" body) = JStr "balanced").
Proof.
  intros Hstep Hs Hg. unfold GuestFlow.react.
  destruct (negb (GuestFlow.location st =? "/guest/questions")%string); simpl;
    [repeat split; try assumption; contradiction|].
  destruct e as [i net|].
  - destruct (GuestFlow.renderCurrentStep toNumber (GuestFlow.currentStep st) i)
      as [[text|data]|] eqn:Hr; simpl;
      try (repeat split; try assumption; contradiction).
    destruct (guest_answer_keys _ _ _ _ Hstep Hr) as [Hd1 Hd2].
    assert (Hu1 : spread (GuestFlow.formData st) data !! "spice_tolerance" = None)
      by (unfold spread; rewrite lookup_union, Hd1, Hs; reflexivity).
    assert (Hu2 : spread (GuestFlow.formData st) data !! "health_goal" = None)
      by (unfold spread; rewrite lookup_union, Hd2, Hg; reflexivity).
    unfold GuestFlow.onNext.
    destruct (Nat.eqb_spec (GuestFlow.currentStep st) 6); [lia|].
    unfold GuestFlow.handleStepNext.
    destruct (Nat.eqb_spec (GuestFlow.currentStep st) 4); simpl.
    + split; [lia|]. split; [exact Hu1|]. split; [exact Hu2|].
      intros url body Hin.
      destruct (guest_posts _ _ _ _ _ _ Hin) as [-> ->].
      split; [reflexivity|].
      exact (defaults_reach_request sessionData (GuestFlow.formData st)
               (spread (GuestFlow.formData st) data) Hu1 Hu2 Hs Hg).
    + split; [lia|]. split; [exact Hu1|]. split; [exact Hu2|].
      intros url body [].
  - unfold GuestFlow.handleStepBack.
    destruct (Nat.eqb_spec (GuestFlow.currentStep st) 0); simpl;
      (split; [lia|]); (split; [exact Hs|]); (split; [exact Hg|]);
      intros url body Hin;
      repeat (destruct Hin as [Hin|Hin]; try discriminate); contradiction.
Qed.

Lemma guest_run
    (toNumber : string -> Questions.Converted)
    (sessionData : JsVal) (events : list GuestFlow.Event)
    (st : GuestFlow.State) :
  (GuestFlow.currentStep st <= 4)%nat ->
  GuestFlow.formData st !! "spice_tolerance" = None ->
  GuestFlow.formData st !! "health_goal" = None ->
  let st' := fst (GuestFlow.run toNumber sessionData events st) in
  let t := snd (GuestFlow.run toNumber sessionData events st) in
  (GuestFlow.currentStep st' <= 4)%nat
  /\ GuestFlow.formData st' !! "spice_tolerance" = None
  /\ GuestFlow.formData st' !! "health_goal" = None
  /\ (forall url body, In (ApiPost url body) t ->
        url = "/guest/suggest-item"
        /\ get "spice_tolerance" (get "health_data" body) = JStr "medium"
        /\ get "health_goal" (get "health_data" body) = JStr "balanced").
Proof.
  revert st. induction events as [|e events IH]; intros st Hstep Hs Hg; simpl.
  - repeat split; try assumption; contradiction.
  - destruct (guest_react toNumber sessionData st e Hstep Hs Hg)
      as (H1 & H2 & H3 & H4).
    destruct (GuestFlow.react toNumber sessionData st e) as [st1 t1];
      simpl in *.
    destruct (IH st1 H1 H2 H3) as (I1 & I2 & I3 & I4).
    destruct (GuestFlow.run toNumber sessionData events st1) as [st2 t2];
      simpl in *.
    split; [exact I1|]. split; [exact I2|]. split; [exact I3|].
    intros url body Hin. apply in_app_or in Hin as [Hin|Hin];
      [exact (H4 url body Hin) | exact (I4 url body Hin)].
Qed.

(** X7: the guest questionnaire never gets past its fifth question, so a
    guest is never asked for a spice tolerance or a health goal.  After
    any sequence of submissions and steps back from the first question,
    the step index is at most 4 (the step with index 4 submits instead of
    moving on), the form data holds neither key, and every suggestion
    request that was sent went to /guest/suggest-item with
    spice_tolerance 'medium' and health_goal 'balanced'. *)
Theorem guest_flow_stops_at_fifth_question
    (toNumber : string -> Questions.Converted)
    (sessionData : JsVal) (events : list GuestFlow.Event) :
  let st := fst (GuestFlow.run toNumber sessionData events GuestFlow.initial) in
  let t := snd (GuestFlow.run toNumber sessionData events GuestFlow.initial) in
  (GuestFlow.currentStep st <= 4)%nat
  /\ GuestFlow.formData st !! "spice_tolerance" = None
  /\ GuestFlow.formData st !! "health_goal" = None
  /\ (forall url body, In (ApiPost url body) t ->
        url = "/guest/suggest-item"
        /\ get "spice_tolerance" (get "health_data" body) = JStr "medium"
        /\ get "health_goal" (get "health_data" body) = JStr "balanced")
  /\ (forall l g s,
        GuestFlow.renderCurrentStep toNumber (GuestFlow.currentStep st)
          (Questions.SpiceInput l) = None
        /\ GuestFlow.renderCurrentStep toNumber (GuestFlow.currentStep st)
             (Questions.GoalInput g s) = None).
Proof.
  intros st t.
  destruct (guest_run toNumber sessionData events GuestFlow.initial)
    as (H1 & H2 & H3 & H4); try reflexivity; [simpl; lia|].
  fold st in H1, H2, H3. fold t in H4.
  split; [exact H1|]. split; [exact H2|]. split; [exact H3|].
  split; [exact H4|].
  intros l g s.
  destruct (GuestFlow.currentStep st) as [|[|[|[|[|k]]]]]; try lia;
    split; reflexivity.
Qed.

Lemma guest_flow_stops_at_fifth_question_witness :
  exists body,
    In (ApiPost "/guest/suggest-item" body)
      (snd (GuestFlow.run MoreSamples.decimal Samples.session
              MoreSamples.guest_answers GuestFlow.initial))
    /\ get "spice_tolerance" (get "health_data" body) = JStr "medium"
    /\ get "health_goal" (get "health_data" body) = JStr "balanced"
    /\ get "age" (get "health_data" body) = JStr "30".
Proof.
  destruct (guest_flow_stops_at_fifth_question MoreSamples.decimal
              Samples.session MoreSamples.guest_answers) as (_ & _ & _ & H & _).
  eexists. split; [|split; [|split]].
  - do 6 right. left. reflexivity.
  - refine (proj1 (proj2 (H _ _ _))). do 6 right. left. reflexivity.
  - refine (proj2 (proj2 (H _ _ _))). do 6 right. left. reflexivity.
  - reflexivity.
Defined.

(** ** The health data of every guest request *)

Lemma spread_lookup (base over : gmap string JsVal) (k : string) :
  spread base over !! k =
    match over !! k with
    | Some v => Some v
    | None => base !! k
    end.
Proof.
  unfold spread. rewrite lookup_union.
  destruct (over !! k), (base !! k); reflexivity.
Qed.

(** Every value a question component passes on is set, the health
    metrics apart, which are passed on as they are. *)
Lemma answer_values_set
    (toNumber : string -> Questions.Converted) (step : nat)
    (i : Questions.Input) (data : gmap string JsVal) (k : string) (v : JsVal) :
  GuestFlow.renderCurrentStep toNumber step i
    = Some (Questions.Answered data) ->
  data !! k = Some v ->
  k = "healthMetrics" \/ truthy v = true.
Proof.
  intros Hr Hk.
  destruct step as [|[|[|[|[|[|[|step]]]]]]]; destruct i; simpl in Hr;
    try discriminate; injection Hr as Hr.
  - destruct (AgeQuestion_answered _ _ _ _ Hr) as (Ha & _ & Hg & ->).
    apply truthy_str in Ha.
    apply lookup_insert_Some in Hk as [[_ <-]|[_ Hk]]; [right; exact Ha|].
    apply lookup_insert_Some in Hk as [[_ <-]|[_ Hk]]; [right; exact Hg|].
    rewrite lookup_empty in Hk. discriminate.
  - destruct (BodyMetricsQuestion_answered _ _ _ Hr)
      as (h & w & _ & _ & H1 & _ & H3 & _ & ->).
    apply lookup_insert_Some in Hk as [[_ <-]|[_ Hk]];
      [right; exact (in_range_truthy h 100 H1 ltac:(lia))|].
    apply lookup_insert_Some in Hk as [[_ <-]|[_ Hk]];
      [right; exact (in_range_truthy w 20 H3 ltac:(lia))|].
    rewrite lookup_empty in Hk. discriminate.
  - destruct (selection_answered _ _ _ _ Hr) as [Hs ->].
    apply lookup_insert_Some in Hk as [[_ <-]|[_ Hk]]; [right; exact Hs|].
    rewrite lookup_empty in Hk. discriminate.
  - destruct (selection_answered _ _ _ _ Hr) as [Hs ->].
    apply lookup_insert_Some in Hk as [[_ <-]|[_ Hk]]; [right; exact Hs|].
    rewrite lookup_empty in Hk. discriminate.
  - subst data.
    apply lookup_insert_Some in Hk as [[<- _]|[_ Hk]]; [left; reflexivity|].
    rewrite lookup_empty in Hk. discriminate.
  - destruct (selection_answered _ _ _ _ Hr) as [Hs ->].
    apply lookup_insert_Some in Hk as [[_ <-]|[_ Hk]]; [right; exact Hs|].
    rewrite lookup_empty in Hk. discriminate.
  - destruct (FitnessGoalQuestion_answered _ _ _ Hr) as (Hg & Hs & ->).
    apply lookup_insert_Some in Hk as [[_ <-]|[_ Hk]]; [right; exact Hg|].
    apply lookup_insert_Some in Hk as [[_ <-]|[_ Hk]]; [right; exact Hs|].
    rewrite lookup_empty in Hk. discriminate.
Qed.

Lemma healthData_field (completeData formData : gmap string JsVal)
    (k : string) (d : JsVal) :
  In (k, d) Guest.guest_defaults ->
  Guest.healthData completeData formData !! k =
    Some (match completeData !! k with
          | Some v => v
          | None => if truthy (field k formData) then field k formData else d
          end).
Proof.
  intros Hin. rewrite (healthData_lookup _ _ k d Hin).
  destruct (completeData !! k) as [v|] eqn:Hc; [reflexivity|].
  assert (Hu : field k completeData = JUndefined)
    by (unfold field; rewrite Hc; reflexivity).
  unfold Guest.merged, js_or. rewrite Hu. reflexivity.
Qed.

Lemma healthData_set (completeData formData : gmap string JsVal) :
  (forall k v, completeData !! k = Some v ->
     k = "healthMetrics" \/ truthy v = true) ->
  forall k d, In (k, d) Guest.guest_defaults ->
    exists v, Guest.healthData completeData formData !! k = Some v
      /\ truthy v = true
      /\ (completeData !! k = None -> formData !! k = None -> v = d).
Proof.
  intros Hset k d Hin. rewrite (healthData_field _ _ k d Hin).
  eexists. split; [reflexivity|].
  destruct (completeData !! k) as [v|] eqn:Hc.
  - split; [|discriminate].
    destruct (Hset k v Hc) as [->|Hv]; [|exact Hv].
    exfalso. field_cases Hin.
  - destruct (truthy (field k formData)) eqn:Hf.
    + split; [exact Hf|]. intros _ Hn. unfold field in Hf.
      rewrite Hn in Hf. discriminate.
    + split; [exact (default_truthy k d Hin) | reflexivity].
Qed.

Lemma guest_react_requests
    (toNumber : string -> Questions.Converted) (sessionData : JsVal)
    (st : GuestFlow.State) (e : GuestFlow.Event) :
  (forall k v, GuestFlow.formData st !! k = Some v ->
     k = "healthMetrics" \/ truthy v = true) ->
  (forall k v,
     GuestFlow.formData (fst (GuestFlow.react toNumber sessionData st e)) !! k
       = Some v ->
     k = "healthMetrics" \/ truthy v = true)
  /\ (forall url body,
        In (ApiPost url body)
          (snd (GuestFlow.react toNumber sessionData st e)) ->
        url = "/guest/suggest-item"
        /\ exists completeData formData,
             body = Guest.suggestionRequest sessionData completeData formData
             /\ (forall k v, completeData !! k = Some v ->
                   k = "healthMetrics" \/ truthy v = true)).
Proof.
  intros Hset. unfold GuestFlow.react.
  destruct (negb (GuestFlow.location st =? "/guest/questions")%string); simpl;
    [split; [exact Hset | intros url body []]|].
  destruct e as [i net|].
  - destruct (GuestFlow.renderCurrentStep toNumber (GuestFlow.currentStep st) i)
      as [[text|data]|] eqn:Hr; simpl;
      try (split; [exact Hset | intros url body []]).
    assert (Hdata : forall k v, data !! k = Some v ->
              k = "healthMetrics" \/ truthy v = true)
      by (intros k v; exact (answer_values_set _ _ _ _ k v Hr)).
    assert (Hup : forall k v,
              spread (GuestFlow.formData st) data !! k = Some v ->
              k = "healthMetrics" \/ truthy v = true).
    { intros k v. rewrite spread_lookup.
      destruct (data !! k) as [x|] eqn:Hd.
      - intros E. injection E as <-. exact (Hdata k x Hd).
      - apply Hset. }
    unfold GuestFlow.onNext, GuestFlow.handleStepNext.
    destruct (GuestFlow.currentStep st =? 6)%nat;
      [|destruct (GuestFlow.currentStep st =? 4)%nat]; simpl.
    + split; [exact Hset|]. intros url body Hin.
      destruct (guest_posts _ _ _ _ _ _ Hin) as [-> ->].
      split; [reflexivity|]. eexists _, _. split; [reflexivity | exact Hdata].
    + split; [exact Hup|]. intros url body Hin.
      destruct (guest_posts _ _ _ _ _ _ Hin) as [-> ->].
      split; [reflexivity|]. eexists _, _. split; [reflexivity | exact Hup].
    + split; [exact Hup | intros url body []].
  - unfold GuestFlow.handleStepBack.
    destruct (GuestFlow.currentStep st =? 0)%nat; simpl;
      (split; [exact Hset|]); intros url body Hin;
      repeat (destruct Hin as [Hin|Hin]; try discriminate); contradiction.
Qed.

Lemma guest_run_requests
    (toNumber : string -> Questions.Converted) (sessionData : JsVal)
    (events : list GuestFlow.Event) (st : GuestFlow.State) :
  (forall k v, GuestFlow.formData st !! k = Some v ->
     k = "healthMetrics" \/ truthy v = true) ->
  forall url body,
    In (ApiPost url body)
      (snd (GuestFlow.run toNumber sessionData events st)) ->
    url = "/guest/suggest-item"
    /\ exists completeData formData,
         body = Guest.suggestionRequest sessionData completeData formData
         /\ (forall k v, completeData !! k = Some v ->
               k = "healthMetrics" \/ truthy v = true).
Proof.
  revert st. induction events as [|e events IH]; intros st Hset url body;
    simpl; [intros []|].
  destruct (guest_react_requests toNumber sessionData st e Hset) as [H1 H2].
  destruct (GuestFlow.react toNumber sessionData st e) as [st1 t1];
    simpl in *.
  specialize (IH st1 H1 url body).
  destruct (GuestFlow.run toNumber sessionData events st1) as [st2 t2];
    simpl in *.
  intros Hin. apply in_app_or in Hin as [Hin|Hin];
    [exact (H2 url body Hin) | exact (IH Hin)].
Qed.

(** C8: on the guest path every suggestion request carries a fully
    populated health_data record in which the guest's input is kept and
    only the missing fields are replaced by their defaults.  For each of
    the eight fields the record holds the submitted value when there is
    one, else the value of the form state when that is set, else the
    default: age 25, gender 'other', height_cm 170, weight_kg 70,
    diet_type 'veg', health_goal 'balanced', medical_condition 'none',
    spice_tolerance 'medium'.  Whatever the guest does on the
    questionnaire, every request it sends goes to /guest/suggest-item with
    such a record, all eight fields of which are set, a field the guest
    gave no answer for holding its default.  With a session the handler
    posts the request without any error message before it. *)
Theorem guest_health_data_defaults
    (toNumber : string -> Questions.Converted)
    (sessionData : JsVal) (events : list GuestFlow.Event) :
  (forall completeData formData k d,
     In (k, d) Guest.guest_defaults ->
     Guest.healthData completeData formData !! k =
       Some (match completeData !! k with
             | Some v => v
             | None =>
                 if truthy (field k formData) then field k formData else d
             end))
  /\ (forall url body,
        In (ApiPost url body)
          (snd (GuestFlow.run toNumber sessionData events GuestFlow.initial)) ->
        url = "/guest/suggest-item"
        /\ exists completeData formData,
             body = JObj (<["session_id" := get "session_id" sessionData]>
                         (<["health_data" :=
                              JObj (Guest.healthData completeData formData)]> ∅))
             /\ (forall k d, In (k, d) Guest.guest_defaults ->
                   exists v,
                     Guest.healthData completeData formData !! k = Some v
                     /\ truthy v = true
                     /\ (completeData !! k = None -> formData !! k = None ->
                         v = d)))
  /\ (truthy sessionData = true ->
      forall formData completeData net,
      exists pre post,
        Guest.trace_of (Guest.handleSubmit sessionData formData completeData net) =
          (pre ++ ApiPost "/guest/suggest-item"
                    (JObj (<["session_id" := get "session_id" sessionData]>
                          (<["health_data" :=
                               JObj (Guest.healthData completeData formData)]> ∅)))
               :: post)%list
        /\ Recommendation.shows_error pre = false).
Proof.
  split; [|split].
  - intros completeData formData k d Hin.
    exact (healthData_field completeData formData k d Hin).
  - intros url body Hin.
    destruct (guest_run_requests toNumber sessionData events GuestFlow.initial)
      with (url := url) (body := body)
      as (Hurl & completeData & formData & Hbody & Hset);
      [intros k v Hk; simpl in Hk; rewrite lookup_empty in Hk; discriminate
      | exact Hin |].
    split; [exact Hurl|]. exists completeData, formData.
    split; [exact Hbody|].
    exact (healthData_set completeData formData Hset).
  - intros Hs formData completeData net.
    exact (guest_request_posted sessionData formData completeData net Hs).
Qed.

Lemma guest_health_data_defaults_witness :
  exists body h,
    In (ApiPost "/guest/suggest-item" body)
      (snd (GuestFlow.run MoreSamples.decimal Samples.session
              MoreSamples.guest_answers GuestFlow.initial))
    /\ get "health_data" body = JObj h
    /\ h !! "age" = Some (JStr "30")
    /\ h !! "spice_tolerance" = Some (JStr "medium")
    /\ (exists v, h !! "health_goal" = Some v /\ truthy v = true).
Proof.
  destruct (guest_health_data_defaults MoreSamples.decimal Samples.session
              MoreSamples.guest_answers) as (_ & H & _).
  eexists. eexists. split; [do 6 right; left; reflexivity|].
  split; [reflexivity|]. split; [reflexivity|]. split; [reflexivity|].
  destruct (H "/guest/suggest-item" _
              ltac:(do 6 right; left; reflexivity))
    as (_ & completeData & formData & Hbody & Hset).
  eexists. split; reflexivity.
Defined.


(** X8: the guest submit handler makes at most one request and always
    leaves the loading flag off.  With a session it sets the flag, posts
    exactly one request and, whatever the outcome (a response, a fallback,
    any of the error messages, or an exception in the error handling), the
    last thing it does is [setLoading(false)].  Without a session it only
    reports the expired session and goes to /mode-selection: no request,
    no loading flag. *)
Theorem guest_submit_brackets_loading
    (sessionData : JsVal) (formData completeData : gmap string JsVal)
    (net : RawOutcome) :
  let t := Guest.trace_of
             (Guest.handleSubmit sessionData formData completeData net) in
  (truthy sessionData = true ->
     head t = Some (SetLoading true)
     /\ last t = Some (SetLoading false)
     /\ Recommendation.api_calls t = 1%nat)
  /\ (truthy sessionData = false ->
        t = [ MessageError (JStr "Session expired. Please start again.");
              Navigate "/mode-selection" JUndefined ]).
Proof.
  intros t. subst t. split.
  - intros Hs.
    destruct (guest_trace sessionData formData completeData net Hs)
      as (rest & -> & Hn & Hl).
    split; [reflexivity|]. split.
    + rewrite last_app, Hl. reflexivity.
    + unfold Recommendation.api_calls. rewrite List.filter_app, Hn. reflexivity.
  - intros Hs. unfold Guest.handleSubmit. rewrite Hs. reflexivity.
Qed.

Lemma guest_submit_brackets_loading_witness :
  last (Guest.trace_of
          (Guest.handleSubmit Samples.session Samples.guest_form
             Samples.guest_submitted (RawErr Samples.unavailable_error)))
    = Some (SetLoading false).
Proof.
  destruct (guest_submit_brackets_loading Samples.session Samples.guest_form
              Samples.guest_submitted (RawErr Samples.unavailable_error))
    as [H _].
  exact (proj1 (proj2 (H eq_refl))).
Defined.

Lemma healthData_other_key (completeData formData : gmap string JsVal)
    (k : string) :
  ~ In k (List.map fst Guest.guest_defaults) ->
  Guest.healthData completeData formData !! k = completeData !! k.
Proof.
  intros Hk. unfold Guest.healthData, spread. rewrite lookup_union.
  simpl in Hk.
  repeat (rewrite lookup_insert_ne by (intros E; apply Hk; tauto)).
  rewrite lookup_empty. destruct (completeData !! k); reflexivity.
Qed.

(** X9: what the guest health data consists of.  It has the eight fields
    of the form and, besides them, exactly the keys of the submitted data
    (such as healthMetrics); keys that are only in the form state are not
    sent.  A value present in the submitted data is sent as it is, even a
    falsy one, overriding both the form state and the default; a field
    absent from the submitted data takes the value of the form state when
    that is set. *)
Theorem guest_health_data_contents
    (completeData formData : gmap string JsVal) (k : string) :
  (is_Some (Guest.healthData completeData formData !! k)
   <-> is_Some (completeData !! k)
       \/ In k (List.map fst Guest.guest_defaults))
  /\ (forall v, completeData !! k = Some v ->
        Guest.healthData completeData formData !! k = Some v)
  /\ (forall d v, In (k, d) Guest.guest_defaults ->
        completeData !! k = None -> formData !! k = Some v ->
        truthy v = true ->
        Guest.healthData completeData formData !! k = Some v).
Proof.
  assert (Hdec : In k (List.map fst Guest.guest_defaults)
                 \/ ~ In k (List.map fst Guest.guest_defaults)).
  { destruct (in_dec String.string_dec k (List.map fst Guest.guest_defaults));
      [left | right]; assumption. }
  split; [|split].
  - destruct Hdec as [Hin|Hnot].
    + split; [intros _; right; exact Hin|]. intros _.
      apply in_map_iff in Hin as ([k' d] & <- & Hin). simpl.
      rewrite (healthData_lookup _ _ k' d Hin).
      destruct (completeData !! k'); eexists; reflexivity.
    + rewrite (healthData_other_key _ _ k Hnot). tauto.
  - intros v Hv. destruct Hdec as [Hin|Hnot].
    + apply in_map_iff in Hin as ([k' d] & <- & Hin). simpl in *.
      rewrite (healthData_lookup _ _ k' d Hin), Hv. reflexivity.
    + rewrite (healthData_other_key _ _ k Hnot). exact Hv.
  - intros d v Hin Hc Hf Ht.
    rewrite (healthData_lookup _ _ k d Hin), Hc.
    unfold Guest.merged, js_or, field. rewrite Hc, Hf. simpl.
    rewrite Ht. reflexivity.
Qed.

Lemma guest_health_data_contents_witness :
  Guest.healthData (<["age" := num 0]> Samples.guest_submitted)
    Samples.guest_form !! "age" = Some (num 0).
Proof.
  destruct (guest_health_data_contents
              (<["age" := num 0]> Samples.guest_submitted)
              Samples.guest_form "age") as (_ & H & _).
  apply H. reflexivity.
Defined.

(** ** The API service seen from the handlers *)

Lemma interceptor_passes (r : AxiosResponse) :
  post_data (RawOk r) = Fulfilled (data r)
  /\ interceptor (RawOk r) = Fulfilled (response_obj r).
Proof.
  split; [|reflexivity].
  unfold post_data, interceptor, response_obj, get, field.
  map_lookups. reflexivity.
Qed.

(** X10: what the response interceptor hands to a caller.  A response
    passes through, so a service method returns its body unchanged; a
    timeout never rejects but resolves every method with the fallback
    suggestion; any other error rejects, and the rejection reason is never
    nullish or otherwise falsy: it is the response body when that is
    truthy and the error object otherwise, so a handler can read
    properties of the reason without a TypeError. *)
Theorem interceptor_outcomes (raw : RawOutcome) :
  (forall r, raw = RawOk r -> post_data raw = Fulfilled (data r))
  /\ (forall e, raw = RawErr e -> is_timeout e = true ->
        post_data raw = Fulfilled (JObj timeout_fallback))
  /\ (forall reason, post_data raw = Rejected reason ->
        truthy reason = true
        /\ exists e, raw = RawErr e /\ is_timeout e = false
             /\ (forall r, response e = Some r -> truthy (data r) = true ->
                   reason = data r)
             /\ (forall r, response e = Some r -> truthy (data r) = false ->
                   reason = error_obj e)
             /\ (response e = None -> reason = error_obj e))
  /\ (forall e, raw = RawErr e -> is_timeout e = false ->
        exists reason, post_data raw = Rejected reason).
Proof.
  split; [|split; [|split]].
  - intros r ->. unfold post_data, interceptor, response_obj, get, field.
    map_lookups. reflexivity.
  - intros e -> Ht. exact (post_data_timeout e Ht).
  - intros reason H. destruct raw as [r|e].
    + unfold post_data, interceptor in H. discriminate.
    + destruct (is_timeout e) eqn:Ht.
      * rewrite (post_data_timeout e Ht) in H. discriminate.
      * rewrite (post_data_error e Ht) in H. injection H as <-.
        split; [apply js_or_truthy; reflexivity|].
        exists e. split; [reflexivity|]. split; [exact Ht|].
        unfold js_or.
        destruct (response e) as [r0|]; repeat split;
          intros; try discriminate;
          repeat match goal with
                 | H : Some _ = Some _ |- _ => injection H as ->
                 | H : truthy ?x = _ |- context [truthy ?x] => rewrite H
                 end; reflexivity.
  - intros e -> Ht. eexists. exact (post_data_error e Ht).
Qed.

Lemma interceptor_outcomes_witness :
  post_data (RawErr Samples.unavailable_error)
    = Rejected (JObj (<["detail" := JStr "Service unavailable"]> ∅))
  /\ truthy (JObj (<["detail" := JStr "Service unavailable"]> ∅)) = true.
Proof.
  destruct (interceptor_outcomes (RawErr Samples.unavailable_error))
    as (_ & _ & H & _).
  split; [reflexivity|].
  exact (proj1 (H _ eq_refl)).
Defined.

Lemma guest_catch_without_status (sessionData error : JsVal) :
  get "response" error = JUndefined ->
  Recommendation.navigates_to "/guest/recommendation"
    (Guest.trace_of (Guest.handleSubmit_catch sessionData error)) = false.
Proof.
  intros H. unfold Guest.handleSubmit_catch. rewrite H. simpl.
  repeat match goal with
         | |- context [if ?c then _ else _] => destruct c
         | |- context [match opt_includes ?a ?b with _ => _ end] =>
             destruct (opt_includes a b)
         end; reflexivity.
Qed.

Lemma navigates_app_false (p : string) (t1 t2 : list Effect) :
  Recommendation.navigates_to p t1 = false ->
  Recommendation.navigates_to p t2 = false ->
  Recommendation.navigates_to p (t1 ++ t2) = false.
Proof.
  intros H1 H2. unfold Recommendation.navigates_to in *.
  rewrite existsb_app, H1, H2. reflexivity.
Qed.



Lemma recommendation_read (url : string) (body state : JsVal) :
  Recommendation.user_recommendation
    [ ApiPost url body; Navigate "/recommendation" state ]
  = if truthy (get "recommendation" state)
    then Some (get "recommendation" state) else None.
Proof. reflexivity. Qed.

(** X12: a successful response reaches the user unchanged.  With a
    complete profile the registered path navigates to /recommendation with
    the response body as the recommendation, and with a session the guest
    path stores the body; the recommendation screens show exactly that
    body when it is truthy and nothing when it is falsy (an empty
    response). *)
Theorem primary_suggestion_passes_through
    (userData : gmap string JsVal) (sessionData : JsVal)
    (formData completeData : gmap string JsVal) (r : AxiosResponse) :
  Processing.missingFields userData = [] ->
  truthy sessionData = true ->
  Processing.fetchSuggestion userData (RawOk r) =
    [ ApiPost "/user/suggest-item" (JObj userData);
      Navigate "/recommendation" (JObj (<["recommendation" := data r]> ∅)) ]
  /\ Recommendation.stored "guestSuggestion"
       (Guest.trace_of
          (Guest.handleSubmit sessionData formData completeData (RawOk r)))
     = Some (data r)
  /\ (truthy (data r) = true ->
      Recommendation.user_recommendation
        (Processing.fetchSuggestion userData (RawOk r)) = Some (data r)
      /\ Recommendation.guest_recommendation
           (Guest.trace_of
              (Guest.handleSubmit sessionData formData completeData (RawOk r)))
         = Some (data r))
  /\ (truthy (data r) = false ->
      Recommendation.user_recommendation
        (Processing.fetchSuggestion userData (RawOk r)) = None
      /\ Recommendation.guest_recommendation
           (Guest.trace_of
              (Guest.handleSubmit sessionData formData completeData (RawOk r)))
         = None).
Proof.
  intros Hc Hs.
  assert (Hok : post_data (RawOk r) = Fulfilled (data r))
    by (exact (proj1 (interceptor_passes r))).
  assert (Hreg : Processing.fetchSuggestion userData (RawOk r) =
                 [ ApiPost "/user/suggest-item" (JObj userData);
                   Navigate "/recommendation"
                     (JObj (<["recommendation" := data r]> ∅)) ]).
  { rewrite (registered_call _ _ Hc). unfold getSuggestion. rewrite Hok.
    reflexivity. }
  assert (Hguest : Guest.trace_of
                     (Guest.handleSubmit sessionData formData completeData
                        (RawOk r))
                   = (GuestTrace.prefix sessionData formData completeData
                      ++ [ConsoleLog "Suggestion Response:"])
                     ++ GuestTrace.delivery sessionData (data r)).
  { rewrite (guest_call _ _ _ _ Hs). unfold getGuestSuggestion. rewrite Hok.
    reflexivity. }
  assert (Hrec : get "recommendation"
                   (JObj (<["recommendation" := data r]> ∅)) = data r).
  { unfold get, field. map_lookups. reflexivity. }
  assert (Hu : Recommendation.user_recommendation
                 [ ApiPost "/user/suggest-item" (JObj userData);
                   Navigate "/recommendation"
                     (JObj (<["recommendation" := data r]> ∅)) ]
               = if truthy (data r) then Some (data r) else None).
  { rewrite (recommendation_read _ _ _). rewrite Hrec. reflexivity. }
  split; [exact Hreg|]. rewrite Hreg, Hguest, Hu.
  split; [apply stored_app; reflexivity|].
  unfold Recommendation.guest_recommendation.
  rewrite navigates_app by reflexivity.
  rewrite (stored_app "guestSuggestion" _ _ (data r)) by reflexivity.
  rewrite (stored_app "guestSessionData" _ _ sessionData) by reflexivity.
  rewrite Hs.
  split; intros Hd; rewrite Hd; split; reflexivity.
Qed.

Lemma primary_suggestion_passes_through_witness :
  Recommendation.user_recommendation
    (Processing.fetchSuggestion Samples.complete_user Samples.ok_response)
    = Some Samples.suggestion_body.
Proof.
  destruct (primary_suggestion_passes_through Samples.complete_user
              Samples.session Samples.guest_form Samples.guest_submitted
              {| status := 200; data := Samples.suggestion_body |}
              eq_refl eq_refl) as (_ & _ & H & _).
  exact (proj1 (H eq_refl)).
Defined.

(** ** The admin dashboard: list, filter, save and delete *)

Lemma includes_empty (s : string) : includes "" s = true.
Proof. destruct s; reflexivity. Qed.

Section AdminFilterFacts.
Variable toLowerCase : string -> string.

Lemma matches_named (searchText : string) (item : JsVal) :
  AdminScreen.matches toLowerCase searchText item = None
  <-> AdminScreen.has_name item = false.
Proof.
  unfold AdminScreen.matches, AdminScreen.has_name.
  destruct (get "item_name" item); split; intros H;
    try reflexivity; discriminate.
Qed.

Lemma filter_list_throws (searchText : string) (l : list JsVal) :
  AdminScreen.filter_list toLowerCase searchText l = None
  <-> forallb AdminScreen.has_name l = false.
Proof.
  induction l as [|x l IH]; simpl; [split; discriminate|].
  destruct (AdminScreen.matches toLowerCase searchText x) as [b|] eqn:Hm.
  - assert (Hx : AdminScreen.has_name x = true).
    { destruct (AdminScreen.has_name x) eqn:E; [reflexivity|].
      apply (proj2 (matches_named searchText x)) in E.
      rewrite E in Hm. discriminate. }
    rewrite Hx. simpl.
    destruct (AdminScreen.filter_list toLowerCase searchText l) as [kept|];
      rewrite <- IH; split; intros H; try reflexivity; discriminate.
  - apply (proj1 (matches_named searchText x)) in Hm.
    rewrite Hm. simpl. split; reflexivity.
Qed.

Lemma filter_list_sublist (searchText : string) (l kept : list JsVal) :
  AdminScreen.filter_list toLowerCase searchText l = Some kept ->
  sublist kept l.
Proof.
  revert kept. induction l as [|x l IH]; simpl; intros kept H.
  - injection H as <-. constructor.
  - destruct (AdminScreen.matches toLowerCase searchText x) as [b|];
      [|discriminate].
    destruct (AdminScreen.filter_list toLowerCase searchText l) as [k|];
      [|discriminate].
    injection H as <-. destruct b.
    + apply sublist_skip. exact (IH k eq_refl).
    + apply sublist_cons. exact (IH k eq_refl).
Qed.

Lemma filter_list_all (l : list JsVal) :
  toLowerCase "" = "" ->
  forallb AdminScreen.has_name l = true ->
  AdminScreen.filter_list toLowerCase "" l = Some l.
Proof.
  intros Hlow. induction l as [|x l IH]; simpl; intros H; [reflexivity|].
  apply andb_true_iff in H as [Hx Hl]. rewrite (IH Hl).
  unfold AdminScreen.matches. unfold AdminScreen.has_name in Hx.
  destruct (get "item_name" x); try discriminate.
  rewrite Hlow, includes_empty. reflexivity.
Qed.
End AdminFilterFacts.

(** X13: the search filter of the admin dashboard.  The filter throws
    exactly when the items are not an array or one of them has no string
    name; otherwise it keeps a sub-sequence of the items, in their order.
    With an empty search text (lower-casing the empty string gives the
    empty string) every item is kept. *)
Theorem admin_filter_behaviour
    (toLowerCase : string -> string) (items : JsVal) (searchText : string) :
  (AdminScreen.filter_items toLowerCase items searchText = None
   <-> match items with
       | JArr l => forallb AdminScreen.has_name l = false
       | _ => True
       end)
  /\ (forall kept,
        AdminScreen.filter_items toLowerCase items searchText = Some kept ->
        exists l, items = JArr l /\ sublist kept l)
  /\ (toLowerCase "" = "" ->
      forall l, forallb AdminScreen.has_name l = true ->
        AdminScreen.filter_items toLowerCase (JArr l) "" = Some l).
Proof.
  split; [|split].
  - destruct items; simpl; try (split; [intros _; exact I | reflexivity]).
    apply filter_list_throws.
  - intros kept H. destruct items; simpl in H; try discriminate.
    eexists. split; [reflexivity|].
    exact (filter_list_sublist toLowerCase searchText _ _ H).
  - intros Hlow l Hl. simpl. exact (filter_list_all toLowerCase l Hlow Hl).
Qed.

Lemma admin_filter_behaviour_witness :
  AdminScreen.filter_items MoreSamples.ascii_lower
    (JArr [Samples.existing_item; Samples.existing_item]) ""
  = Some [Samples.existing_item; Samples.existing_item].
Proof.
  destruct (admin_filter_behaviour MoreSamples.ascii_lower (JArr []) "")
    as (_ & _ & H).
  apply H; reflexivity.
Defined.

Example admin_filter_ignores_case :
  AdminScreen.filter_items MoreSamples.ascii_lower
    (JArr [Samples.existing_item]) "SAMBAR"
  = Some [Samples.existing_item].
Proof. reflexivity. Qed.

(** X14: a timed-out admin request is reported as a success.  When the
    save request times out the handler shows 'Item created successfully'
    (or 'updated' while editing), closes the modal and refreshes the
    list; when the delete request times out it shows 'Item deleted
    successfully' and refreshes.  Any other failure shows the failure
    message and nothing else: the modal stays open and the list is not
    refreshed. *)
Theorem admin_timeout_reported_as_success
    (values : gmap string JsVal) (st : AdminScreen.State) (record : JsVal)
    (e : AxiosError) :
  (is_timeout e = true ->
     AdminScreen.handleSave values (RawErr e) st =
       [ ApiPost "/admin/menu"
           (JObj (Admin.payload values (AdminScreen.editingItem st)));
         MessageSuccess
           (JStr ("Item " ++ (if truthy (AdminScreen.editingItem st)
                              then "updated" else "created")
                  ++ " successfully")%string);
         SetModalVisible false;
         FetchItems ]
     /\ AdminScreen.handleDelete record (RawErr e) =
          [ AdminScreen.ApiDelete "/admin/menu/" (get "item_id" record);
            AdminScreen.Success "Item deleted successfully";
            AdminScreen.Refetch ])
  /\ (is_timeout e = false ->
        AdminScreen.handleSave values (RawErr e) st =
          [ ApiPost "/admin/menu"
              (JObj (Admin.payload values (AdminScreen.editingItem st)));
            MessageError (JStr "Failed to save item") ]
        /\ AdminScreen.handleDelete record (RawErr e) =
             [ AdminScreen.ApiDelete "/admin/menu/" (get "item_id" record);
               AdminScreen.Error "Failed to delete item" ]).
Proof.
  split; intros Ht.
  - unfold AdminScreen.handleSave, Admin.handleSave, AdminScreen.handleDelete,
      saveMenuItem, AdminScreen.deleteMenuItem.
    rewrite (post_data_timeout e Ht). split; reflexivity.
  - unfold AdminScreen.handleSave, Admin.handleSave, AdminScreen.handleDelete,
      saveMenuItem, AdminScreen.deleteMenuItem.
    rewrite (post_data_error e Ht). split; reflexivity.
Qed.

Lemma admin_timeout_reported_as_success_witness :
  AdminScreen.handleDelete Samples.existing_item (RawErr Samples.timeout_error)
  = [ AdminScreen.ApiDelete "/admin/menu/" (JStr "15cb87fe");
      AdminScreen.Success "Item deleted successfully";
      AdminScreen.Refetch ].
Proof.
  destruct (admin_timeout_reported_as_success Samples.form_values
              AdminScreen.initial Samples.existing_item Samples.timeout_error)
    as [H _].
  exact (proj2 (H eq_refl)).
Defined.



(** What a saved payload is made of.  Every key other than
    suitable_for carries exactly the value of the form, so the id of the
    item being edited is sent only if the form values hold it; pressing
    Add after Edit forgets the edited item, so the next save carries the
    full default suitability and reports a creation. *)
Theorem admin_payload_frame
    (values : gmap string JsVal) (editingItem record : JsVal)
    (st : AdminScreen.State) (k : string) :
  (k <> "suitable_for" ->
     Admin.payload values editingItem !! k = values !! k)
  /\ AdminScreen.editingItem
       (AdminScreen.handleAdd (AdminScreen.handleEdit record st)) = JNull
  /\ AdminScreen.editingItem (AdminScreen.handleEdit record st) = record
  /\ AdminScreen.modalVisible (AdminScreen.handleAdd st) = true
  /\ AdminScreen.modalVisible (AdminScreen.handleEdit record st) = true
  /\ (forall r,
        AdminScreen.handleSave values (RawOk r)
          (AdminScreen.handleAdd (AdminScreen.handleEdit record st)) =
          [ ApiPost "/admin/menu"
              (JObj (<["suitable_for" := Admin.default_suitable_for]> values));
            MessageSuccess (JStr "Item created successfully");
            SetModalVisible false;
            FetchItems ]).
Proof.
  split; [|repeat split].
  intros Hk. unfold Admin.payload. apply lookup_insert_ne. congruence.
Qed.

Lemma admin_payload_frame_witness :
  Admin.payload Samples.form_values Samples.existing_item !! "item_id" = None.
Proof.
  destruct (admin_payload_frame Samples.form_values Samples.existing_item
              Samples.existing_item AdminScreen.initial "item_id") as [H _].
  rewrite H; [reflexivity | discriminate].
Defined.

(** ** The menu explorer *)

Lemma filter_sublist {A : Type} (f : A -> bool) (l : list A) :
  sublist (List.filter f l) l.
Proof.
  induction l as [|x l IH]; simpl; [constructor|].
  destruct (f x); [apply sublist_skip | apply sublist_cons]; exact IH.
Qed.

Lemma le_gt_exclusive (a : Questions.Number) (b : Z) :
  MenuExplorer.le a b = true -> Questions.gt a b = true -> False.
Proof.
  destruct a as [q|]; simpl; [|discriminate].
  intros ->. discriminate.
Qed.

Lemma le_gt_finite (a : Questions.Number) (b : Z) :
  MenuExplorer.is_finite a = true ->
  MenuExplorer.le a b = true \/ Questions.gt a b = true.
Proof.
  destruct a as [q|]; simpl; [|discriminate].
  intros _. destruct (Qle_bool q (inject_Z b)); [left | right]; reflexivity.
Qed.

(** X16: the calorie filters of the menu explorer split the search
    results.  With a non-empty menu, 'low-cal' and 'high-cal' each keep a
    sub-sequence of the menu, no item is in both, and an item of the search
    results is in one of them exactly when its calories are a number: an
    item whose calories are NaN is shown under 'all' only. *)
Theorem explorer_calorie_partition
    (toLowerCase trim : string -> string) (searchQuery : string)
    (allMenuItems low high : list MenuExplorer.MenuItem) :
  MenuExplorer.applyFilters toLowerCase trim "low-cal" searchQuery allMenuItems
    = Some low ->
  MenuExplorer.applyFilters toLowerCase trim "high-cal" searchQuery allMenuItems
    = Some high ->
  allMenuItems <> []
  /\ sublist low allMenuItems /\ sublist high allMenuItems
  /\ (forall item, In item low -> In item high -> False)
  /\ (forall item,
        In item (MenuExplorer.searched toLowerCase trim searchQuery allMenuItems) ->
        (In item low \/ In item high
         <-> MenuExplorer.is_finite (MenuExplorer.calories item) = true))
  /\ MenuExplorer.applyFilters toLowerCase trim "all" searchQuery allMenuItems
       = Some (MenuExplorer.searched toLowerCase trim searchQuery allMenuItems).
Proof.
  unfold MenuExplorer.applyFilters.
  destruct allMenuItems as [|x rest] eqn:Hall; [discriminate|].
  rewrite <- Hall. replace (length allMenuItems =? 0)%nat with false
    by (rewrite Hall; reflexivity).
  unfold MenuExplorer.by_category. simpl.
  intros Hlow Hhigh. injection Hlow as <-. injection Hhigh as <-.
  assert (Hs : sublist
            (MenuExplorer.searched toLowerCase trim searchQuery allMenuItems)
            allMenuItems).
  { unfold MenuExplorer.searched.
    destruct (truthy (JStr (trim searchQuery)));
      [apply filter_sublist | reflexivity]. }
  split; [rewrite Hall; discriminate|].
  split; [etransitivity; [apply filter_sublist | exact Hs]|].
  split; [etransitivity; [apply filter_sublist | exact Hs]|].
  split; [|split; [|reflexivity]].
  - intros item Hl Hh.
    apply List.filter_In in Hl as [_ Hl]. apply List.filter_In in Hh as [_ Hh].
    exact (le_gt_exclusive _ _ Hl Hh).
  - intros item Hin. split.
    + intros [H|H]; apply List.filter_In in H as [_ H];
        destruct (MenuExplorer.calories item); try reflexivity;
        discriminate.
    + intros Hfin. destruct (le_gt_finite _ 250 Hfin) as [H|H];
        [left | right]; apply List.filter_In; split; assumption.
Qed.

Lemma explorer_calorie_partition_witness :
  ExplorerSamples.menu <> []
  /\ sublist [ExplorerSamples.idli] ExplorerSamples.menu
  /\ sublist [ExplorerSamples.masala] ExplorerSamples.menu.
Proof.
  destruct (explorer_calorie_partition MoreSamples.ascii_lower
              ExplorerSamples.trim_spaces " " ExplorerSamples.menu
              [ExplorerSamples.idli] [ExplorerSamples.masala]
              eq_refl eq_refl) as (H1 & H2 & H3 & _).
  exact (conj H1 (conj H2 H3)).
Defined.

Example explorer_search_uses_untrimmed_query :
  MenuExplorer.applyFilters MoreSamples.ascii_lower
    ExplorerSamples.trim_spaces "all" "dosa " ExplorerSamples.menu = Some []
  /\ MenuExplorer.applyFilters MoreSamples.ascii_lower
       ExplorerSamples.trim_spaces "all" "dosa" ExplorerSamples.menu
     = Some [ExplorerSamples.masala].
Proof. split; reflexivity. Qed.

(** ** The mobile questionnaire *)

Lemma written_key (st : MobileQuiz.State) (key : string) :
  (MobileQuiz.currentStep st <= 2)%nat ->
  existsb (String.eqb key) (MobileQuiz.written_at (MobileQuiz.currentStep st))
    = true ->
  key <> "height_weight".
Proof.
  intros Hstep H. apply existsb_exists in H as (k & Hin & Hk).
  apply String.eqb_eq in Hk. subst k.
  destruct (MobileQuiz.currentStep st) as [|[|[|n]]]; simpl in Hin;
    [ | | | lia];
    intuition (subst; discriminate).
Qed.

Lemma mobile_step_invariant (st : MobileQuiz.State) (e : MobileQuiz.Event) :
  (MobileQuiz.currentStep st <= 2)%nat
  /\ MobileQuiz.submitted st = false
  /\ MobileQuiz.questionnaireData st !! "height_weight" = None ->
  (MobileQuiz.currentStep (MobileQuiz.react st e) <= 2)%nat
  /\ MobileQuiz.submitted (MobileQuiz.react st e) = false
  /\ MobileQuiz.questionnaireData (MobileQuiz.react st e) !! "height_weight"
     = None.
Proof.
  intros (Hstep & Hsub & Hdata). destruct e as [key value| |]; simpl.
  - destruct (existsb _ _) eqn:Hw; [|tauto].
    simpl. repeat split; try assumption.
    rewrite lookup_insert_ne; [exact Hdata|].
    intros E. exact (written_key st key Hstep Hw E).
  - destruct (MobileQuiz.isCurrentStepValid st) eqn:Hvalid; [|tauto].
    unfold MobileQuiz.isCurrentStepValid in Hvalid.
    unfold MobileQuiz.handleNext.
    destruct (MobileQuiz.currentStep st) as [|[|[|n]]] eqn:Hc; simpl;
      try (repeat split; (lia || assumption)).
    simpl in Hvalid. unfold field in Hvalid. rewrite Hdata in Hvalid.
    discriminate.
  - unfold MobileQuiz.handlePrevious.
    destruct (0 <? MobileQuiz.currentStep st)%nat; simpl;
      repeat split; (lia || assumption).
Qed.

(** X17: the mobile questionnaire cannot be completed.  The third of its
    five questions is validated under the key height_weight, which no input
    writes (the inputs write height and weight), so whatever the user
    enters and presses, the questionnaire never gets past the third
    question, never submits, and Next is disabled on the third question. *)
Theorem mobile_quiz_stops_at_third_question
    (events : list MobileQuiz.Event) :
  let st := MobileQuiz.run events MobileQuiz.initial in
  (MobileQuiz.currentStep st <= 2)%nat
  /\ MobileQuiz.submitted st = false
  /\ (MobileQuiz.currentStep st = 2%nat ->
        MobileQuiz.isCurrentStepValid st = false).
Proof.
  intros st. subst st.
  assert (Hinv : forall evs s,
            (MobileQuiz.currentStep s <= 2)%nat
            /\ MobileQuiz.submitted s = false
            /\ MobileQuiz.questionnaireData s !! "height_weight" = None ->
            (MobileQuiz.currentStep (MobileQuiz.run evs s) <= 2)%nat
            /\ MobileQuiz.submitted (MobileQuiz.run evs s) = false
            /\ MobileQuiz.questionnaireData (MobileQuiz.run evs s)
                 !! "height_weight" = None).
  { induction evs as [|e evs IH]; intros s Hs; [exact Hs|].
    simpl. apply IH. apply mobile_step_invariant. exact Hs. }
  destruct (Hinv events MobileQuiz.initial) as (Hstep & Hsub & Hdata).
  { repeat split. simpl. lia. }
  repeat split; try assumption.
  intros H2. unfold MobileQuiz.isCurrentStepValid. rewrite H2. simpl.
  unfold field. rewrite Hdata. reflexivity.
Qed.

Example mobile_quiz_reaches_third_question :
  MobileQuiz.currentStep
    (MobileQuiz.run
       [ MobileQuiz.Change "age" (num 30); MobileQuiz.Next;
         MobileQuiz.Change "gender" (JStr "female"); MobileQuiz.Next;
         MobileQuiz.Change "height" (num 170);
         MobileQuiz.Change "weight" (num 65); MobileQuiz.Next ]
       MobileQuiz.initial) = 2%nat.
Proof. reflexivity. Qed.

Lemma mobile_quiz_stops_at_third_question_witness :
  MobileQuiz.isCurrentStepValid
    (MobileQuiz.run
       [ MobileQuiz.Change "age" (num 30); MobileQuiz.Next;
         MobileQuiz.Change "gender" (JStr "female"); MobileQuiz.Next;
         MobileQuiz.Change "height" (num 170);
         MobileQuiz.Change "weight" (num 65); MobileQuiz.Next ]
       MobileQuiz.initial) = false.
Proof.
  apply (mobile_quiz_stops_at_third_question
           [ MobileQuiz.Change "age" (num 30); MobileQuiz.Next;
             MobileQuiz.Change "gender" (JStr "female"); MobileQuiz.Next;
             MobileQuiz.Change "height" (num 170);
             MobileQuiz.Change "weight" (num 65); MobileQuiz.Next ]).
  reflexivity.
Defined.

